(** * The native test runner of build/android (run_tests.py)

    A shallow embedding of [src/android/run_tests.py]: the sharder that
    splits a suite's test list over the attached devices, the single-device
    path [RunTests], the retrying [_RunATestSuite] and the batch driver
    [Dispatch], followed by the properties the specification states about
    them.  The class [Xvfb] of the same script and [main] of
    [src/protoc_java.py] are embedded after them, each with a machine of its
    own, and the last sections prove what the code shows besides.

    The script talks to devices, emulators, the file system and the test
    binaries.  Those collaborators are gathered in one record of oracles
    ([Env]); every oracle reads the history of events that happened so far,
    so that a device may appear between two suites or a run may time out
    the first time only.  Every effect of the script is recorded as an
    [Event]; a function of the script maps the history to its result and to
    the events it adds. *)

From Stdlib Require Import ZArith String Ascii Lia Bool DecimalString.
From stdpp Require Import base list.

Open Scope string_scope.
Open Scope list_scope.
Open Scope nat_scope.

(** ** Python values *)

(** Truth value of a string: [None] and [''] are false.  An option that was
    not given ([None]) is modelled as the empty string. *)
Definition truthy (s : string) : bool := negb (s =? "")%string.

(** [l[lo:hi]] for non-negative [lo] and [hi]: both ends are clamped to the
    length of the list and an empty range gives the empty list. *)
Definition slice {A} (l : list A) (lo hi : nat) : list A :=
  take (hi - lo) (drop lo l).

(** [sep.join(l)]. *)
Definition join (sep : string) (l : list string) : string := String.concat sep l.

(** *** os.path (posixpath) *)

Definition startswith_slash (s : string) : bool :=
  match s with
  | String c _ => Ascii.eqb c "/"
  | EmptyString => false
  end.

Fixpoint endswith_slash (s : string) : bool :=
  match s with
  | EmptyString => false
  | String c EmptyString => Ascii.eqb c "/"
  | String _ s' => endswith_slash s'
  end.

(** One step of [os.path.join(a, b)]. *)
Definition path_join (a b : string) : string :=
  if startswith_slash b then b
  else if (a =? "")%string || endswith_slash a then (a ++ b)%string
  else (a ++ "/" ++ b)%string.

(** [os.path.basename(p)]: what follows the last slash. *)
Fixpoint basename (p : string) : string :=
  match p with
  | EmptyString => EmptyString
  | String c p' =>
      if existsb (Ascii.eqb "/") (list_ascii_of_string p') then basename p'
      else if Ascii.eqb c "/" then p'
      else p
  end.

(** The part of a file name from its last dot on, or nothing when the name
    has no dot that follows a character other than a dot. *)
Fixpoint ext_of_name (seen_other : bool) (name : string) : string :=
  match name with
  | EmptyString => EmptyString
  | String c name' =>
      match ext_of_name (seen_other || negb (Ascii.eqb c ".")) name' with
      | EmptyString =>
          if Ascii.eqb c "." && seen_other then name else EmptyString
      | e => e
      end
  end.

(** [os.path.splitext(p)[1]]. *)
Definition splitext_ext (p : string) : string := ext_of_name false (basename p).

(** ** Data model *)

Definition Device := string.

(** [BaseTestResult(name, log)]. *)
Record BaseTestResult := mkBaseTestResult {
  result_name : string;
  result_log : string
}.

(** [TestResults]: the lists and flags of a result object that the script
    reads, in the order [TestResults.FromOkAndFailed] takes them. *)
Record TestResults := FromOkAndFailed {
  ok : list BaseTestResult;
  failed : list BaseTestResult;
  timed_out : bool;
  overall_fail : bool
}.

(** The arguments a [SingleTestRunner] is constructed with. *)
Record SingleTestRunner := mkSingleTestRunner {
  runner_device : Device;
  runner_test_suite : string;
  runner_gtest_filter : string;
  runner_test_arguments : string;
  runner_timeout : Z;
  runner_rebaseline : bool;
  runner_performance_test : bool;
  runner_cleanup_test_files : bool;
  runner_tool : string;
  runner_shard_index : nat;
  runner_dump_debug_info : bool
}.

(** The fields of a [TestSharder]. *)
Record TestSharder := mkTestSharder {
  sharder_attached_devices : list Device;
  sharder_test_suite : string;
  sharder_test_suite_basename : string;
  sharder_gtest_filter : string;
  sharder_test_arguments : string;
  sharder_timeout : Z;
  sharder_rebaseline : bool;
  sharder_performance_test : bool;
  sharder_cleanup_test_files : bool;
  sharder_tool : string;
  sharder_tests : list string
}.

(** ** TestSharder.CreateShardedTestRunner *)

(** [shard_size] and [shard_test_list] of [CreateShardedTestRunner].  The
    division raises [ZeroDivisionError] when no device is attached: [None]. *)
Definition shard_size (self : TestSharder) : option nat :=
  match length (sharder_attached_devices self) with
  | O => None
  | S _ as n => Some (length (sharder_tests self) / n)
  end.

Definition shard_test_list (self : TestSharder) (index : nat) : option (list string) :=
  match shard_size self with
  | None => None
  | Some shard_size =>
      Some (slice (sharder_tests self) (index * shard_size) ((index + 1) * shard_size))
  end.

Definition CreateShardedTestRunner (self : TestSharder) (device : Device) (index : nat)
  : option SingleTestRunner :=
  match shard_test_list self index with
  | None => None
  | Some shard_test_list =>
      let test_filter := join ":" shard_test_list in
      Some (mkSingleTestRunner device (sharder_test_suite self) test_filter
              (sharder_test_arguments self) (sharder_timeout self)
              (sharder_rebaseline self) (sharder_performance_test self)
              (sharder_cleanup_test_files self) (sharder_tool self) index false)
  end.

(** ** Options, events and the environment *)

(** The [options] object built by [main]: one object, shared by [Dispatch]
    and every call of [_RunATestSuite], which assign to [test_suite],
    [fast_and_loose] and [repeat]. *)
Record Options := mkOptions {
  test_suite : string;
  rebaseline : bool;
  gtest_filter : string;
  test_arguments : string;
  performance_test : bool;
  log_dump : string;
  use_emulator : Z;
  use_xvfb : bool;
  fast_and_loose : bool;
  repeat : Z;
  annotate : bool;
  apk : bool;
  timeout : Z;
  cleanup_test_files : bool;
  tool : string
}.

Definition set_test_suite (suite : string) (o : Options) : Options :=
  mkOptions suite (rebaseline o) (gtest_filter o) (test_arguments o)
    (performance_test o) (log_dump o) (use_emulator o) (use_xvfb o)
    (fast_and_loose o) (repeat o) (annotate o) (apk o) (timeout o)
    (cleanup_test_files o) (tool o).

Definition set_fast_and_loose (b : bool) (o : Options) : Options :=
  mkOptions (test_suite o) (rebaseline o) (gtest_filter o) (test_arguments o)
    (performance_test o) (log_dump o) (use_emulator o) (use_xvfb o)
    b (repeat o) (annotate o) (apk o) (timeout o)
    (cleanup_test_files o) (tool o).

Definition set_repeat (n : Z) (o : Options) : Options :=
  mkOptions (test_suite o) (rebaseline o) (gtest_filter o) (test_arguments o)
    (performance_test o) (log_dump o) (use_emulator o) (use_xvfb o)
    (fast_and_loose o) n (annotate o) (apk o) (timeout o)
    (cleanup_test_files o) (tool o).

(** The defaults [main] gives to the option parser. *)
Definition default_options : Options :=
  mkOptions "" false "" "" false "" 0%Z false false 2%Z true false 0%Z false "".

(** What the script does to the outside world.  [EvPrint] and [EvCritical]
    keep the format string and its arguments apart.  The last two
    constructors are marks, not effects: [EvEnter] stands at the entry of
    [_RunATestSuite] with the contents of the options object at that
    moment, [EvVerdict] at its last line with the results it returns the
    failure count of. *)
Inductive Event :=
| EvXvfbStart
| EvXvfbStop
| EvPrint (format : string) (args : list string)
| EvCritical (format : string) (args : list string)
| EvEmulatorLaunch (fast : bool) (kill_all_emulators : bool) (device : Device)
| EvConfirmLaunch (device : Device)
| EvShutdown (device : Device)
| EvGetAttachedDevices (devices : list Device)
| EvSingleTestRunner (test : SingleTestRunner)
| EvGetAllTests (test : SingleTestRunner) (all_tests : list string)
| EvGetDisabledTests (test : SingleTestRunner) (disabled_list : list string)
| EvRun (test : SingleTestRunner) (test_results : TestResults) (dump : option string)
| EvUpdateFilter (test : SingleTestRunner) (failed_tests : list BaseTestResult)
| EvLogFull (test_results : TestResults)
| EvZipAndCleanResults (dest_dir log_dump_name : string) (dumps : list string)
| EvEnter (options : Options)
| EvVerdict (test_results : TestResults).

(** The collaborators.  Each answer may depend on everything that happened
    before the question. *)
Record Env := mkEnv {
  CHROME_DIR : string;
  abspath : string -> string;
  os_path_exists : list Event -> string -> bool;
  fnmatch : string -> string -> bool;
  GetAttachedDevices : list Event -> list Device;
  Emulator_device : list Event -> Device;
  GetAllTests : list Event -> SingleTestRunner -> list string;
  GetDisabledTests : list Event -> SingleTestRunner -> list string;
  Run : list Event -> SingleTestRunner -> TestResults * option string;
  FromTestResults : list TestResults -> TestResults
}.

(** ** Computations *)

(** A computation reads the history and gives its result and the events
    it adds.  The result is [None] when a Python exception leaves the
    function ([IndexError], [ZeroDivisionError], [NameError]) or when the
    model ran out of fuel. *)
Definition W (A : Type) : Type := list Event -> option A * list Event.

Definition ret {A} (a : A) : W A := fun _ => (Some a, []).

Definition raise {A} : W A := fun _ => (None, []).

Definition bind {A B} (m : W A) (f : A -> W B) : W B :=
  fun h =>
    match m h with
    | (Some a, e1) => let (r, e2) := f a (h ++ e1) in (r, e1 ++ e2)
    | (None, e1) => (None, e1)
    end.

Definition emit (e : Event) : W unit := fun _ => (Some tt, [e]).

Definition ask {A} (oracle : list Event -> A) : W A := fun h => (Some (oracle h), []).

Declare Scope W_scope.
Delimit Scope W_scope with W.
Notation "x <- m ;; k" := (bind m (fun x => k))
  (at level 100, m at next level, right associativity) : W_scope.
Notation "m ;; k" := (bind m (fun _ => k))
  (at level 100, right associativity) : W_scope.
Open Scope W_scope.

Definition when (b : bool) (m : W unit) : W unit := if b then m else ret tt.

Fixpoint mapM {A B} (f : A -> W B) (l : list A) : W (list B) :=
  match l with
  | [] => ret []
  | a :: l' => b <- f a ;; bs <- mapM f l' ;; ret (b :: bs)
  end.

(** [str(n)] for an integer. *)
Definition str (n : Z) : string := DecimalString.NilZero.string_of_int (Z.to_int n).

(** ** The script *)

Definition _TEST_SUITES : list string :=
  ["base_unittests"; "content_unittests"; "gpu_unittests"; "ipc_tests";
   "net_unittests"; "sql_unittests"; "sync_unit_tests"; "ui_unittests"].

Section Script.

Variable env : Env.

(** A question to a collaborator, recorded with its answer. *)
Definition call {A} (oracle : list Event -> A) (record : A -> Event) : W A :=
  a <- ask oracle ;; emit (record a) ;; ret a.

(** [FullyQualifiedTestSuites]. *)
Definition test_suite_dir : string :=
  abspath env (path_join (path_join (CHROME_DIR env) "out") "Release").

Definition FullyQualifiedTestSuites (apk : bool) : list string :=
  if apk then
    map (fun t => path_join (path_join test_suite_dir (t ++ "_apk")%string)
                    "ChromeNativeTests-debug.apk") _TEST_SUITES
  else
    map (fun t => path_join test_suite_dir t) _TEST_SUITES.

(** The body of the loop of [RunTests], for the suite [t]. *)
Definition RunTests_suite (device : Device) (gtest_filter test_arguments : string)
    (rebaseline : bool) (timeout : Z) (performance_test cleanup_test_files : bool)
    (tool log_dump_name : string) (annotate : bool) (t : string)
  : W (TestResults * option string) :=
  when annotate (emit (EvPrint "@@@BUILD_STEP Test suite %s@@@" [basename t])) ;;
  let test := mkSingleTestRunner device t gtest_filter test_arguments timeout
                rebaseline performance_test cleanup_test_files tool 0
                (truthy log_dump_name) in
  emit (EvSingleTestRunner test) ;;
  ran <- call (fun h => Run env h test) (fun ran => EvRun test (fst ran) (snd ran)) ;;
  when rebaseline (emit (EvUpdateFilter test (failed (fst ran)))) ;;
  emit (EvLogFull (fst ran)) ;;
  ret ran.

(** [RunTests]. *)
Definition RunTests (device : Device) (test_suite gtest_filter test_arguments : string)
    (rebaseline : bool) (timeout : Z) (performance_test cleanup_test_files : bool)
    (tool log_dump_name : string) (apk annotate : bool) : W TestResults :=
  exists_ <- (if truthy test_suite then ask (fun h => os_path_exists env h test_suite)
              else ret true) ;;
  if truthy test_suite && negb exists_
     && negb (splitext_ext test_suite =? ".apk")%string then
    emit (EvCritical "Unrecognized test suite %s, supported: %s"
            (test_suite :: _TEST_SUITES)) ;;
    when (existsb (String.eqb test_suite) _TEST_SUITES)
      (emit (EvCritical "(Remember to include the path: out/Release/%s)" [test_suite])) ;;
    ret (FromOkAndFailed [] [mkBaseTestResult test_suite ""] false false)
  else
    let fully_qualified_test_suites :=
      if truthy test_suite then [test_suite] else FullyQualifiedTestSuites apk in
    emit (EvPrint "Known suites: " _TEST_SUITES) ;;
    emit (EvPrint "Running these: " fully_qualified_test_suites) ;;
    ran <- mapM (RunTests_suite device gtest_filter test_arguments rebaseline timeout
                   performance_test cleanup_test_files tool log_dump_name annotate)
             fully_qualified_test_suites ;;
    let results := map fst ran in
    let debug_info_list := map snd ran in
    emit (EvZipAndCleanResults
            (path_join (path_join (path_join (CHROME_DIR env) "out") "Release")
               "debug_info_dumps")
            log_dump_name (omap id debug_info_list)) ;;
    (if annotate then
       match last results with
       | None => raise
       | Some test_results =>
           if timed_out test_results then emit (EvPrint "@@@STEP_WARNINGS@@@" [])
           else if negb (bool_decide (failed test_results = [])) then
             emit (EvPrint "@@@STEP_FAILURE@@@" [])
           else if overall_fail test_results then
             emit (EvPrint "@@@STEP_FAILURE@@@" [])
           else emit (EvPrint "Step success!" [])
       end
     else ret tt) ;;
    ret (FromTestResults env results).

(** [TestSharder.__init__]. *)
Definition TestSharder__init__ (attached_devices : list Device)
    (test_suite gtest_filter test_arguments : string) (timeout : Z)
    (rebaseline performance_test cleanup_test_files : bool) (tool : string)
  : W TestSharder :=
  match attached_devices with
  | [] => raise
  | device0 :: _ =>
      let test := mkSingleTestRunner device0 test_suite gtest_filter test_arguments
                    timeout rebaseline performance_test cleanup_test_files tool 0
                    false in
      emit (EvSingleTestRunner test) ;;
      all_tests <- call (fun h => GetAllTests env h test) (EvGetAllTests test) ;;
      all_tests <-
        (if negb rebaseline then
           disabled_list <- call (fun h => GetDisabledTests env h test)
                              (EvGetDisabledTests test) ;;
           ret (List.filter
                  (fun t => negb (existsb (fun disabled_pattern =>
                                             fnmatch env t disabled_pattern)
                                    disabled_list))
                  all_tests)
         else ret all_tests) ;;
      ret (mkTestSharder attached_devices test_suite (basename test_suite)
             gtest_filter test_arguments timeout rebaseline performance_test
             cleanup_test_files tool all_tests)
  end.

(** [TestSharder.OnTestsCompleted]. *)
Definition OnTestsCompleted (self : TestSharder) (test_runners : list SingleTestRunner)
    (test_results : TestResults) : W unit :=
  emit (EvLogFull test_results) ;;
  if negb (bool_decide (failed test_results = [])) && sharder_rebaseline self then
    match test_runners with
    | [] => raise
    | runner0 :: _ => emit (EvUpdateFilter runner0 (failed test_results))
    end
  else ret tt.

(** The runners of the shards, one for each device in the order of the
    pool, numbered from [index]. *)
Fixpoint create_runners (self : TestSharder) (devices : list Device) (index : nat)
  : W (list SingleTestRunner) :=
  match devices with
  | [] => ret []
  | device :: devices' =>
      match CreateShardedTestRunner self device index with
      | None => raise
      | Some test_runner =>
          emit (EvSingleTestRunner test_runner) ;;
          test_runners <- create_runners self devices' (S index) ;;
          ret (test_runner :: test_runners)
      end
  end.

(** Modelled from the spec: [BaseTestSharder.RunShardedTests]
    (base_test_sharder.py is not among the sources).  The specification of
    the sharder says that each target's partition, joined with [:], is
    dispatched to one runner, one task for each target, that the results of
    the shards are merged in the order of the targets, and that
    [OnTestsCompleted] is then called once with the merged results.  A run
    is one event here, the moment it reports its results. *)
Definition RunShardedTests (self : TestSharder) : W TestResults :=
  test_runners <- create_runners self (sharder_attached_devices self) 0 ;;
  ran <- mapM (fun test => call (fun h => Run env h test)
                             (fun ran => EvRun test (fst ran) (snd ran)))
           test_runners ;;
  let test_results := FromTestResults env (map fst ran) in
  OnTestsCompleted self test_runners test_results ;;
  ret test_results.

(** The loop of lines 309 to 315, over [range(options.use_emulator)]
    ([TimeProfile] only logs durations and is left out). *)
Fixpoint launch_emulators (fast_and_loose : bool) (ns : list nat)
  : W (list Device) :=
  match ns with
  | [] => ret []
  | n :: ns' =>
      device <- call (Emulator_device env)
                  (EvEmulatorLaunch fast_and_loose (Nat.eqb n 0)) ;;
      devices <- launch_emulators fast_and_loose ns' ;;
      ret (device :: devices)
  end.

(** Lines 305 to 320 of [_RunATestSuite]: the attached devices and the
    emulators that were launched. *)
Definition acquire_targets (options : Options) : W (list Device * list Device) :=
  if negb (use_emulator options =? 0)%Z then
    emulators <- launch_emulators (fast_and_loose options)
                   (seq 0 (Z.to_nat (use_emulator options))) ;;
    mapM (fun device => emit (EvConfirmLaunch device)) emulators ;;
    ret (emulators, emulators)
  else
    attached_devices <- call (GetAttachedDevices env) EvGetAttachedDevices ;;
    ret (attached_devices, []).

(** Lines 326 to 342: the choice between the sharder and [RunTests]. *)
Definition run_on_targets (options : Options) (attached_devices : list Device)
  : W TestResults :=
  if (1 <? length attached_devices) && truthy (test_suite options)
     && negb (truthy (gtest_filter options)) && negb (performance_test options) then
    sharder <- TestSharder__init__ attached_devices (test_suite options)
                 (gtest_filter options) (test_arguments options) (timeout options)
                 (rebaseline options) (performance_test options)
                 (cleanup_test_files options) (tool options) ;;
    RunShardedTests sharder
  else
    match attached_devices with
    | [] => raise
    | device0 :: _ =>
        RunTests device0 (test_suite options) (gtest_filter options)
          (test_arguments options) (rebaseline options) (timeout options)
          (performance_test options) (cleanup_test_files options) (tool options)
          (log_dump options) (apk options) (annotate options)
    end.

(** One pass through the body of [_RunATestSuite] up to line 345: [None]
    when no device is attached (the function then returns 1), the test
    results otherwise. *)
Definition run_attempt (options : Options) : W (option TestResults) :=
  targets <- acquire_targets options ;;
  let attached_devices := fst targets in
  let buildbot_emulators := snd targets in
  if bool_decide (attached_devices = []) then
    emit (EvCritical "A device must be attached and online." []) ;;
    ret None
  else
    test_results <- run_on_targets options attached_devices ;;
    mapM (fun buildbot_emulator => emit (EvShutdown buildbot_emulator))
      buildbot_emulators ;;
    ret (Some test_results).

(** [_RunATestSuite].  The recursion of the script is not structural: each
    call consumes one unit of [fuel].  The options object is returned with
    the failure count, since the function assigns to it. *)
Fixpoint _RunATestSuite (fuel : nat) (options : Options) : W (Z * Options) :=
  match fuel with
  | O => raise
  | S fuel' =>
      emit (EvEnter options) ;;
      attempt <- run_attempt options ;;
      match attempt with
      | None => ret (1%Z, options)
      | Some test_results =>
          if timed_out test_results && negb (repeat options =? 0)%Z then
            emit (EvCritical "Timed out; repeating in fast_and_loose mode." []) ;;
            let options := set_fast_and_loose true options in
            let options := set_repeat (repeat options - 1)%Z options in
            emit (EvCritical "Repeats left: " [str (repeat options)]) ;;
            _RunATestSuite fuel' options
          else
            emit (EvVerdict test_results) ;;
            ret (Z.of_nat (length (failed test_results)), options)
      end
  end.

(** [ListTestSuites]. *)
Definition ListTestSuites : W unit :=
  emit (EvPrint "Available test suites are:" []) ;;
  mapM (fun test_suite => emit (EvPrint test_suite [])) _TEST_SUITES ;;
  ret tt.

(** The loop of [Dispatch]. *)
Fixpoint Dispatch_loop (fuel : nat) (all_test_suites : list string)
    (failures : Z) (options : Options) : W (Z * Options) :=
  match all_test_suites with
  | [] => ret (failures, options)
  | suite :: rest =>
      let options := set_test_suite suite options in
      ran <- _RunATestSuite fuel options ;;
      Dispatch_loop fuel rest (failures + fst ran)%Z (snd ran)
  end.

(** [Dispatch].  [Xvfb.Start] and [Xvfb.Stop] are one event each. *)
Definition Dispatch (fuel : nat) (options : Options) : W (Z * Options) :=
  if (test_suite options =? "help")%string then
    ListTestSuites ;;
    ret (0%Z, options)
  else
    when (use_xvfb options) (emit EvXvfbStart) ;;
    let all_test_suites :=
      if truthy (test_suite options) then [test_suite options]
      else FullyQualifiedTestSuites (apk options) in
    ran <- Dispatch_loop fuel all_test_suites 0%Z options ;;
    let failures := fst ran in
    let options := snd ran in
    when (use_xvfb options) (emit EvXvfbStop) ;;
    when (annotate options) (emit (EvPrint "@@@BUILD_STEP Test Finished@@@" [])) ;;
    ret (failures, options).

End Script.

(** ** The process environment *)

(** [os.environ], as the list of the variables that are set, each once. *)
Definition Environ := list (string * string).

(** [environ.get(name)]. *)
Fixpoint environ_get (name : string) (environ : Environ) : option string :=
  match environ with
  | [] => None
  | (n, value) :: environ' =>
      if (n =? name)%string then Some value else environ_get name environ'
  end.

Definition environ_remove (name : string) (environ : Environ) : Environ :=
  List.filter (fun variable => negb (fst variable =? name)%string) environ.

(** [environ[name] = value]. *)
Definition environ_set (name value : string) (environ : Environ) : Environ :=
  (name, value) :: environ_remove name environ.

(** [del environ[name]]: [KeyError], here [None], when [name] is not set. *)
Definition environ_del (name : string) (environ : Environ) : option Environ :=
  match environ_get name environ with
  | Some _ => Some (environ_remove name environ)
  | None => None
  end.

(** ** The class [Xvfb] *)

Module Xvfb.

(** The names bound in the module [run_tests] when [Xvfb.Stop] runs: what
    it imports (lines 51 to 67) and what it defines. *)
Definition module_names : list string :=
  ["fnmatch"; "logging"; "multiprocessing"; "os"; "re"; "subprocess"; "sys"; "time";
   "android_commands"; "BaseTestSharder"; "cmd_helper"; "debug_info"; "emulator";
   "run_tests_helper"; "SingleTestRunner"; "TestPackageExecutable"; "BaseTestResult";
   "TestResults"; "_TEST_SUITES"; "FullyQualifiedTestSuites"; "TimeProfile"; "Xvfb";
   "RunTests"; "TestSharder"; "_RunATestSuite"; "Dispatch"; "ListTestSuites"; "main"].

(** The machine: [sys.platform], the pid of the Xvfb process that [Popen]
    starts, and the status [os.waitpid] gives for each [xdpyinfo], numbered
    from 0. *)
Record Host := mkHost {
  sys_platform : string;
  Xvfb_pid : Z;
  xdpyinfo_retcode : nat -> Z
}.

(** What the class does to the machine. *)
Inductive Action :=
| Popen (args : list string)
| Popen_shell (command : string)
| waitpid
| sleep (milliseconds : Z)
| kill (pid : Z) (sig : string).

(** The object and the environment of the process. *)
Record State := mkState {
  _pid : Z;
  environ : Environ
}.

(** [Xvfb()] in a process with the environment [environ]. *)
Definition __init__ (environ : Environ) : State := mkState 0 environ.

Definition _IsLinux (host : Host) : bool := String.prefix "linux" (sys_platform host).

(** The loop of lines 143 to 148 over [tests]; [retcode] is the variable of
    that name, [None] while it is not bound. *)
Fixpoint confirm (host : Host) (tests : list nat) (retcode : option Z)
  : option Z * list Action :=
  match tests with
  | [] => (retcode, [])
  | test :: tests' =>
      let retcode := xdpyinfo_retcode host test in
      if (retcode =? 0)%Z then (Some retcode, [Popen_shell "xdpyinfo >/dev/null"; waitpid])
      else
        let (last_retcode, actions) := confirm host tests' (Some retcode) in
        (last_retcode,
         Popen_shell "xdpyinfo >/dev/null" :: waitpid :: sleep 250 :: actions)
  end.

(** [Start]: the message of the exception it raises, if any, the state it
    leaves and what it did. *)
Definition Start (host : Host) (self : State) : option string * State * list Action :=
  if negb (_IsLinux host) then (None, self, [])
  else
    let popen := Popen ["Xvfb"; ":9"; "-screen"; "0"; "1024x768x24"; "-ac"] in
    let self := mkState (Xvfb_pid host) (environ self) in
    if (_pid self =? 0)%Z then (Some "Could not start Xvfb", self, [popen])
    else
      let self := mkState (_pid self) (environ_set "DISPLAY" ":9" (environ self)) in
      let (retcode, actions) := confirm host (seq 0 10) None in
      match retcode with
      | None => (Some "NameError", self, popen :: actions)
      | Some retcode =>
          if negb (retcode =? 0)%Z then
            (Some "Could not confirm Xvfb happiness", self, popen :: actions)
          else (None, self, popen :: actions)
      end.

(** [Stop].  The arguments of [os.kill] are evaluated before the call: when
    [signal] is not bound, [NameError] is raised, and the bare [except]
    catches it as it would catch a failure of [os.kill]. *)
Definition Stop (self : State) : option string * State * list Action :=
  if negb (_pid self =? 0)%Z then
    let killed :=
      if existsb (String.eqb "signal") module_names
      then [kill (_pid self) "SIGKILL"] else [] in
    match environ_del "DISPLAY" (environ self) with
    | None => (Some "KeyError", self, killed)
    | Some environ => (None, mkState 0 environ, killed)
    end
  else (None, self, []).

End Xvfb.

(** ** protoc_java.py *)

Module protoc_java.

(** The options [main] reads after [parse_args] and [CheckOptions]; an
    option that was not given is the empty string, or [false] for
    [--nano]. *)
Record Options := mkOptions {
  depfile : string;
  protoc : string;
  proto_path : string;
  java_out_dir : string;
  srcjar : string;
  stamp : string;
  nano : bool;
  protoc_javalite_plugin_dir : string
}.

(** The machine: the directory [build_utils.TempDir] gives, [os.environ],
    [os.path.abspath], and whether [build_utils.CheckOutput] raises for a
    command in an environment. *)
Record Host := mkHost {
  temp_dir : string;
  os_environ : Environ;
  abspath : string -> string;
  CheckOutput_raises : list string -> Environ -> bool
}.

(** What [main] does to the machine, after the temporary directory was
    made. *)
Inductive Action :=
| print (line : string)
| CheckOutput (args : list string) (env : Environ)
| DeleteDirectory (dir_path : string)
| copytree (src dst : string)
| ZipDir (output base_dir : string)
| WriteDepfile (depfile_path first_gn_output : string) (inputs : list string)
| Touch (path : string).

(** How [main] ends: the value it returns, [None] at the end of its body,
    or the exception that leaves it. *)
Inductive Outcome :=
| Return (value : option Z)
| Raise (exception : string).

(** Lines 52 to 58. *)
Definition out_arg (host : Host) (options : Options) : string :=
  if nano options then
    let generator_args := ["optional_field_style=reftypes"; "store_unknown_fields=true"] in
    ("--javanano_out=" ++ join "," generator_args ++ ":" ++ temp_dir host)%string
  else ("--javalite_out=" ++ temp_dir host)%string.

(** Lines 60 to 65: [None] for the [KeyError] of [custom_env['PATH']]. *)
Definition custom_env (host : Host) (options : Options) : option Environ :=
  if truthy (protoc_javalite_plugin_dir options) then
    match environ_get "PATH" (os_environ host) with
    | None => None
    | Some PATH =>
        Some (environ_set "PATH"
                (abspath host (protoc_javalite_plugin_dir options) ++ ":" ++ PATH)%string
                (os_environ host))
    end
  else Some (os_environ host).

(** Lines 78 to 85, after the [with] block. *)
Definition finish (options : Options) (args : list string) : Outcome * list Action :=
  if truthy (depfile options) && negb (truthy (srcjar options)) then
    (Raise "AssertionError", [])
  else
    (Return None,
     (if truthy (depfile options)
      then [WriteDepfile (depfile options) (srcjar options) (args ++ [protoc options])]
      else [])
     ++ (if truthy (stamp options) then [Touch (stamp options)] else [])).

(** [main], from line 43 on. *)
Definition main (host : Host) (options : Options) (args : list string)
  : Outcome * list Action :=
  if negb (truthy (java_out_dir options)) && negb (truthy (srcjar options)) then
    (Return (Some 1%Z), [print "One of --java-out-dir or --srcjar must be specified."])
  else if negb (nano options) && negb (truthy (protoc_javalite_plugin_dir options)) then
    (Return (Some 1%Z),
     [print "One of --nano or --protoc-javalite-plugin-dir must be specified."])
  else
    match custom_env host options with
    | None => (Raise "KeyError", [])
    | Some custom_env =>
        let command :=
          [protoc options; "--proto_path"; proto_path options; out_arg host options]
          ++ args in
        if CheckOutput_raises host command custom_env then
          (Raise "CalledProcessError", [CheckOutput command custom_env])
        else
          let written :=
            if truthy (java_out_dir options) then
              [DeleteDirectory (java_out_dir options);
               copytree (temp_dir host) (java_out_dir options)]
            else [ZipDir (srcjar options) (temp_dir host)] in
          let (outcome, finished) := finish options args in
          (outcome, CheckOutput command custom_env :: written ++ finished)
    end.

(** The status of the process: [sys.exit(main(sys.argv[1:]))]. *)
Definition exit_status (outcome : Outcome) : Z :=
  match outcome with
  | Return None => 0
  | Return (Some value) => value
  | Raise _ => 1
  end.

End protoc_java.

(** * Observations and scenarios *)

(** ** Reading a trace *)

(** A runner is created, asked or run, or writes the disabled list. *)
Definition is_runner_event (e : Event) : bool :=
  match e with
  | EvSingleTestRunner _ | EvGetAllTests _ _ | EvGetDisabledTests _ _
  | EvRun _ _ _ | EvUpdateFilter _ _ => true
  | _ => false
  end.

(** The message of line 323. *)
Definition is_no_device (e : Event) : bool :=
  match e with
  | EvCritical format _ => (format =? "A device must be attached and online.")%string
  | _ => false
  end.

(** The message of line 351: a retry. *)
Definition is_retry (e : Event) : bool :=
  match e with
  | EvCritical format _ =>
      (format =? "Timed out; repeating in fast_and_loose mode.")%string
  | _ => false
  end.

Definition no_device_message : Event :=
  EvCritical "A device must be attached and online." [].

(** Anything but a write of the disabled list. *)
Definition no_update (e : Event) : bool :=
  match e with EvUpdateFilter _ _ => false | _ => true end.

(** The options at each entry of [_RunATestSuite]: one for each attempt. *)
Definition enters (evs : list Event) : list Options :=
  omap (fun e => match e with EvEnter o => Some o | _ => None end) evs.

(** The results of the attempts that ended a suite. *)
Definition verdicts (evs : list Event) : list TestResults :=
  omap (fun e => match e with EvVerdict r => Some r | _ => None end) evs.

(** The runners that were run. *)
Definition runs (evs : list Event) : list SingleTestRunner :=
  omap (fun e => match e with EvRun test _ _ => Some test | _ => None end) evs.

(** The writes of a disabled list: the runner that wrote, and what. *)
Definition updates (evs : list Event) : list (SingleTestRunner * list BaseTestResult) :=
  omap (fun e => match e with EvUpdateFilter test l => Some (test, l) | _ => None end)
    evs.


(** The number of retries in a trace. *)
Definition retry_count (evs : list Event) : nat := length (List.filter is_retry evs).

(** The suites that found no device. *)
Definition no_device_count (evs : list Event) : nat :=
  length (List.filter is_no_device evs).

(** The failed tests of a list of results. *)
Definition sum_failed (results : list TestResults) : Z :=
  fold_right (fun r n => (Z.of_nat (length (failed r)) + n)%Z) 0%Z results.

(** ** The events of each part of the script *)

(** The events of [acquire_targets]. *)
Definition acquire_event (e : Event) : bool :=
  match e with
  | EvEmulatorLaunch _ _ _ | EvConfirmLaunch _ | EvGetAttachedDevices _ => true
  | _ => false
  end.

(** The events of [RunTests] for a given [rebaseline]. *)
Definition RunTests_event (rebaseline : bool) (e : Event) : bool :=
  match e with
  | EvPrint _ _ | EvSingleTestRunner _ | EvRun _ _ _ | EvLogFull _
  | EvZipAndCleanResults _ _ _ => true
  | EvCritical format _ =>
      (format =? "Unrecognized test suite %s, supported: %s")%string
      || (format =? "(Remember to include the path: out/Release/%s)")%string
  | EvUpdateFilter _ _ => rebaseline
  | _ => false
  end.

(** The events of a sharder for a given [rebaseline]. *)
Definition sharder_event (rebaseline : bool) (e : Event) : bool :=
  match e with
  | EvSingleTestRunner _ | EvGetAllTests _ _ | EvRun _ _ _ | EvLogFull _ => true
  | EvGetDisabledTests _ _ => negb rebaseline
  | EvUpdateFilter _ _ => rebaseline
  | _ => false
  end.

(** The events of one pass through [run_attempt], the message about the
    missing device apart. *)
Definition attempt_event (rebaseline : bool) (e : Event) : bool :=
  acquire_event e || RunTests_event rebaseline e || sharder_event rebaseline e
  || match e with EvShutdown _ => true | _ => false end.

(** ** Specifications of computations *)

(** [returns Q m]: the computation [m] raises nothing, whatever happened
    before, and its result satisfies [Q]. *)
Definition returns {A} (Q : A -> Prop) (m : W A) : Prop :=
  forall h, exists a, fst (m h) = Some a /\ Q a.

(** [emits P m]: every event [m] adds satisfies [P]. *)
Definition emits {A} (P : Event -> bool) (m : W A) : Prop :=
  forall h, forallb P (snd (m h)) = true.

(** ** The parts of [_RunATestSuite] and [Dispatch] *)

(** The shard lists of all the devices of a sharder, in the order of the
    pool. *)
Definition all_shards (self : TestSharder) : list (option (list string)) :=
  map (shard_test_list self) (seq 0 (length (sharder_attached_devices self))).

(** The suite named by the options exists or is an apk, at the history
    [h]. *)
Definition recognised (env : Env) (h : list Event) (suite : string) : bool :=
  os_path_exists env h suite || (splitext_ext suite =? ".apk")%string.

(** The test of line 326 when a suite is named. *)
Definition shards (o : Options) (attached_devices : list Device) : bool :=
  (1 <? length attached_devices) && negb (truthy (gtest_filter o))
  && negb (performance_test o).

(** The runner [RunTests] builds for the suite [t]. *)
Definition single_runner (o : Options) (device : Device) (t : string)
  : SingleTestRunner :=
  mkSingleTestRunner device t (gtest_filter o) (test_arguments o) (timeout o)
    (rebaseline o) (performance_test o) (cleanup_test_files o) (tool o) 0
    (truthy (log_dump o)).

(** The call of [RunTests] at line 335. *)
Definition RunTests_of (env : Env) (o : Options) (device : Device)
  : W TestResults :=
  RunTests env device (test_suite o) (gtest_filter o) (test_arguments o)
    (rebaseline o) (timeout o) (performance_test o) (cleanup_test_files o)
    (tool o) (log_dump o) (apk o) (annotate o).

(** The test of line 350. *)
Definition retries (test_results : TestResults) (o : Options) : bool :=
  timed_out test_results && negb (repeat o =? 0)%Z.

(** The options after the assignments of a retry, and its two messages. *)
Definition retry_options (o : Options) : Options :=
  set_repeat (repeat o - 1)%Z (set_fast_and_loose true o).

Definition retry_messages (o : Options) : list Event :=
  [EvCritical "Timed out; repeating in fast_and_loose mode." [];
   EvCritical "Repeats left: " [str (repeat o - 1)%Z]].

(** The suites [Dispatch] runs. *)
Definition all_test_suites (env : Env) (o : Options) : list string :=
  if (test_suite o =? "help")%string then []
  else if truthy (test_suite o) then [test_suite o]
  else FullyQualifiedTestSuites env (apk o).

(** What [Dispatch] emits before and after its loop. *)
Definition xvfb_start (o : Options) : list Event :=
  if use_xvfb o then [EvXvfbStart] else [].

Definition dispatch_end (o : Options) : list Event :=
  (if use_xvfb o then [EvXvfbStop] else [])
  ++ (if annotate o then [EvPrint "@@@BUILD_STEP Test Finished@@@" []] else []).

(** ** Invariants of the retry loop and of the batch *)

(** Events after which the flag is set: the message of a retry, and an
    attempt entered with the flag. *)
Definition sets_flag (e : Event) : bool :=
  match e with
  | EvEnter o => fast_and_loose o
  | _ => is_retry e
  end.

(** [sticky set evs]: in [evs], once the flag is set ([set] tells whether it
    was before), every attempt is entered with the flag. *)
Fixpoint sticky (set : bool) (evs : list Event) : Prop :=
  match evs with
  | [] => True
  | e :: evs' =>
      match e with
      | EvEnter o => set = true -> fast_and_loose o = true
      | _ => True
      end
      /\ sticky (set || sets_flag e) evs'
  end.

(** The invariant of the flag along a computation that starts with the
    options [o] and returns the options it leaves. *)
Definition keeps_flag (o : Options) (res : option (Z * Options)) (evs : list Event)
  : Prop :=
  forall set, (set = true -> fast_and_loose o = true) ->
    sticky set evs
    /\ forall n o', res = Some (n, o') ->
         set || existsb sets_flag evs = true -> fast_and_loose o' = true.


(** A computation that starts with a named suite enters every attempt with
    a named suite and leaves the name as it was. *)
Definition names_suite (o : Options) (res : option (Z * Options)) (evs : list Event)
  : Prop :=
  test_suite o <> "" ->
  Forall (fun o' => test_suite o' <> "") (enters evs)
  /\ forall n o', res = Some (n, o') -> test_suite o' = test_suite o.

(** ** The attempts of a suite *)

(** The attempts in the events [evs] that follow the history [h]: for each
    entry of [_RunATestSuite], the options it was entered with and the
    history before the entry. *)
Fixpoint attempts_of (h : list Event) (evs : list Event) : list (Options * list Event) :=
  match evs with
  | [] => []
  | e :: evs' =>
      match e with
      | EvEnter o => [(o, h)]
      | _ => []
      end ++ attempts_of (h ++ [e]) evs'
  end.

(** The writes of the disabled list in the pass of [run_attempt] that an
    attempt makes after its entry. *)
Definition attempt_updates (env : Env) (attempt : Options * list Event)
  : list (SingleTestRunner * list BaseTestResult) :=
  updates (snd (run_attempt env (fst attempt) (snd attempt ++ [EvEnter (fst attempt)]))).

(** What one attempt writes, for the targets it acquires at the history
    [h].  Without a target, or without [rebaseline], nothing.  With
    [rebaseline], the sharder writes once when the merged results have
    failed tests, those tests, through the runner of the first target
    (index 0), and nothing when they have none; [RunTests] on the first
    target writes once, through its runner (index 0), when the suite exists
    or is an apk, and nothing when it rejects the suite. *)
Definition attempt_writes (env : Env) (o : Options) (h : list Event) : Prop :=
  exists attached_devices buildbot_emulators e_acq,
    acquire_targets env o h = (Some (attached_devices, buildbot_emulators), e_acq)
    /\ let writes := updates (snd (run_attempt env o h)) in
       match attached_devices with
       | [] => writes = []
       | device0 :: _ =>
           exists test_results,
             fst (run_attempt env o h) = Some (Some test_results)
             /\ (rebaseline o = false -> writes = [])
             /\ (rebaseline o = true -> shards o attached_devices = true ->
                 (failed test_results = [] -> writes = [])
                 /\ (failed test_results <> [] ->
                     exists writer,
                       writes = [(writer, failed test_results)]
                       /\ runner_device writer = device0
                       /\ runner_shard_index writer = 0))
             /\ (rebaseline o = true -> shards o attached_devices = false ->
                 (recognised env (h ++ e_acq) (test_suite o) = true ->
                  exists failed_tests,
                    writes = [(single_runner o device0 (test_suite o), failed_tests)]
                    /\ runner_shard_index (single_runner o device0 (test_suite o)) = 0)
                 /\ (recognised env (h ++ e_acq) (test_suite o) = false ->
                     writes = []))
       end.

(** The invariant of the writes along a suite: every attempt is for the
    same suite with the same [rebaseline] and writes as [attempt_writes]
    tells, and the writes of the suite are those of its attempts. *)
Definition writes_by_attempt (env : Env) (o : Options) (h : list Event)
    (res : option (Z * Options)) (evs : list Event) : Prop :=
  test_suite o <> "" ->
  Forall (fun attempt =>
            rebaseline (fst attempt) = rebaseline o
            /\ test_suite (fst attempt) = test_suite o
            /\ attempt_writes env (fst attempt) (snd attempt ++ [EvEnter (fst attempt)]))
    (attempts_of h evs)
  /\ updates evs = concat (map (attempt_updates env) (attempts_of h evs))
  /\ (forall n o', res = Some (n, o') -> length (attempts_of h evs) = S (retry_count evs)).

(** ** More observations *)

(** The options fields that neither [Dispatch] nor [_RunATestSuite] assigns
    to are the same in [o] and [o']. *)
Definition same_settings (o o' : Options) : Prop :=
  rebaseline o' = rebaseline o /\ gtest_filter o' = gtest_filter o
  /\ test_arguments o' = test_arguments o
  /\ performance_test o' = performance_test o /\ log_dump o' = log_dump o
  /\ use_emulator o' = use_emulator o /\ use_xvfb o' = use_xvfb o
  /\ annotate o' = annotate o /\ apk o' = apk o /\ timeout o' = timeout o
  /\ cleanup_test_files o' = cleanup_test_files o /\ tool o' = tool o.

(** The disabled list is written only with [rebaseline] and read only
    without it. *)
Definition respects_rebaseline (rb : bool) (e : Event) : bool :=
  match e with
  | EvUpdateFilter _ _ => rb
  | EvGetDisabledTests _ _ => negb rb
  | _ => true
  end.

(** The emulators launched and those shut down, in order. *)
Definition launched (evs : list Event) : list Device :=
  omap (fun e => match e with EvEmulatorLaunch _ _ d => Some d | _ => None end) evs.

Definition shut_down (evs : list Event) : list Device :=
  omap (fun e => match e with EvShutdown d => Some d | _ => None end) evs.

(** The flags the emulators were created with. *)
Definition launch_flags (evs : list Event) : list bool :=
  omap (fun e => match e with EvEmulatorLaunch fast _ _ => Some fast | _ => None end)
    evs.

Definition is_xvfb (e : Event) : bool :=
  match e with EvXvfbStart | EvXvfbStop => true | _ => false end.

(** The invariant of a computation on the options: the settings stay, the
    trace respects [rebaseline] and starts or stops no Xvfb. *)
Definition keeps_settings (o : Options) (res : option (Z * Options))
    (evs : list Event) : Prop :=
  forallb (fun e => respects_rebaseline (rebaseline o) e && negb (is_xvfb e)) evs = true
  /\ forall n o', res = Some (n, o') -> same_settings o o'.

(** The launches of the loop of lines 309 to 315 for the devices the
    emulators got, numbered from [n]: only the emulator of number 0 is
    launched with [kill_all_emulators]. *)
Fixpoint launches_from (fast : bool) (n : nat) (devices : list Device) : list Event :=
  match devices with
  | [] => []
  | device :: devices' =>
      EvEmulatorLaunch fast (Nat.eqb n 0) device :: launches_from fast (S n) devices'
  end.

Definition is_shutdown (e : Event) : bool :=
  match e with EvShutdown _ => true | _ => false end.

(** The events of the run of a suite on its targets, by the sharder or by
    [RunTests]. *)
Definition run_event (rebaseline : bool) (e : Event) : bool :=
  RunTests_event rebaseline e || sharder_event rebaseline e.

(** An emulator, when [e] launches one, is created with the flag [fast]. *)
Definition launch_with (fast : bool) (e : Event) : bool :=
  match e with
  | EvEmulatorLaunch fast' _ _ => Bool.eqb fast' fast
  | _ => true
  end.

(** [launches_track cur evs]: every emulator of [evs] is created with the
    flag as it stands, [cur] at first and set from the first retry on. *)
Fixpoint launches_track (cur : bool) (evs : list Event) : Prop :=
  match evs with
  | [] => True
  | e :: evs' =>
      match e with
      | EvEmulatorLaunch fast _ _ => fast = cur
      | _ => True
      end
      /\ launches_track (cur || is_retry e) evs'
  end.

(** The invariant of the emulators along a computation on the options. *)
Definition keeps_emulators (o : Options) (res : option (Z * Options))
    (evs : list Event) : Prop :=
  shut_down evs = launched evs
  /\ length (launched evs) = Z.to_nat (use_emulator o) * length (enters evs)
  /\ launches_track (fast_and_loose o) evs
  /\ forall n o', res = Some (n, o') ->
       use_emulator o' = use_emulator o
       /\ fast_and_loose o' = fast_and_loose o || existsb is_retry evs.


(** The results the runs reported, in the order of the runs. *)
Definition run_results (evs : list Event) : list TestResults :=
  omap (fun e => match e with EvRun _ r _ => Some r | _ => None end) evs.

(** The archives of debug dumps that were written. *)
Definition zips (evs : list Event) : list (string * string * list string) :=
  omap (fun e => match e with
                 | EvZipAndCleanResults dir name dumps => Some (dir, name, dumps)
                 | _ => None
                 end) evs.

(** The line [RunTests] prints for the step when it annotates, from the
    results it looks at. *)
Definition status_line (r : TestResults) : string :=
  if timed_out r then "@@@STEP_WARNINGS@@@"
  else if negb (bool_decide (failed r = [])) then "@@@STEP_FAILURE@@@"
  else if overall_fail r then "@@@STEP_FAILURE@@@"
  else "Step success!".

Definition is_status (e : Event) : bool :=
  match e with
  | EvPrint format _ =>
      (format =? "@@@STEP_WARNINGS@@@")%string
      || (format =? "@@@STEP_FAILURE@@@")%string
      || (format =? "Step success!")%string
  | _ => false
  end.

(** The suites [RunTests] runs when it does not reject the one it was
    given. *)
Definition suites_to_run (env : Env) (test_suite : string) (apk : bool) : list string :=
  if truthy test_suite then [test_suite] else FullyQualifiedTestSuites env apk.

(** The tests of a sharder for what the first runner answers: all the
    tests of the suite, or those that match no disabled pattern. *)
Definition enabled_tests (env : Env) (all_tests disabled_list : list string)
  : list string :=
  List.filter (fun t => negb (existsb (fnmatch env t) disabled_list)) all_tests.

(** A character of a path is a slash. *)
Definition has_slash (s : string) : bool :=
  existsb (Ascii.eqb "/") (list_ascii_of_string s).

(** The debug dumps the runs left, in the order of the runs. *)
Definition run_dumps (evs : list Event) : list string :=
  omap (fun e => match e with EvRun _ _ dump => dump | _ => None end) evs.

(** The directory of the archives of debug dumps. *)
Definition debug_info_dumps (env : Env) : string :=
  path_join (path_join (path_join (CHROME_DIR env) "out") "Release") "debug_info_dumps".

(** What the events [evs] of a sequence of runs by [RunTests] tell, for the
    suites that were run and what the runs gave: one runner for each suite,
    which writes its own failed tests when [rebaseline] is set; no archive
    and no status line yet. *)
Definition runs_of (o : Options) (device : Device) (suites : list string)
    (ran : list (TestResults * option string)) (evs : list Event) : Prop :=
  runs evs = map (single_runner o device) suites
  /\ run_results evs = map fst ran
  /\ run_dumps evs = omap id (map snd ran)
  /\ map fst (updates evs)
     = (if rebaseline o then map (single_runner o device) suites else [])
  /\ map snd (updates evs) = (if rebaseline o then map failed (map fst ran) else [])
  /\ zips evs = []
  /\ forallb (fun e => negb (is_status e)) evs = true.

(** The runner an event is about, if any. *)
Definition runner_of (e : Event) : option SingleTestRunner :=
  match e with
  | EvSingleTestRunner test | EvGetAllTests test _ | EvGetDisabledTests test _
  | EvRun test _ _ | EvUpdateFilter test _ => Some test
  | _ => None
  end.

(** The event [e] is about no runner, or about a runner of [suite]. *)
Definition for_suite (suite : string) (e : Event) : bool :=
  match runner_of e with
  | Some test => (runner_test_suite test =? suite)%string
  | None => true
  end.

(** [part] is what one suite of a batch adds to the trace: it begins with
    the entry of [_RunATestSuite] for that suite, and every runner in it is
    a runner of that suite. *)
Definition part_of_suite (suite : string) (part : list Event) : Prop :=
  (exists o rest, part = EvEnter o :: rest /\ test_suite o = suite)
  /\ forallb (for_suite suite) part = true.

(** ** The confirmation of Xvfb *)

(** A probe with [xdpyinfo] that failed, and the pause that follows it. *)
Definition failed_probe : list Xvfb.Action :=
  [Xvfb.Popen_shell "xdpyinfo >/dev/null"; Xvfb.waitpid; Xvfb.sleep 250].

(** What [Xvfb.Start] does when the probe of number [k] is the first that
    succeeds, or when none of the ten does ([k = 10]). *)
Definition start_actions (k : nat) : list Xvfb.Action :=
  Xvfb.Popen ["Xvfb"; ":9"; "-screen"; "0"; "1024x768x24"; "-ac"]
  :: concat (replicate k failed_probe)
  ++ (if k <? 10 then [Xvfb.Popen_shell "xdpyinfo >/dev/null"; Xvfb.waitpid] else []).

(** The state after a start that got the process [pid]. *)
Definition started (pid : Z) (self : Xvfb.State) : Xvfb.State :=
  Xvfb.mkState pid (environ_set "DISPLAY" ":9" (Xvfb.environ self)).

(** ** The run of protoc *)

(** The command line of protoc. *)
Definition protoc_command (host : protoc_java.Host) (o : protoc_java.Options)
    (args : list string) : list string :=
  [protoc_java.protoc o; "--proto_path"; protoc_java.proto_path o;
   protoc_java.out_arg host o] ++ args.

(** The two checks of lines 43 to 49 pass. *)
Definition validated (o : protoc_java.Options) : bool :=
  (truthy (protoc_java.java_out_dir o) || truthy (protoc_java.srcjar o))
  && (protoc_java.nano o || truthy (protoc_java.protoc_javalite_plugin_dir o)).

(** Everything [main] needs to go to its end: the checks pass, [PATH] is
    set when it is read, protoc succeeds, and a depfile has its srcjar. *)
Definition succeeds (host : protoc_java.Host) (o : protoc_java.Options)
    (args : list string) : bool :=
  validated o
  && match protoc_java.custom_env host o with
     | Some env => negb (protoc_java.CheckOutput_raises host (protoc_command host o args) env)
     | None => false
     end
  && (negb (truthy (protoc_java.depfile o)) || truthy (protoc_java.srcjar o)).


(** What [RunTests] logs for a suite it rejects, and the results it gives
    for it. *)
Definition rejected_messages (suite : string) : list Event :=
  EvCritical "Unrecognized test suite %s, supported: %s" (suite :: _TEST_SUITES)
  :: (if existsb (String.eqb suite) _TEST_SUITES
      then [EvCritical "(Remember to include the path: out/Release/%s)" [suite]]
      else []).

Definition rejected_results (suite : string) : TestResults :=
  FromOkAndFailed [] [mkBaseTestResult suite ""] false false.

(** ** Scenarios *)

(** Modelled from the spec: the merge of partial results ([TestResults.FromTestResults];
    test_result.py is not among the sources), the union of the sets and the
    disjunction of the two flags.  The script takes the merge from [Env];
    the scenarios below use this one. *)
Definition merge_results (results : list TestResults) : TestResults :=
  FromOkAndFailed (concat (map ok results)) (concat (map failed results))
    (existsb timed_out results) (existsb overall_fail results).

(** A bench where [devices] tells the attached devices, every path exists
    or none does, the suite has the tests A to E, no test is disabled and
    each run gives [results]. *)
Definition bench (devices : list Event -> list Device) (exists_ : bool)
    (results : TestResults) : Env :=
  mkEnv "/src" (fun p => p) (fun _ _ => exists_) (fun _ _ => false) devices
    (fun _ => "emulator-5554") (fun _ _ => ["A"; "B"; "C"; "D"; "E"])
    (fun _ _ => []) (fun _ _ => (results, None)) merge_results.

(** The results of a run that hangs, of one that passes and of one that
    fails. *)
Definition results_timed_out : TestResults :=
  FromOkAndFailed [] [mkBaseTestResult "T.Hangs" ""] true false.

Definition results_passed : TestResults :=
  FromOkAndFailed [mkBaseTestResult "T.Passes" ""] [] false false.

Definition results_failed : TestResults :=
  FromOkAndFailed [] [mkBaseTestResult "T.Fails" ""] false false.

(** The default options for one suite, for a suite that does not exist, and
    with [rebaseline]. *)
Definition options_net : Options :=
  set_test_suite "out/Release/net_unittests" default_options.

Definition options_nosuch : Options :=
  set_test_suite "out/Release/nosuch_unittests" default_options.

Definition options_rebaseline (suite : string) : Options :=
  mkOptions suite true "" "" false "" 0%Z false false 2%Z true false 0%Z false "".

(** The example of the specification: five tests on two devices. *)
Definition sharder_ABCDE : TestSharder :=
  mkTestSharder ["device0"; "device1"] "net_unittests" "net_unittests" "" "" 0%Z
    false false false "" ["A"; "B"; "C"; "D"; "E"].

(** One device; every run times out. *)
Definition bench_timeouts : Env :=
  bench (fun _ => ["device0"]) true results_timed_out.

(** The first run of the first suite times out, every other run passes. *)
Definition bench_one_timeout : Env :=
  mkEnv "/src" (fun p => p) (fun _ _ => true) (fun _ _ => false)
    (fun _ => ["device0"]) (fun _ => "emulator-5554")
    (fun _ _ => ["A"; "B"; "C"; "D"; "E"]) (fun _ _ => [])
    (fun h _ => (if existsb is_retry h then results_passed else results_timed_out, None))
    merge_results.

(** One device; every run has one failed test. *)
Definition bench_one_failure : Env := bench (fun _ => ["device0"]) true results_failed.

(** No device is attached, ever. *)
Definition bench_no_device : Env := bench (fun _ => []) true results_passed.

(** A device that is attached only after the first suite has been given
    up. *)
Definition bench_late_device : Env :=
  bench (fun h => if existsb is_no_device h then ["device0"] else []) true
    results_failed.

(** The options of one suite with [n] emulators. *)
Definition options_emulators (n : Z) : Options :=
  mkOptions "out/Release/net_unittests" false "" "" false "" n false false 2%Z true
    false 0%Z false "".

(** A device is attached, and each emulator gets the next even port; a run
    times out until a retry was logged. *)
Definition bench_emulators : Env :=
  mkEnv "/src" (fun p => p) (fun _ _ => true) (fun _ _ => false)
    (fun _ => ["device0"])
    (fun h => ("emulator-" ++ str (5554 + 2 * Z.of_nat (length (launched h))))%string)
    (fun _ _ => ["A"; "B"; "C"; "D"; "E"]) (fun _ _ => [])
    (fun h _ => (if existsb is_retry h then results_passed else results_timed_out, None))
    merge_results.

(** Two devices; the test C is disabled, a pattern matches its own name
    only. *)
Definition bench_disabled : Env :=
  mkEnv "/src" (fun p => p) (fun _ _ => true) String.eqb
    (fun _ => ["device0"; "device1"]) (fun _ => "emulator-5554")
    (fun _ _ => ["A"; "B"; "C"; "D"; "E"]) (fun _ _ => ["C"])
    (fun _ _ => (results_passed, None)) merge_results.

(** One device; the first run fails, every later one passes. *)
Definition bench_first_fails : Env :=
  mkEnv "/src" (fun p => p) (fun _ _ => true) (fun _ _ => false)
    (fun _ => ["device0"]) (fun _ => "emulator-5554")
    (fun _ _ => ["A"; "B"; "C"; "D"; "E"]) (fun _ _ => [])
    (fun h _ => (match runs h with [] => results_failed | _ => results_passed end, None))
    merge_results.

(** Options for a srcjar with the lite plugin, and a machine where protoc
    succeeds. *)
Definition options_srcjar : protoc_java.Options :=
  protoc_java.mkOptions "gen/a.d" "out/protoc" "proto" "" "gen/a.srcjar" "gen/a.stamp"
    false "out/plugin".

Definition options_both_outputs : protoc_java.Options :=
  protoc_java.mkOptions "gen/a.d" "out/protoc" "proto" "gen/java" "gen/a.srcjar"
    "gen/a.stamp" true "".

Definition build_host : protoc_java.Host :=
  protoc_java.mkHost "/tmp/tmpXYZ" [("HOME", "/root"); ("PATH", "/usr/bin")]
    (fun p => ("/b/" ++ p)%string) (fun _ _ => false).

(** * Properties *)

(** ** The shards of a test list *)

Section Shards.

Context {A : Type}.
Implicit Types (l : list A) (s i j n : nat).

Lemma slice_shard l s i : slice l (i * s) ((i + 1) * s) = take s (drop (i * s) l).
Proof. unfold slice. f_equal. lia. Qed.

(** [n] full shards fit below [n * (length l / n)]. *)
Lemma shards_fit l n i : i < n -> (i + 1) * (length l / n) <= length l.
Proof.
  intros Hi.
  assert (Hn : n <> 0) by lia.
  pose proof (Nat.Div0.mul_div_le (length l) n) as Hle.
  nia.
Qed.

Lemma length_shard l n i :
  i < n -> length (take (length l / n) (drop (i * (length l / n)) l)) = length l / n.
Proof.
  intros Hi. pose proof (shards_fit l n i Hi).
  rewrite length_take, length_drop. lia.
Qed.

Lemma lookup_shard l s i k :
  k < s -> take s (drop (i * s) l) !! k = l !! (i * s + k).
Proof. intros Hk. rewrite lookup_take_lt by done. apply lookup_drop. Qed.

(** The first [n] shards, one after the other, are the first [n * s]
    elements. *)
Lemma concat_shards l s n :
  concat (map (fun i => take s (drop (i * s) l)) (seq 0 n)) = take (n * s) l.
Proof.
  induction n as [|n IH].
  - reflexivity.
  - rewrite seq_S, map_app, concat_app, IH. simpl.
    rewrite app_nil_r, take_take_drop. f_equal. lia.
Qed.

(** A later shard lies in what follows an earlier one. *)
Lemma shard_after l s i j x :
  i < j -> x ∈ take s (drop (j * s) l) -> x ∈ drop ((i + 1) * s) l.
Proof.
  intros Hij Hx.
  replace (j * s) with ((i + 1) * s + (j - (i + 1)) * s) in Hx by nia.
  rewrite <- drop_drop in Hx.
  by apply subseteq_take, subseteq_drop in Hx.
Qed.

Lemma shards_disjoint l s i j x :
  NoDup l -> i < j ->
  x ∈ take s (drop (i * s) l) -> x ∈ take s (drop (j * s) l) -> False.
Proof.
  intros Hnd Hij Hi Hj.
  apply (shard_after l s i j x Hij) in Hj.
  rewrite <- (take_drop (i * s) l) in Hnd.
  apply NoDup_app in Hnd as (_ & _ & Hnd).
  rewrite <- (take_drop s (drop (i * s) l)), drop_drop in Hnd.
  apply NoDup_app in Hnd as (_ & Hdisj & _).
  apply (Hdisj x Hi).
  by replace (i * s + s) with ((i + 1) * s) by lia.
Qed.

End Shards.

Lemma shard_test_list_eq (self : TestSharder) (i : nat) :
  1 <= length (sharder_attached_devices self) ->
  shard_test_list self i =
    Some (take (length (sharder_tests self) / length (sharder_attached_devices self))
            (drop (i * (length (sharder_tests self)
                        / length (sharder_attached_devices self)))
               (sharder_tests self))).
Proof.
  intros HN. unfold shard_test_list, shard_size.
  destruct (length (sharder_attached_devices self)) as [|n] eqn:E; [lia|].
  by rewrite slice_shard.
Qed.

(** C1. With [L] tests and [N >= 1] devices, the runner created for the
    device of index [i] gets the tests at positions [i * (L / N)] up to, but
    not including, [(i + 1) * (L / N)], joined with colons into its filter:
    a shard has [L / N] tests and its [k]-th test is the test at position
    [i * (L / N) + k].  The shards of all devices, one after the other, are
    the first [N * (L / N)] tests, so that the list of tests is the
    shards followed by [L mod N] tests that no shard holds. *)
Theorem C1_shard_is_contiguous_slice (self : TestSharder) (device : Device) (i : nat) :
  let tests := sharder_tests self in
  let L := length tests in
  let N := length (sharder_attached_devices self) in
  1 <= N -> i < N ->
  exists shard test_runner,
    shard_test_list self i = Some shard /\
    shard = slice tests (i * (L / N)) ((i + 1) * (L / N)) /\
    length shard = L / N /\
    (forall k, k < L / N -> shard !! k = tests !! (i * (L / N) + k)) /\
    (forall k, L / N <= k -> shard !! k = None) /\
    CreateShardedTestRunner self device i = Some test_runner /\
    runner_device test_runner = device /\
    runner_shard_index test_runner = i /\
    runner_gtest_filter test_runner = join ":" shard /\
    exists shards,
      all_shards self = map Some shards /\
      tests = concat shards ++ drop (N * (L / N)) tests /\
      length (concat shards) = N * (L / N) /\
      length (drop (N * (L / N)) tests) = L mod N.
Proof.
  intros tests L N HN Hi.
  pose proof (shard_test_list_eq self i HN) as Hshard.
  fold tests N in Hshard. subst L.
  exists (take (length tests / N) (drop (i * (length tests / N)) tests)).
  unfold CreateShardedTestRunner. rewrite Hshard. eexists.
  split; [done|]. split; [by rewrite slice_shard|].
  split; [by apply length_shard|].
  split; [by intros k Hk; apply lookup_shard|].
  split.
  { intros k Hk. apply lookup_ge_None. rewrite length_shard by done. exact Hk. }
  split; [reflexivity|]. do 3 (split; [reflexivity|]).
  exists (map (fun i => take (length tests / N) (drop (i * (length tests / N)) tests))
            (seq 0 N)).
  assert (Hfit : N * (length tests / N) <= length tests).
  { pose proof (Nat.Div0.mul_div_le (length tests) N). lia. }
  split.
  { unfold all_shards. fold N. rewrite map_map. apply map_ext_in.
    intros a _. rewrite (shard_test_list_eq self a HN). reflexivity. }
  rewrite concat_shards. split; [by rewrite take_drop|].
  split; [by rewrite length_take_le|].
  rewrite length_drop.
  pose proof (Nat.div_mod_eq (length tests) N). lia.
Qed.

Lemma C1_witness_ABCDE :
  shard_test_list sharder_ABCDE 0 = Some ["A"; "B"] /\
  shard_test_list sharder_ABCDE 1 = Some ["C"; "D"] /\
  all_shards sharder_ABCDE = [Some ["A"; "B"]; Some ["C"; "D"]] /\
  exists shard test_runner,
    shard_test_list sharder_ABCDE 1 = Some shard /\
    shard = slice ["A"; "B"; "C"; "D"; "E"] 2 4 /\
    length shard = 2 /\
    (forall k, k < 2 -> shard !! k = ["A"; "B"; "C"; "D"; "E"] !! (2 + k)) /\
    (forall k, 2 <= k -> shard !! k = None) /\
    CreateShardedTestRunner sharder_ABCDE "device1" 1 = Some test_runner /\
    runner_device test_runner = "device1" /\
    runner_shard_index test_runner = 1 /\
    runner_gtest_filter test_runner = join ":" shard /\
    exists shards,
      all_shards sharder_ABCDE = map Some shards /\
      ["A"; "B"; "C"; "D"; "E"] = concat shards ++ ["E"] /\
      length (concat shards) = 4 /\
      length ["E"] = 1.
Proof.
  split; [reflexivity|]. split; [reflexivity|]. split; [reflexivity|].
  apply (C1_shard_is_contiguous_slice sharder_ABCDE "device1" 1); simpl; lia.
Defined.

(** C9. When no test occurs twice in the list, the shards of two different
    devices have no test in common. *)
Theorem C9_shards_pairwise_disjoint (self : TestSharder) (i j : nat)
    (shard_i shard_j : list string) :
  let N := length (sharder_attached_devices self) in
  NoDup (sharder_tests self) ->
  1 <= N -> i < j -> j < N ->
  shard_test_list self i = Some shard_i ->
  shard_test_list self j = Some shard_j ->
  forall t, t ∈ shard_i -> t ∈ shard_j -> False.
Proof.
  intros N Hnd HN Hij HjN Hsi Hsj t Hti Htj.
  rewrite (shard_test_list_eq self i HN) in Hsi.
  rewrite (shard_test_list_eq self j HN) in Hsj.
  injection Hsi as <-. injection Hsj as <-.
  exact (shards_disjoint _ _ i j t Hnd Hij Hti Htj).
Qed.

Lemma C9_witness_ABCDE :
  NoDup (sharder_tests sharder_ABCDE) /\
  shard_test_list sharder_ABCDE 0 = Some ["A"; "B"] /\
  shard_test_list sharder_ABCDE 1 = Some ["C"; "D"] /\
  forall t, t ∈ ["A"; "B"] -> t ∈ ["C"; "D"] -> False.
Proof.
  assert (Hnd : NoDup (sharder_tests sharder_ABCDE)).
  { simpl.
    repeat (constructor;
            [rewrite ?not_elem_of_cons; repeat split; try discriminate;
             apply not_elem_of_nil|]).
    constructor. }
  split; [exact Hnd|]. split; [reflexivity|]. split; [reflexivity|].
  apply (C9_shards_pairwise_disjoint sharder_ABCDE 0 1 ["A"; "B"] ["C"; "D"]);
    simpl; try lia; try reflexivity.
  exact Hnd.
Defined.

(** ** Reasoning about computations *)

Section Computations.

Context {A B : Type}.

Lemma bind_Some (m : W A) (f : A -> W B) h a e1 r e2 :
  m h = (Some a, e1) -> f a (h ++ e1) = (r, e2) -> bind m f h = (r, e1 ++ e2).
Proof. intros Hm Hf. unfold bind. by rewrite Hm, Hf. Qed.

Lemma bind_None (m : W A) (f : A -> W B) h e1 :
  m h = (None, e1) -> bind m f h = (None, e1).
Proof. intros Hm. unfold bind. by rewrite Hm. Qed.

End Computations.

Section Rules.

Context {A B : Type}.
Implicit Types (P : Event -> bool).

Lemma returns_ret (Q : A -> Prop) a : Q a -> returns Q (ret a).
Proof. intros Ha h. by exists a. Qed.

Lemma returns_ask (Q : A -> Prop) (oracle : list Event -> A) :
  (forall h, Q (oracle h)) -> returns Q (ask oracle).
Proof. intros Ha h. by exists (oracle h). Qed.

Lemma returns_emit e : returns (fun _ => True) (emit e).
Proof. intros h. by exists tt. Qed.

Lemma returns_bind (Q1 : A -> Prop) (Q2 : B -> Prop) (m : W A) (f : A -> W B) :
  returns Q1 m -> (forall a, Q1 a -> returns Q2 (f a)) -> returns Q2 (bind m f).
Proof.
  intros Hm Hf h. destruct (Hm h) as (a & Ha & HQ). unfold bind.
  destruct (m h) as [r e1]. simpl in Ha. subst r.
  destruct (Hf a HQ (h ++ e1)) as (b & Hb & HQ2).
  destruct (f a (h ++ e1)) as [r e2]. simpl in *. by exists b.
Qed.

Lemma returns_call (Q : A -> Prop) (oracle : list Event -> A) record :
  (forall h, Q (oracle h)) -> returns Q (call oracle record).
Proof. intros Ha h. by exists (oracle h). Qed.

Lemma emits_ret P (a : A) : emits P (ret a).
Proof. by intros h. Qed.

Lemma emits_raise P : emits P (@raise A).
Proof. by intros h. Qed.

Lemma emits_ask P (oracle : list Event -> A) : emits P (ask oracle).
Proof. by intros h. Qed.

Lemma emits_emit P e : P e = true -> emits P (emit e).
Proof. intros He h. simpl. by rewrite He. Qed.

Lemma emits_bind P (m : W A) (f : A -> W B) :
  emits P m -> (forall a, emits P (f a)) -> emits P (bind m f).
Proof.
  intros Hm Hf h. specialize (Hm h). unfold bind.
  destruct (m h) as [[a|] e1]; [|done].
  specialize (Hf a (h ++ e1)). destruct (f a (h ++ e1)) as [r e2].
  simpl in *. rewrite forallb_app. by rewrite Hm, Hf.
Qed.

Lemma emits_call P (oracle : list Event -> A) record :
  (forall a, P (record a) = true) -> emits P (call oracle record).
Proof. intros He h. simpl. by rewrite He. Qed.

End Rules.

Lemma returns_mapM {A B} (f : A -> W B) (l : list A) :
  (forall a, returns (fun _ => True) (f a)) ->
  returns (fun bs => length bs = length l) (mapM f l).
Proof.
  intros Hf. induction l as [|a l IH]; simpl.
  - by apply returns_ret.
  - eapply returns_bind; [apply Hf|]. intros b _.
    eapply returns_bind; [apply IH|]. intros bs Hbs.
    apply returns_ret. simpl. by rewrite Hbs.
Qed.

Lemma emits_mapM {A B} P (f : A -> W B) (l : list A) :
  (forall a, emits P (f a)) -> emits P (mapM f l).
Proof.
  intros Hf. induction l as [|a l IH]; simpl.
  - apply emits_ret.
  - apply emits_bind; [apply Hf|]. intros b.
    apply emits_bind; [apply IH|]. intros bs. by intros h.
Qed.

Lemma returns_post {A} (Q : A -> Prop) (m : W A) h a e :
  returns Q m -> m h = (Some a, e) -> Q a.
Proof.
  intros Hm Hrun. destruct (Hm h) as (a' & Ha & HQ).
  rewrite Hrun in Ha. simpl in Ha. by injection Ha as <-.
Qed.

(** The rule for [bind] when what follows depends on the result. *)
Lemma emits_bind_returns {A B} P (Q : A -> Prop) (m : W A) (f : A -> W B) :
  returns Q m -> emits P m -> (forall a, Q a -> emits P (f a)) -> emits P (bind m f).
Proof.
  intros HQ Hm Hf h. specialize (Hm h). unfold bind.
  destruct (m h) as [[a|] e1] eqn:Hrun; [|done].
  pose proof (returns_post Q m h a e1 HQ Hrun) as Ha.
  specialize (Hf a Ha (h ++ e1)). destruct (f a (h ++ e1)) as [r e2].
  simpl in *. rewrite forallb_app. by rewrite Hm, Hf.
Qed.

Lemma returns_when b (m : W unit) :
  returns (fun _ => True) m -> returns (fun _ => True) (when b m).
Proof. intros Hm. destruct b; [exact Hm|by apply returns_ret]. Qed.

Lemma emits_when P b (m : W unit) : emits P m -> emits P (when b m).
Proof. intros Hm. destruct b; [exact Hm|apply emits_ret]. Qed.

(** The events a step adds, by decomposition of the computation. *)
Ltac emits_step :=
  lazymatch goal with
  | |- emits _ (ret _) => apply emits_ret
  | |- emits _ raise => apply emits_raise
  | |- emits _ (ask _) => apply emits_ask
  | |- emits _ (emit _) => apply emits_emit; reflexivity
  | |- emits _ (call _ _) => apply emits_call; intros; reflexivity
  | |- emits _ (when false _) => apply emits_ret
  | |- emits _ (when _ _) => apply emits_when
  | |- emits _ (mapM _ _) => apply emits_mapM; intros ?
  | |- emits _ (bind _ _) => apply emits_bind; [|intros ?]
  | |- emits _ (let _ := _ in _) => cbv zeta
  end.

Ltac emits_steps := repeat emits_step.

Lemma omap_nil_forallb {X Y} (f : X -> option Y) (P : X -> bool) (l : list X) :
  (forall x, P x = true -> f x = None) -> forallb P l = true -> omap f l = [].
Proof.
  intros Hf. induction l as [|x l IH]; simpl; [done|].
  intros [Hx Hl]%andb_prop. rewrite (Hf x Hx). auto.
Qed.

Lemma forallb_weaken {X} (P Q : X -> bool) (l : list X) :
  (forall x, P x = true -> Q x = true) -> forallb P l = true -> forallb Q l = true.
Proof. rewrite !forallb_forall. auto. Qed.

Lemma emits_weaken {A} (P Q : Event -> bool) (m : W A) :
  (forall e, P e = true -> Q e = true) -> emits P m -> emits Q m.
Proof. intros HPQ Hm h. eapply forallb_weaken; [exact HPQ|apply Hm]. Qed.

(** ** What each part of the script emits, and that it raises nothing *)

Section ScriptFacts.

Variable env : Env.

Lemma launch_emulators_emits fast ns :
  emits acquire_event (launch_emulators env fast ns).
Proof. induction ns as [|n ns IH]; simpl; emits_steps. exact IH. Qed.

Lemma launch_emulators_returns fast ns :
  returns (fun devices => length devices = length ns) (launch_emulators env fast ns).
Proof.
  induction ns as [|n ns IH]; simpl.
  - by apply returns_ret.
  - eapply returns_bind; [by apply (returns_call (fun _ => True))|]. intros d _.
    eapply returns_bind; [exact IH|]. intros ds Hds.
    apply returns_ret. simpl. by rewrite Hds.
Qed.

Lemma acquire_targets_emits options : emits acquire_event (acquire_targets env options).
Proof.
  unfold acquire_targets. destruct (negb _); emits_steps.
  apply launch_emulators_emits.
Qed.

(** The emulators are the attached devices, or there is no emulator. *)
Lemma acquire_targets_returns options :
  returns (fun targets => snd targets = fst targets \/ snd targets = [])
    (acquire_targets env options).
Proof.
  unfold acquire_targets. destruct (negb _).
  - eapply returns_bind; [apply launch_emulators_returns|]. intros ds _.
    eapply returns_bind.
    { apply returns_mapM. intros d. apply returns_emit. }
    intros _ _. apply returns_ret. by left.
  - eapply returns_bind; [by apply (returns_call (fun _ => True))|]. intros ds _.
    apply returns_ret. by right.
Qed.

Lemma RunTests_suite_emits device gtest_filter test_arguments rebaseline timeout
    performance_test cleanup_test_files tool log_dump_name annotate t :
  emits (RunTests_event rebaseline)
    (RunTests_suite env device gtest_filter test_arguments rebaseline timeout
       performance_test cleanup_test_files tool log_dump_name annotate t).
Proof. unfold RunTests_suite. destruct rebaseline; emits_steps. Qed.

Lemma RunTests_suite_returns device gtest_filter test_arguments rebaseline timeout
    performance_test cleanup_test_files tool log_dump_name annotate t :
  returns (fun _ => True)
    (RunTests_suite env device gtest_filter test_arguments rebaseline timeout
       performance_test cleanup_test_files tool log_dump_name annotate t).
Proof.
  unfold RunTests_suite.
  eapply returns_bind; [apply returns_when, returns_emit|]. intros _ _.
  eapply returns_bind; [apply returns_emit|]. intros _ _.
  eapply returns_bind; [by apply (returns_call (fun _ => True))|]. intros ran _.
  eapply returns_bind; [apply returns_when, returns_emit|]. intros _ _.
  eapply returns_bind; [apply returns_emit|]. intros _ _.
  by apply returns_ret.
Qed.

Lemma RunTests_emits device test_suite gtest_filter test_arguments rebaseline timeout
    performance_test cleanup_test_files tool log_dump_name apk annotate :
  emits (RunTests_event rebaseline)
    (RunTests env device test_suite gtest_filter test_arguments rebaseline timeout
       performance_test cleanup_test_files tool log_dump_name apk annotate).
Proof.
  unfold RunTests. apply emits_bind.
  { destruct (truthy test_suite); emits_steps. }
  intros exists_. destruct (_ && _); emits_steps.
  - apply RunTests_suite_emits.
  - destruct annotate; emits_steps.
    destruct (last _) as [r|]; emits_steps.
    destruct (timed_out r); emits_steps.
    destruct (negb _); emits_steps.
    destruct (overall_fail r); emits_steps.
Qed.

Lemma FullyQualifiedTestSuites_length apk :
  length (FullyQualifiedTestSuites env apk) = 8.
Proof. by destruct apk. Qed.

Lemma RunTests_returns device test_suite gtest_filter test_arguments rebaseline timeout
    performance_test cleanup_test_files tool log_dump_name apk annotate :
  returns (fun _ => True)
    (RunTests env device test_suite gtest_filter test_arguments rebaseline timeout
       performance_test cleanup_test_files tool log_dump_name apk annotate).
Proof.
  unfold RunTests. eapply (returns_bind (fun _ => True)).
  { destruct (truthy test_suite); [by apply returns_ask|by apply returns_ret]. }
  intros exists_ _. destruct (_ && _).
  - eapply returns_bind; [apply returns_emit|]. intros _ _.
    eapply returns_bind; [apply returns_when, returns_emit|]. intros _ _.
    by apply returns_ret.
  - eapply returns_bind; [apply returns_emit|]. intros _ _.
    eapply returns_bind; [apply returns_emit|]. intros _ _.
    eapply returns_bind.
    { apply returns_mapM. intros t. apply RunTests_suite_returns. }
    intros ran Hran.
    eapply returns_bind; [apply returns_emit|]. intros _ _.
    eapply (returns_bind (fun _ => True)); [|by intros; apply returns_ret].
    destruct annotate; [|by apply returns_ret].
    destruct (last (map fst ran)) as [r|] eqn:Hlast.
    + destruct (timed_out r); [apply returns_emit|].
      destruct (negb _); [apply returns_emit|].
      destruct (overall_fail r); apply returns_emit.
    + apply last_None in Hlast. apply (f_equal length) in Hlast.
      rewrite length_map, Hran in Hlast.
      destruct (truthy test_suite); [done|].
      by rewrite FullyQualifiedTestSuites_length in Hlast.
Qed.

Lemma TestSharder__init__emits attached_devices test_suite gtest_filter
    test_arguments timeout rebaseline performance_test cleanup_test_files tool :
  emits (sharder_event rebaseline)
    (TestSharder__init__ env attached_devices test_suite gtest_filter test_arguments
       timeout rebaseline performance_test cleanup_test_files tool).
Proof.
  unfold TestSharder__init__.
  destruct attached_devices as [|device0 rest]; [emits_steps|].
  destruct rebaseline; simpl; emits_steps.
Qed.

Lemma TestSharder__init__returns attached_devices test_suite gtest_filter
    test_arguments timeout rebaseline performance_test cleanup_test_files tool :
  attached_devices <> [] ->
  returns (fun self => sharder_attached_devices self = attached_devices
                       /\ sharder_rebaseline self = rebaseline)
    (TestSharder__init__ env attached_devices test_suite gtest_filter test_arguments
       timeout rebaseline performance_test cleanup_test_files tool).
Proof.
  intros Hne. unfold TestSharder__init__.
  destruct attached_devices as [|device0 rest]; [done|].
  eapply returns_bind; [apply returns_emit|]. intros _ _.
  eapply returns_bind; [by apply (returns_call (fun _ => True))|]. intros all_tests _.
  eapply (returns_bind (fun _ => True)).
  { destruct (negb rebaseline); [|by apply returns_ret].
    eapply returns_bind; [by apply (returns_call (fun _ => True))|]. intros dl _.
    by apply returns_ret. }
  intros tests _. by apply returns_ret.
Qed.

Lemma OnTestsCompleted_emits self test_runners test_results :
  emits (sharder_event (sharder_rebaseline self))
    (OnTestsCompleted self test_runners test_results).
Proof.
  unfold OnTestsCompleted. emits_steps.
  destruct (negb _); simpl; [|emits_steps].
  destruct (sharder_rebaseline self); [|emits_steps].
  destruct test_runners; emits_steps.
Qed.

Lemma OnTestsCompleted_returns self test_runners test_results :
  test_runners <> [] ->
  returns (fun _ => True) (OnTestsCompleted self test_runners test_results).
Proof.
  intros Hne. unfold OnTestsCompleted.
  eapply returns_bind; [apply returns_emit|]. intros _ _.
  destruct (_ && _); [|by apply returns_ret].
  destruct test_runners; [done|apply returns_emit].
Qed.

Lemma create_runners_emits self devices index :
  emits (sharder_event (sharder_rebaseline self)) (create_runners self devices index).
Proof.
  revert index. induction devices as [|device devices IH]; intros index; simpl.
  - emits_steps.
  - destruct (CreateShardedTestRunner self device index); emits_steps. apply IH.
Qed.

Lemma CreateShardedTestRunner_Some self device index :
  sharder_attached_devices self <> [] ->
  exists test_runner,
    CreateShardedTestRunner self device index = Some test_runner
    /\ runner_device test_runner = device
    /\ runner_shard_index test_runner = index
    /\ runner_rebaseline test_runner = sharder_rebaseline self.
Proof.
  intros Hne. unfold CreateShardedTestRunner, shard_test_list, shard_size.
  destruct (sharder_attached_devices self); [done|]. simpl. eauto.
Qed.

(** One runner for each device, in the order of the pool. *)
Lemma create_runners_returns self devices index :
  sharder_attached_devices self <> [] ->
  returns (fun test_runners =>
             map runner_device test_runners = devices
             /\ map runner_shard_index test_runners = seq index (length devices))
    (create_runners self devices index).
Proof.
  intros Hne. revert index.
  induction devices as [|device devices IH]; intros index; simpl.
  - by apply returns_ret.
  - destruct (CreateShardedTestRunner_Some self device index Hne)
      as (r & -> & Hd & Hi & _).
    eapply returns_bind; [apply returns_emit|]. intros _ _.
    eapply returns_bind; [apply IH|]. intros rs [Hds His].
    apply returns_ret. simpl. by rewrite Hd, Hi, Hds, His.
Qed.

Lemma RunShardedTests_emits self :
  emits (sharder_event (sharder_rebaseline self)) (RunShardedTests env self).
Proof.
  unfold RunShardedTests. emits_steps.
  - apply create_runners_emits.
  - apply OnTestsCompleted_emits.
Qed.

Lemma RunShardedTests_returns self :
  sharder_attached_devices self <> [] ->
  returns (fun _ => True) (RunShardedTests env self).
Proof.
  intros Hne. unfold RunShardedTests.
  eapply returns_bind; [by apply create_runners_returns|]. intros rs [Hds _].
  eapply returns_bind.
  { apply returns_mapM. intros r. by apply (returns_call (fun _ => True)). }
  intros ran _.
  eapply returns_bind; [|by intros; apply returns_ret].
  apply OnTestsCompleted_returns. intros ->. by rewrite <- Hds in Hne.
Qed.

Lemma run_on_targets_emits options attached_devices :
  emits (attempt_event (rebaseline options))
    (run_on_targets env options attached_devices).
Proof.
  unfold run_on_targets. destruct (_ && _) eqn:Hcond.
  - assert (Hne : attached_devices <> []).
    { intros ->. done. }
    eapply emits_bind_returns; [by apply TestSharder__init__returns| |].
    + eapply emits_weaken; [|apply TestSharder__init__emits].
      intros e He. unfold attempt_event. rewrite He. by rewrite !orb_true_r.
    + intros self [_ <-].
      eapply emits_weaken; [|apply RunShardedTests_emits].
      intros e He. unfold attempt_event. rewrite He. by rewrite !orb_true_r.
  - destruct attached_devices; [emits_steps|].
    eapply emits_weaken; [|apply RunTests_emits].
    intros e He. unfold attempt_event. rewrite He. by rewrite !orb_true_r.
Qed.

Lemma run_on_targets_returns options attached_devices :
  attached_devices <> [] ->
  returns (fun _ => True) (run_on_targets env options attached_devices).
Proof.
  intros Hne. unfold run_on_targets. destruct (_ && _).
  - eapply returns_bind; [by apply TestSharder__init__returns|].
    intros self [Hdevs _]. apply RunShardedTests_returns. by rewrite Hdevs.
  - destruct attached_devices; [done|]. apply RunTests_returns.
Qed.

Lemma shutdown_all (buildbot_emulators : list Device) h :
  mapM (fun buildbot_emulator => emit (EvShutdown buildbot_emulator))
    buildbot_emulators h
  = (Some (map (fun _ => tt) buildbot_emulators), map EvShutdown buildbot_emulators).
Proof.
  revert h. induction buildbot_emulators as [|d ds IH]; intros h; [done|].
  simpl. unfold bind at 1. simpl. unfold bind at 1. rewrite IH. simpl.
  by rewrite app_nil_r.
Qed.

(** The two ways through [run_attempt]: no device, or a run on the
    attached devices followed by the shutdown of the emulators. *)
Lemma run_attempt_spec options h :
  exists attached_devices buildbot_emulators e_acq,
    acquire_targets env options h
      = (Some (attached_devices, buildbot_emulators), e_acq)
    /\ forallb acquire_event e_acq = true
    /\ ((attached_devices = []
         /\ run_attempt env options h = (Some None, e_acq ++ [no_device_message]))
        \/ (attached_devices <> []
            /\ exists test_results e_run,
                run_on_targets env options attached_devices (h ++ e_acq)
                  = (Some test_results, e_run)
                /\ forallb (attempt_event (rebaseline options)) e_run = true
                /\ run_attempt env options h
                   = (Some (Some test_results),
                      e_acq ++ e_run ++ map EvShutdown buildbot_emulators))).
Proof.
  pose proof (acquire_targets_emits options h) as Hacq.
  destruct (acquire_targets_returns options h) as ([devs ems] & Hret & _).
  destruct (acquire_targets env options h) as [r e_acq] eqn:Hrun.
  simpl in Hret, Hacq. subst r.
  exists devs, ems, e_acq. split; [done|]. split; [done|].
  unfold run_attempt.
  destruct devs as [|device0 rest].
  - left. split; [done|].
    eapply bind_Some; [exact Hrun|]. reflexivity.
  - right. split; [done|].
    assert (Hne : device0 :: rest <> []) by done.
    pose proof (run_on_targets_emits options (device0 :: rest) (h ++ e_acq)) as Hev.
    destruct (run_on_targets_returns options (device0 :: rest) Hne (h ++ e_acq))
      as (r & Hr & _).
    destruct (run_on_targets env options (device0 :: rest) (h ++ e_acq))
      as [r' e_run] eqn:Hrun'.
    simpl in Hr, Hev. subst r'.
    exists r, e_run. split; [done|]. split; [done|].
    eapply bind_Some; [exact Hrun|]. cbn [fst snd].
    rewrite bool_decide_eq_false_2 by done.
    eapply bind_Some; [exact Hrun'|].
    rewrite <- (app_nil_r (map EvShutdown ems)).
    eapply bind_Some; [apply shutdown_all|]. reflexivity.
Qed.

End ScriptFacts.

(** ** The retry loop of [_RunATestSuite] *)


Lemma filter_nil_forallb {X} (P Q : X -> bool) (l : list X) :
  (forall x, P x = true -> Q x = false) -> forallb P l = true -> List.filter Q l = [].
Proof.
  intros HPQ. induction l as [|x l IH]; simpl; [done|].
  intros [Hx Hl]%andb_prop. rewrite (HPQ x Hx). auto.
Qed.

Lemma acquire_is_attempt_event rb e : acquire_event e = true -> attempt_event rb e = true.
Proof. intros He. unfold attempt_event. by rewrite He. Qed.

(** The events of an attempt are neither marks nor messages of the retry
    loop. *)
Section AttemptEvents.

Variables (rb : bool) (evs : list Event).
Hypothesis Hevs : forallb (attempt_event rb) evs = true.

Lemma attempt_enters : enters evs = [].
Proof. eapply omap_nil_forallb; [|exact Hevs]. by intros []. Qed.

Lemma attempt_verdicts : verdicts evs = [].
Proof. eapply omap_nil_forallb; [|exact Hevs]. by intros []. Qed.

Lemma attempt_retry_count : retry_count evs = 0.
Proof.
  unfold retry_count. erewrite filter_nil_forallb; [done| |exact Hevs].
  intros [] He; try done. unfold attempt_event in He. simpl in *.
  rewrite !orb_false_r in He.
  apply orb_prop in He as [He|He]; apply String.eqb_eq in He; by subst.
Qed.

Lemma attempt_no_device_count : no_device_count evs = 0.
Proof.
  unfold no_device_count. erewrite filter_nil_forallb; [done| |exact Hevs].
  intros [] He; try done. unfold attempt_event in He. simpl in *.
  rewrite !orb_false_r in He.
  apply orb_prop in He as [He|He]; apply String.eqb_eq in He; by subst.
Qed.

End AttemptEvents.

Section RetryLoop.

Variable env : Env.

(** An attempt finds no device, or gives results. *)
Lemma run_attempt_cases options h :
  (exists e, run_attempt env options h = (Some None, e ++ [no_device_message])
             /\ forallb (attempt_event (rebaseline options)) e = true)
  \/ (exists test_results e,
        run_attempt env options h = (Some (Some test_results), e)
        /\ forallb (attempt_event (rebaseline options)) e = true).
Proof.
  destruct (run_attempt_spec env options h)
    as (devs & ems & e_acq & _ & Hacq & [[_ Hrun]|[_ (r & e_run & _ & Hev & Hrun)]]).
  - left. exists e_acq. split; [done|].
    eapply forallb_weaken; [|exact Hacq]. apply acquire_is_attempt_event.
  - right. exists r, (e_acq ++ e_run ++ map EvShutdown ems). split; [done|].
    rewrite !forallb_app. rewrite Hev.
    erewrite forallb_weaken; [|apply acquire_is_attempt_event|exact Hacq].
    simpl. clear. by induction ems.
Qed.

Lemma RunATestSuite_no_device fuel o h e1 :
  run_attempt env o (h ++ [EvEnter o]) = (Some None, e1) ->
  _RunATestSuite env (S fuel) o h = (Some (1%Z, o), EvEnter o :: e1).
Proof.
  intros Hrun. cbn [_RunATestSuite].
  change (EvEnter o :: e1) with ([EvEnter o] ++ e1).
  eapply bind_Some; [reflexivity|].
  rewrite <- (app_nil_r e1). eapply bind_Some; [exact Hrun|]. reflexivity.
Qed.

Lemma RunATestSuite_final fuel o h test_results e1 :
  run_attempt env o (h ++ [EvEnter o]) = (Some (Some test_results), e1) ->
  retries test_results o = false ->
  _RunATestSuite env (S fuel) o h
  = (Some (Z.of_nat (length (failed test_results)), o),
     EvEnter o :: e1 ++ [EvVerdict test_results]).
Proof.
  intros Hrun Hno. cbn [_RunATestSuite].
  change (EvEnter o :: e1 ++ [EvVerdict test_results])
    with ([EvEnter o] ++ e1 ++ [EvVerdict test_results]).
  eapply bind_Some; [reflexivity|].
  eapply bind_Some; [exact Hrun|].
  unfold retries in Hno. cbv beta iota. rewrite Hno. reflexivity.
Qed.

Lemma RunATestSuite_retry fuel o h test_results e1 res e2 :
  run_attempt env o (h ++ [EvEnter o]) = (Some (Some test_results), e1) ->
  retries test_results o = true ->
  _RunATestSuite env fuel (retry_options o)
    (h ++ EvEnter o :: e1 ++ retry_messages o) = (res, e2) ->
  _RunATestSuite env (S fuel) o h
  = (res, EvEnter o :: e1 ++ retry_messages o ++ e2).
Proof.
  intros Hrun Hyes Hrec. cbn [_RunATestSuite].
  change (EvEnter o :: e1 ++ retry_messages o ++ e2)
    with ([EvEnter o] ++ e1 ++ retry_messages o ++ e2).
  eapply bind_Some; [reflexivity|].
  eapply bind_Some; [exact Hrun|].
  unfold retries in Hyes. cbv beta iota. rewrite Hyes.
  unfold retry_messages.
  change ([?a; ?b] ++ e2) with ([a] ++ [b] ++ e2).
  eapply bind_Some; [reflexivity|].
  eapply bind_Some; [reflexivity|].
  rewrite <- Hrec. f_equal.
  rewrite <- !app_assoc. reflexivity.
Qed.

End RetryLoop.

(** ** Termination of the retry loop *)

Lemma enters_app e1 e2 : enters (e1 ++ e2) = enters e1 ++ enters e2.
Proof. apply omap_app. Qed.

Lemma verdicts_app e1 e2 : verdicts (e1 ++ e2) = verdicts e1 ++ verdicts e2.
Proof. apply omap_app. Qed.

Lemma retry_count_app e1 e2 : retry_count (e1 ++ e2) = retry_count e1 + retry_count e2.
Proof. unfold retry_count. by rewrite List.filter_app, length_app. Qed.

Lemma enters_cons_enter o evs : enters (EvEnter o :: evs) = o :: enters evs.
Proof. reflexivity. Qed.

Lemma retry_count_cons_enter o evs : retry_count (EvEnter o :: evs) = retry_count evs.
Proof. reflexivity. Qed.

Lemma no_device_count_app e1 e2 :
  no_device_count (e1 ++ e2) = no_device_count e1 + no_device_count e2.
Proof. unfold no_device_count. by rewrite List.filter_app, length_app. Qed.

Lemma verdicts_cons_enter o evs : verdicts (EvEnter o :: evs) = verdicts evs.
Proof. reflexivity. Qed.

Lemma no_device_count_cons_enter o evs :
  no_device_count (EvEnter o :: evs) = no_device_count evs.
Proof. reflexivity. Qed.

(** With a budget [k >= 0] and more than [k] units of fuel,
    [_RunATestSuite] returns; what it returns and how often it tried can be
    read from the trace. *)
Lemma RunATestSuite_returns (env : Env) (k fuel : nat) (o : Options)
    (h : list Event) :
  repeat o = Z.of_nat k -> k < fuel ->
  exists n o' evs,
    _RunATestSuite env fuel o h = (Some (n, o'), evs)
    /\ length (enters evs) = S (retry_count evs)
    /\ repeat o' = (repeat o - Z.of_nat (retry_count evs))%Z
    /\ (0 <= repeat o')%Z
    /\ n = (sum_failed (verdicts evs) + Z.of_nat (no_device_count evs))%Z
    /\ length (verdicts evs) + no_device_count evs = 1.
Proof.
  revert k o h. induction fuel as [|fuel IH]; intros k o h Hk Hfuel; [lia|].
  destruct (run_attempt_cases env o (h ++ [EvEnter o]))
    as [(e & Hrun & Hev)|(r & e & Hrun & Hev)].
  - exists 1%Z, o, (EvEnter o :: e ++ [no_device_message]).
    split; [by apply RunATestSuite_no_device|].
    rewrite enters_cons_enter, retry_count_cons_enter, verdicts_cons_enter,
      no_device_count_cons_enter.
    rewrite enters_app, retry_count_app, verdicts_app, no_device_count_app.
    rewrite (attempt_enters _ _ Hev), (attempt_retry_count _ _ Hev),
      (attempt_verdicts _ _ Hev), (attempt_no_device_count _ _ Hev).
    change (retry_count [no_device_message]) with 0.
    change (no_device_count [no_device_message]) with 1.
    simpl. repeat split; lia.
  - destruct (retries r o) eqn:Hretry.
    + assert (Hk' : exists k', k = S k').
      { destruct k; [|by eauto]. unfold retries in Hretry.
        rewrite Hk in Hretry. simpl in Hretry. by rewrite andb_false_r in Hretry. }
      destruct Hk' as [k' ->].
      destruct (IH k' (retry_options o) (h ++ EvEnter o :: e ++ retry_messages o))
        as (n & o' & e2 & Hrec & Hlen & Hrep & Hpos & Hn & Hone).
      { simpl. lia. }
      { lia. }
      exists n, o', (EvEnter o :: e ++ retry_messages o ++ e2).
      split; [by eapply RunATestSuite_retry|].
      rewrite enters_cons_enter, retry_count_cons_enter, verdicts_cons_enter,
        no_device_count_cons_enter.
      rewrite !enters_app, !retry_count_app, !verdicts_app, !no_device_count_app.
      rewrite (attempt_enters _ _ Hev), (attempt_retry_count _ _ Hev),
        (attempt_verdicts _ _ Hev), (attempt_no_device_count _ _ Hev).
      change (enters (retry_messages o)) with (@nil Options).
      change (retry_count (retry_messages o)) with 1.
      change (verdicts (retry_messages o)) with (@nil TestResults).
      change (no_device_count (retry_messages o)) with 0.
      simpl in *. repeat split; lia.
    + exists (Z.of_nat (length (failed r))), o, (EvEnter o :: e ++ [EvVerdict r]).
      split; [by apply RunATestSuite_final|].
      rewrite enters_cons_enter, retry_count_cons_enter, verdicts_cons_enter,
        no_device_count_cons_enter.
      rewrite enters_app, retry_count_app, verdicts_app, no_device_count_app.
      rewrite (attempt_enters _ _ Hev), (attempt_retry_count _ _ Hev),
        (attempt_verdicts _ _ Hev), (attempt_no_device_count _ _ Hev).
      change (retry_count [EvVerdict r]) with 0.
      change (no_device_count [EvVerdict r]) with 0.
      simpl. repeat split; lia.
Qed.

(** C10. With a retry budget [k >= 0], [_RunATestSuite] returns: [k + 1]
    units of fuel are enough.  It makes one attempt more than it retries,
    every retry takes one from the budget, the budget never goes below
    zero, and so there are at most [k + 1] attempts. *)
Theorem C10_retry_loop_terminates (env : Env) (k fuel : nat) (o : Options)
    (h : list Event) :
  repeat o = Z.of_nat k -> k < fuel ->
  exists n o' evs,
    _RunATestSuite env fuel o h = (Some (n, o'), evs)
    /\ length (enters evs) = S (retry_count evs)
    /\ repeat o' = (repeat o - Z.of_nat (retry_count evs))%Z
    /\ (0 <= repeat o')%Z
    /\ length (enters evs) <= k + 1.
Proof.
  intros Hk Hfuel.
  destruct (RunATestSuite_returns env k fuel o h Hk Hfuel)
    as (n & o' & evs & Hrun & Hlen & Hrep & Hpos & _).
  exists n, o', evs. repeat split; try done. lia.
Qed.

Lemma C10_witness_timeouts :
  repeat options_net = Z.of_nat 2 /\ 2 < 3 /\
  exists n o' evs,
    _RunATestSuite (bench (fun _ => ["device0"]) true results_timed_out) 3
      options_net [] = (Some (n, o'), evs)
    /\ length (enters evs) = S (retry_count evs)
    /\ repeat o' = (repeat options_net - Z.of_nat (retry_count evs))%Z
    /\ (0 <= repeat o')%Z
    /\ length (enters evs) <= 2 + 1.
Proof.
  split; [reflexivity|]. split; [lia|].
  apply (C10_retry_loop_terminates _ 2 3 options_net []); [reflexivity|lia].
Defined.

(** Why the budget must not be negative: on the bench where every run
    times out, a suite started with a negative budget is retried for ever.
    No amount of fuel makes [_RunATestSuite] return. *)
Lemma RunATestSuite_negative_budget (fuel : nat) (n : Z) (b : bool) (h : list Event) :
  (n < 0)%Z ->
  fst (_RunATestSuite bench_timeouts fuel
         (set_repeat n (set_fast_and_loose b options_net)) h) = None.
Proof.
  revert n b h. induction fuel as [|fuel IH]; intros n b h Hn; [reflexivity|].
  set (o := set_repeat n (set_fast_and_loose b options_net)).
  assert (Hrun : exists e, run_attempt bench_timeouts o (h ++ [EvEnter o])
                           = (Some (Some (merge_results [results_timed_out])), e))
    by (eexists; reflexivity).
  destruct Hrun as [e Hrun].
  assert (Hretry : retries (merge_results [results_timed_out]) o = true).
  { unfold retries. simpl. apply negb_true_iff, Z.eqb_neq. lia. }
  specialize (IH (n - 1)%Z true (h ++ EvEnter o :: e ++ retry_messages o)).
  change (set_repeat (n - 1) (set_fast_and_loose true options_net))
    with (retry_options o) in IH.
  destruct (_RunATestSuite bench_timeouts fuel (retry_options o) _) as [res e2] eqn:Hrec.
  rewrite (RunATestSuite_retry bench_timeouts fuel o h _ e res e2 Hrun Hretry Hrec).
  simpl in *. apply IH. lia.
Qed.

(** ** A suite that always times out *)






(** ** Induction over the attempts of a suite and the suites of a batch *)

Section SuiteInduction.

Variable env : Env.
Variable Phi : Options -> list Event -> option (Z * Options) -> list Event -> Prop.

Hypothesis Phi_fuel : forall o h, Phi o h None [].

Hypothesis Phi_no_device : forall o h e,
  run_attempt env o (h ++ [EvEnter o]) = (Some None, e ++ [no_device_message]) ->
  forallb (attempt_event (rebaseline o)) e = true ->
  Phi o h (Some (1%Z, o)) (EvEnter o :: e ++ [no_device_message]).

Hypothesis Phi_final : forall o h r e,
  run_attempt env o (h ++ [EvEnter o]) = (Some (Some r), e) ->
  forallb (attempt_event (rebaseline o)) e = true ->
  retries r o = false ->
  Phi o h (Some (Z.of_nat (length (failed r)), o)) (EvEnter o :: e ++ [EvVerdict r]).

Hypothesis Phi_retry : forall o h r e res e2,
  run_attempt env o (h ++ [EvEnter o]) = (Some (Some r), e) ->
  forallb (attempt_event (rebaseline o)) e = true ->
  retries r o = true ->
  Phi (retry_options o) (h ++ EvEnter o :: e ++ retry_messages o) res e2 ->
  Phi o h res (EvEnter o :: e ++ retry_messages o ++ e2).

Lemma RunATestSuite_attempts_ind fuel o h :
  Phi o h (fst (_RunATestSuite env fuel o h)) (snd (_RunATestSuite env fuel o h)).
Proof.
  revert o h. induction fuel as [|fuel IH]; intros o h; [apply Phi_fuel|].
  destruct (run_attempt_cases env o (h ++ [EvEnter o]))
    as [(e & Hrun & Hev)|(r & e & Hrun & Hev)].
  - rewrite (RunATestSuite_no_device env fuel o h _ Hrun). by apply Phi_no_device.
  - destruct (retries r o) eqn:Hretry.
    + specialize (IH (retry_options o) (h ++ EvEnter o :: e ++ retry_messages o)).
      destruct (_RunATestSuite env fuel (retry_options o) _) as [res e2] eqn:Hrec.
      rewrite (RunATestSuite_retry env fuel o h r e res e2 Hrun Hretry Hrec).
      by eapply Phi_retry.
    + rewrite (RunATestSuite_final env fuel o h r e Hrun Hretry). by apply Phi_final.
Qed.

End SuiteInduction.

Section DispatchFacts.

Variable env : Env.

Lemma Dispatch_loop_cons fuel suite rest failures o h :
  Dispatch_loop env fuel (suite :: rest) failures o h
  = match _RunATestSuite env fuel (set_test_suite suite o) h with
    | (Some (n, o1), e1) =>
        let (res, e2) := Dispatch_loop env fuel rest (failures + n)%Z o1 (h ++ e1) in
        (res, e1 ++ e2)
    | (None, e1) => (None, e1)
    end.
Proof.
  cbn [Dispatch_loop]. unfold bind.
  by destruct (_RunATestSuite env fuel (set_test_suite suite o) h) as [[[n o1]|] e1].
Qed.

Lemma Dispatch_run fuel o h :
  (test_suite o =? "help")%string = false ->
  Dispatch env fuel o h
  = match Dispatch_loop env fuel (all_test_suites env o) 0%Z o (h ++ xvfb_start o) with
    | (Some (n, o'), e) => (Some (n, o'), xvfb_start o ++ e ++ dispatch_end o')
    | (None, e) => (None, xvfb_start o ++ e)
    end.
Proof.
  intros Hhelp. unfold Dispatch, all_test_suites, xvfb_start, dispatch_end.
  rewrite Hhelp. unfold bind, when.
  destruct (use_xvfb o); simpl;
    destruct (Dispatch_loop env fuel _ 0%Z o _) as [[[n o']|] e]; simpl;
    try reflexivity;
    destruct (use_xvfb o'), (annotate o'); simpl;
    by rewrite ?app_nil_r.
Qed.

Lemma Dispatch_help fuel o h :
  (test_suite o =? "help")%string = true ->
  exists evs,
    Dispatch env fuel o h = (Some (0%Z, o), evs)
    /\ forallb (fun e => match e with EvPrint _ _ => true | _ => false end) evs = true.
Proof.
  intros Hhelp. unfold Dispatch. rewrite Hhelp.
  eexists. split; reflexivity.
Qed.

End DispatchFacts.

(** ** The fast-and-loose flag *)

Lemma sticky_app set e1 e2 :
  sticky set e1 -> sticky (set || existsb sets_flag e1) e2 -> sticky set (e1 ++ e2).
Proof.
  revert set. induction e1 as [|e e1 IH]; intros set; simpl.
  - by rewrite orb_false_r.
  - intros [He H1] H2. split; [done|]. apply IH; [done|]. by rewrite <- orb_assoc.
Qed.

Lemma sticky_quiet set evs :
  forallb (fun e => negb (sets_flag e)
                    && match e with EvEnter _ => false | _ => true end) evs = true ->
  sticky set evs /\ existsb sets_flag evs = false.
Proof.
  revert set. induction evs as [|e evs IH]; intros set; simpl; [done|].
  intros [[Hflag Henter]%andb_prop Hevs]%andb_prop.
  apply negb_true_iff in Hflag. rewrite Hflag, orb_false_r. simpl.
  destruct (IH set Hevs) as [Hs Hex]. by destruct e.
Qed.

Lemma attempt_event_quiet rb e :
  attempt_event rb e = true ->
  negb (sets_flag e) && match e with EvEnter _ => false | _ => true end = true.
Proof.
  destruct e; try done. unfold attempt_event. simpl. rewrite !orb_false_r.
  intros [He|He]%orb_prop; apply String.eqb_eq in He; by subst.
Qed.

Lemma sticky_attempt rb set evs :
  forallb (attempt_event rb) evs = true ->
  sticky set evs /\ existsb sets_flag evs = false.
Proof.
  intros Hevs. apply sticky_quiet.
  eapply forallb_weaken; [|exact Hevs]. apply attempt_event_quiet.
Qed.

Lemma sticky_true_enters evs :
  sticky true evs -> Forall (fun o => fast_and_loose o = true) (enters evs).
Proof.
  induction evs as [|e evs IH]; simpl; [by constructor|].
  intros [He Hevs]. destruct e; try by apply IH.
  change (enters (EvEnter options :: evs)) with (options :: enters evs).
  constructor; auto.
Qed.

Lemma sticky_split set before after :
  sticky set (before ++ after) ->
  set || existsb sets_flag before = true ->
  Forall (fun o => fast_and_loose o = true) (enters after).
Proof.
  revert set. induction before as [|e before IH]; intros set; simpl.
  - rewrite orb_false_r. intros Hs ->. by apply sticky_true_enters.
  - intros [_ Hs] Hset. apply (IH _ Hs). by rewrite <- orb_assoc.
Qed.

Lemma RunATestSuite_keeps_flag env fuel o h :
  keeps_flag o (fst (_RunATestSuite env fuel o h)) (snd (_RunATestSuite env fuel o h)).
Proof.
  apply (RunATestSuite_attempts_ind env (fun o _ res evs => keeps_flag o res evs));
    clear; unfold keeps_flag.
  - intros o _ set Hset. by split.
  - intros o h e _ Hev set Hset.
    destruct (sticky_attempt _ (set || fast_and_loose o) e Hev) as [Hs Hex].
    split.
    + simpl. split; [done|]. apply sticky_app; [done|]. by simpl.
    + intros n o' [= _ <-]. simpl. rewrite existsb_app, Hex. simpl.
      destruct set; [auto|]. by rewrite orb_false_r.
  - intros o h r e _ Hev _ set Hset.
    destruct (sticky_attempt _ (set || fast_and_loose o) e Hev) as [Hs Hex].
    split.
    + simpl. split; [done|]. apply sticky_app; [done|]. by simpl.
    + intros n o' [= _ <-]. simpl. rewrite existsb_app, Hex. simpl.
      destruct set; [auto|]. by rewrite orb_false_r.
  - intros o h r e res e2 _ Hev _ IH set Hset.
    destruct (sticky_attempt _ (set || fast_and_loose o) e Hev) as [Hs Hex].
    destruct (IH true) as [Hs2 Hres2]; [done|].
    split.
    + simpl. split; [done|]. apply sticky_app; [done|].
      simpl. split; [done|]. split; [done|].
      by rewrite Hex, !orb_true_r.
    + intros n o' Hres _. by apply (Hres2 n o').
Qed.

Lemma Dispatch_loop_keeps_flag env fuel suites failures o h :
  keeps_flag o (fst (Dispatch_loop env fuel suites failures o h))
    (snd (Dispatch_loop env fuel suites failures o h)).
Proof.
  revert failures o h. induction suites as [|suite rest IH]; intros failures o h.
  - intros set Hset. split; [done|]. intros n o' [= _ <-]. simpl.
    rewrite orb_false_r. exact Hset.
  - rewrite Dispatch_loop_cons.
    pose proof (RunATestSuite_keeps_flag env fuel (set_test_suite suite o) h) as H1.
    destruct (_RunATestSuite env fuel (set_test_suite suite o) h) as [[[n o1]|] e1].
    + specialize (IH (failures + n)%Z o1 (h ++ e1)).
      destruct (Dispatch_loop env fuel rest (failures + n)%Z o1 (h ++ e1)) as [res e2].
      simpl in *. intros set Hset.
      destruct (H1 set Hset) as [Hs1 Hres1].
      destruct (IH (set || existsb sets_flag e1)) as [Hs2 Hres2].
      { intros Hflag. by apply (Hres1 n o1). }
      split; [by apply sticky_app|].
      intros n' o' Hres. rewrite existsb_app, orb_assoc. by apply (Hres2 n' o').
    + simpl in *. intros set Hset. destruct (H1 set Hset) as [Hs1 _]. by split.
Qed.

Lemma Dispatch_keeps_flag env fuel o h :
  keeps_flag o (fst (Dispatch env fuel o h)) (snd (Dispatch env fuel o h)).
Proof.
  destruct (test_suite o =? "help")%string eqn:Hhelp.
  - destruct (Dispatch_help env fuel o h Hhelp) as (evs & -> & Hevs). simpl.
    intros set Hset.
    destruct (sticky_quiet set evs) as [Hs Hex].
    { eapply forallb_weaken; [|exact Hevs]. by intros []. }
    split; [done|]. intros n o' [= _ <-]. by rewrite Hex, orb_false_r.
  - rewrite (Dispatch_run env fuel o h Hhelp).
    pose proof (Dispatch_loop_keeps_flag env fuel (all_test_suites env o) 0%Z o
                  (h ++ xvfb_start o)) as Hloop.
    destruct (Dispatch_loop env fuel _ 0%Z o _) as [[[n o']|] e]; simpl in *;
      intros set Hset; destruct (Hloop set Hset) as [Hs Hres].
    + assert (Hstart : forall s, sticky s (xvfb_start o)
                                 /\ existsb sets_flag (xvfb_start o) = false).
      { intros s. unfold xvfb_start. by destruct (use_xvfb o). }
      assert (Hend : forall s, sticky s (dispatch_end o')
                               /\ existsb sets_flag (dispatch_end o') = false).
      { intros s. unfold dispatch_end. by destruct (use_xvfb o'), (annotate o'). }
      split.
      * apply sticky_app; [apply Hstart|]. rewrite (proj2 (Hstart set)), orb_false_r.
        apply sticky_app; [done|]. apply Hend.
      * intros n' o'' [= _ <-]. rewrite !existsb_app.
        rewrite (proj2 (Hstart set)), (proj2 (Hend set)). simpl.
        rewrite orb_false_r. by apply (Hres n o').
    + split; [|done].
      apply sticky_app; [unfold xvfb_start; by destruct (use_xvfb o)|].
      replace (existsb sets_flag (xvfb_start o)) with false
        by (unfold xvfb_start; by destruct (use_xvfb o)).
      by rewrite orb_false_r.
Qed.

(** C8. In the trace of [Dispatch], once the flag is set (the message of a
    retry was logged, or an attempt was entered with the flag), every later
    attempt, of the same suite or of a later one, is entered with
    [fast_and_loose] set, and the options [Dispatch] leaves have it set:
    nothing resets it. *)
Theorem C8_fast_and_loose_persists (env : Env) (fuel : nat) (o : Options)
    (h : list Event) (res : option (Z * Options)) (before after : list Event) :
  Dispatch env fuel o h = (res, before ++ after) ->
  existsb sets_flag before = true ->
  Forall (fun o' => fast_and_loose o' = true) (enters after)
  /\ forall n o', res = Some (n, o') -> fast_and_loose o' = true.
Proof.
  intros Hrun Hset.
  pose proof (Dispatch_keeps_flag env fuel o h) as Hkeep.
  rewrite Hrun in Hkeep. simpl in Hkeep.
  destruct (Hkeep false) as [Hs Hres]; [done|].
  split.
  - by apply (sticky_split false before after).
  - intros n o' ->. apply (Hres n o'); [done|]. by rewrite existsb_app, Hset.
Qed.

Lemma C8_witness_two_suites_later :
  let run := Dispatch bench_one_timeout 3 default_options [] in
  existsb sets_flag (take 11 (snd run)) = true /\
  length (enters (drop 11 (snd run))) = 8 /\
  Forall (fun o' => fast_and_loose o' = true) (enters (drop 11 (snd run)))
  /\ forall n o', fst run = Some (n, o') -> fast_and_loose o' = true.
Proof.
  intros run.
  assert (Hset : existsb sets_flag (take 11 (snd run)) = true) by (vm_compute; reflexivity).
  split; [exact Hset|]. split; [vm_compute; reflexivity|].
  apply (C8_fast_and_loose_persists bench_one_timeout 3 default_options []
           (fst run) (take 11 (snd run)) (drop 11 (snd run))); [|exact Hset].
  rewrite take_drop. apply surjective_pairing.
Defined.

(** ** The value of [Dispatch] *)









(** ** No device attached *)

Lemma acquire_event_not_runner e : acquire_event e = true -> is_runner_event e = false.
Proof. by destruct e. Qed.

(** C2, as amended.  When a suite is started and no device is attached,
    [_RunATestSuite] logs the message and returns 1 at once: no runner is
    created or run for that suite, the suite is not retried and it leaves no
    results.  [Dispatch] adds the 1 to its count and goes on with the
    suites that remain, each of which asks for the devices again. *)
Theorem C2_no_device_skips_the_suite (env : Env) (fuel : nat) (suite : string)
    (rest : list string) (failures : Z) (o : Options) (h : list Event)
    (buildbot_emulators : list Device) (e_acq : list Event) :
  let o1 := set_test_suite suite o in
  let evs1 := EvEnter o1 :: e_acq ++ [no_device_message] in
  acquire_targets env o1 (h ++ [EvEnter o1]) = (Some ([], buildbot_emulators), e_acq) ->
  _RunATestSuite env (S fuel) o1 h = (Some (1%Z, o1), evs1)
  /\ existsb is_runner_event evs1 = false
  /\ enters evs1 = [o1] /\ retry_count evs1 = 0 /\ verdicts evs1 = []
  /\ Dispatch_loop env (S fuel) (suite :: rest) failures o h
     = (let (res, e2) :=
          Dispatch_loop env (S fuel) rest (failures + 1)%Z o1 (h ++ evs1) in
        (res, evs1 ++ e2)).
Proof.
  intros o1 evs1 Hacq.
  destruct (run_attempt_spec env o1 (h ++ [EvEnter o1]))
    as (devs & ems & e & Hacq' & Hev & Hcases).
  rewrite Hacq in Hacq'. injection Hacq' as <- <- <-.
  destruct Hcases as [[_ Hrun]|[Hne _]]; [|done].
  assert (Hsuite : _RunATestSuite env (S fuel) o1 h = (Some (1%Z, o1), evs1))
    by (by apply RunATestSuite_no_device).
  assert (Hatt : forallb (attempt_event (rebaseline o1)) e_acq = true).
  { eapply forallb_weaken; [|exact Hev]. apply acquire_is_attempt_event. }
  split; [done|]. split.
  { subst evs1. simpl. rewrite existsb_app. simpl. rewrite orb_false_r.
    apply not_true_iff_false. intros (e & Hin & He)%existsb_exists.
    rewrite forallb_forall in Hev. apply Hev in Hin.
    by rewrite (acquire_event_not_runner e Hin) in He. }
  subst evs1.
  rewrite enters_cons_enter, retry_count_cons_enter, verdicts_cons_enter,
    enters_app, retry_count_app, verdicts_app, (attempt_enters _ _ Hatt),
    (attempt_retry_count _ _ Hatt), (attempt_verdicts _ _ Hatt).
  do 3 (split; [reflexivity|]).
  rewrite Dispatch_loop_cons. fold o1. by rewrite Hsuite.
Qed.

Lemma C2_witness_no_device :
  let o1 := set_test_suite "out/Release/base_unittests" default_options in
  let evs1 := [EvEnter o1; EvGetAttachedDevices []; no_device_message] in
  acquire_targets bench_no_device o1 ([] ++ [EvEnter o1])
    = (Some ([], []), [EvGetAttachedDevices []]) /\
  _RunATestSuite bench_no_device 3 o1 [] = (Some (1%Z, o1), evs1)
  /\ existsb is_runner_event evs1 = false
  /\ enters evs1 = [o1] /\ retry_count evs1 = 0 /\ verdicts evs1 = []
  /\ Dispatch_loop bench_no_device 3
       ["out/Release/base_unittests"; "out/Release/net_unittests"] 0%Z
       default_options []
     = (let (res, e2) :=
          Dispatch_loop bench_no_device 3 ["out/Release/net_unittests"] (0 + 1)%Z o1
            ([] ++ evs1) in
        (res, evs1 ++ e2)).
Proof.
  intros o1 evs1. split; [reflexivity|].
  apply (C2_no_device_skips_the_suite bench_no_device 2 "out/Release/base_unittests"
           ["out/Release/net_unittests"] 0%Z default_options [] []
           [EvGetAttachedDevices []]).
  reflexivity.
Defined.

(** The claim as the specification has it: once no device is found, the
    batch is given up and no runner is invoked for any suite.  Here the
    first suite of the catalog finds no device, and the seven others are run
    on the device that is attached by then.  And when no device is ever
    attached, all the eight suites of the catalog are still started, each
    asks for the devices, and [Dispatch] returns 8. *)
Lemma C2_counterexample_batch_goes_on :
  let run := Dispatch bench_late_device 3 default_options [] in
  let run0 := Dispatch bench_no_device 3 default_options [] in
  no_device_count (snd run) = 1
  /\ length (runs (snd run)) = 7
  /\ (exists o', fst run = Some (8%Z, o'))
  /\ length (enters (snd run0)) = 8
  /\ (exists o', fst run0 = Some (8%Z, o'))
  /\ ~ (forall env fuel o h res evs,
          Dispatch env fuel o h = (res, evs) ->
          existsb is_no_device evs = true -> existsb is_runner_event evs = false).
Proof.
  intros run run0.
  split; [vm_compute; reflexivity|]. split; [vm_compute; reflexivity|].
  split; [eexists; vm_compute; reflexivity|].
  split; [vm_compute; reflexivity|].
  split; [eexists; vm_compute; reflexivity|].
  intros Hclaim.
  assert (Hrun : Dispatch bench_late_device 3 default_options [] = (fst run, snd run))
    by apply surjective_pairing.
  apply Hclaim in Hrun; [|vm_compute; reflexivity].
  vm_compute in Hrun. discriminate Hrun.
Qed.

(** ** The choice between the sharder and the single device *)

Section Choice.

Variable env : Env.


Lemma RunTests_unrecognised o device h :
  truthy (test_suite o) = true -> recognised env h (test_suite o) = false ->
  exists evs,
    RunTests_of env o device h
    = (Some (FromOkAndFailed [] [mkBaseTestResult (test_suite o) ""] false false), evs)
    /\ forallb (fun e => match e with EvCritical _ _ => true | _ => false end) evs
       = true.
Proof.
  intros Hsuite [Hex Hapk]%orb_false_elim.
  unfold RunTests_of, RunTests. rewrite Hsuite.
  unfold bind at 1. unfold ask at 1. rewrite Hex, Hapk.
  cbn [negb andb app].
  unfold bind, when, emit, ret.
  destruct (existsb _ _); cbn [app]; eexists; split; reflexivity.
Qed.



Lemma truthy_named (s : string) : s <> "" -> truthy s = true.
Proof.
  intros Hs. unfold truthy. apply negb_true_iff.
  by apply String.eqb_neq.
Qed.


End Choice.

Lemma append_named (a b : string) : b <> "" -> (a ++ b)%string <> "".
Proof. destruct a; [done|]. intros _. discriminate. Qed.

Lemma path_join_named (a b : string) : b <> "" -> path_join a b <> "".
Proof.
  intros Hb. unfold path_join. destruct (startswith_slash b); [done|].
  destruct (_ || _); apply append_named; [done|discriminate].
Qed.

(** [Dispatch] names a suite before each call of [_RunATestSuite]. *)
Lemma all_test_suites_named (env : Env) (o : Options) :
  Forall (fun suite => suite <> "") (all_test_suites env o).
Proof.
  unfold all_test_suites. destruct (_ =? "help")%string; [constructor|].
  destruct (truthy (test_suite o)) eqn:Hs.
  - constructor; [|constructor]. intros Heq. by rewrite Heq in Hs.
  - unfold FullyQualifiedTestSuites. destruct (apk o);
      repeat (constructor; [apply path_join_named; discriminate|]); constructor.
Qed.


(** ** A suite that is not recognised *)

(** On the path through [RunTests], a named suite that neither exists nor
    is an apk gives one failed result with the name of the suite and both
    flags false; nothing but the two messages is logged, no runner is
    created, and [_RunATestSuite] goes on to return 1. *)
Lemma RunTests_unrecognised_suite (env : Env) (o : Options) (device : Device)
    (h : list Event) :
  test_suite o <> "" -> recognised env h (test_suite o) = false ->
  exists evs,
    RunTests_of env o device h
    = (Some (FromOkAndFailed [] [mkBaseTestResult (test_suite o) ""] false false), evs)
    /\ existsb is_runner_event evs = false
    /\ updates evs = [].
Proof.
  intros Hnamed Hrec.
  destruct (RunTests_unrecognised env o device h (truthy_named _ Hnamed) Hrec)
    as (evs & Hrun & Hevs).
  exists evs. split; [done|]. split.
  - apply not_true_iff_false. intros (e & Hin & He)%existsb_exists.
    rewrite forallb_forall in Hevs. apply Hevs in Hin. by destruct e.
  - eapply omap_nil_forallb; [|exact Hevs]. by intros [].
Qed.

(** The sharder creates a runner for the first device and asks it for the
    tests, before anything else. *)
Lemma TestSharder__init__first_events (env : Env) device0 rest test_suite gtest_filter
    test_arguments timeout rebaseline performance_test cleanup_test_files tool h :
  let test := mkSingleTestRunner device0 test_suite gtest_filter test_arguments
                timeout rebaseline performance_test cleanup_test_files tool 0 false in
  exists res e,
    TestSharder__init__ env (device0 :: rest) test_suite gtest_filter test_arguments
      timeout rebaseline performance_test cleanup_test_files tool h
    = (res, EvSingleTestRunner test
            :: EvGetAllTests test (GetAllTests env (h ++ [EvSingleTestRunner test]) test)
            :: e).
Proof.
  unfold TestSharder__init__, bind, call, ask, emit, ret.
  destruct rebaseline; eexists _, _; reflexivity.
Qed.

(** C6, where the code departs from it.  The suite
    [out/Release/nosuch_unittests] does not exist and is no apk.  With two
    devices attached, no filter and no performance test, line 326 sends it
    to the sharder whatever the file system says: a runner is created for
    the first device and asked for the tests of the suite, and the result
    of the attempt is what the sharder makes of it.  On the bench where
    every run passes, two runners are run and [Dispatch] returns 0, where
    the single device path returns 1 for the failed result that carries the
    name of the suite. *)
Theorem C6_sharder_skips_the_check (env : Env) (h : list Event) :
  let test := mkSingleTestRunner "device0" "out/Release/nosuch_unittests" "" "" 0%Z
                false false false "" 0 false in
  (exists res e,
     run_on_targets env options_nosuch ["device0"; "device1"] h
     = (res, EvSingleTestRunner test :: EvGetAllTests test (GetAllTests env
                                         (h ++ [EvSingleTestRunner test]) test) :: e))
  /\ (let run := Dispatch (bench (fun _ => ["device0"; "device1"]) false results_passed)
                   3 options_nosuch [] in
      recognised (bench (fun _ => ["device0"; "device1"]) false results_passed) []
        "out/Release/nosuch_unittests" = false
      /\ (exists o', fst run = Some (0%Z, o'))
      /\ length (runs (snd run)) = 2
      /\ map failed (verdicts (snd run)) = [[]])
  /\ (let run := Dispatch (bench (fun _ => ["device0"]) false results_passed)
                   3 options_nosuch [] in
      (exists o', fst run = Some (1%Z, o'))
      /\ runs (snd run) = []
      /\ verdicts (snd run)
         = [FromOkAndFailed [] [mkBaseTestResult "out/Release/nosuch_unittests" ""]
              false false]).
Proof.
  intros test. split.
  - unfold run_on_targets.
    change ((1 <? length ["device0"; "device1"]) && _ && _ && _) with true.
    cbv iota.
    destruct (TestSharder__init__first_events env "device0" ["device1"]
                (test_suite options_nosuch) (gtest_filter options_nosuch)
                (test_arguments options_nosuch) (timeout options_nosuch)
                (rebaseline options_nosuch) (performance_test options_nosuch)
                (cleanup_test_files options_nosuch) (tool options_nosuch) h)
      as (res & e & Hinit).
    destruct res as [self|].
    + destruct (RunShardedTests env self
                  (h ++ EvSingleTestRunner test
                        :: EvGetAllTests test
                             (GetAllTests env (h ++ [EvSingleTestRunner test]) test)
                        :: e)) as [res e2] eqn:Hsharded.
      exists res, (e ++ e2). exact (bind_Some _ _ _ _ _ _ _ Hinit Hsharded).
    + exists None, e. exact (bind_None _ _ _ _ Hinit).
  - split.
    + split; [vm_compute; reflexivity|]. split; [eexists; vm_compute; reflexivity|].
      split; vm_compute; reflexivity.
    + split; [eexists; vm_compute; reflexivity|].
      split; vm_compute; reflexivity.
Qed.

(** ** Writes of the disabled list *)

Lemma updates_app e1 e2 : updates (e1 ++ e2) = updates e1 ++ updates e2.
Proof. apply omap_app. Qed.

Lemma updates_none evs : forallb no_update evs = true -> updates evs = [].
Proof. apply omap_nil_forallb. by intros []. Qed.

Section Writes.

Variable env : Env.

Lemma TestSharder__init__no_update attached_devices test_suite gtest_filter
    test_arguments timeout rebaseline performance_test cleanup_test_files tool :
  emits no_update
    (TestSharder__init__ env attached_devices test_suite gtest_filter test_arguments
       timeout rebaseline performance_test cleanup_test_files tool).
Proof.
  unfold TestSharder__init__. destruct attached_devices; [emits_steps|].
  destruct rebaseline; simpl; emits_steps.
Qed.

Lemma create_runners_no_update self devices index :
  emits no_update (create_runners self devices index).
Proof.
  revert index. induction devices as [|device devices IH]; intros index; simpl.
  - emits_steps.
  - destruct (CreateShardedTestRunner self device index); emits_steps. apply IH.
Qed.

(** The sharder writes the disabled list at most once, after all the runs:
    when the merged results have failed tests and [rebaseline] is set, and
    then through the runner of the first device, which has index 0. *)
Lemma RunShardedTests_writes self device0 rest h :
  sharder_attached_devices self = device0 :: rest ->
  exists test_results runner0 e,
    RunShardedTests env self h
    = (Some test_results,
       e ++ EvLogFull test_results
            :: (if negb (bool_decide (failed test_results = []))
                   && sharder_rebaseline self
                then [EvUpdateFilter runner0 (failed test_results)] else []))
    /\ forallb no_update e = true
    /\ runner_device runner0 = device0
    /\ runner_shard_index runner0 = 0.
Proof.
  intros Hdevs.
  assert (Hne : sharder_attached_devices self <> []) by (by rewrite Hdevs).
  unfold RunShardedTests. rewrite Hdevs.
  pose proof (create_runners_no_update self (device0 :: rest) 0 h) as He1.
  destruct (create_runners_returns self (device0 :: rest) 0 Hne h)
    as (rs & Hrs & Hdev & Hidx).
  destruct (create_runners self (device0 :: rest) 0 h) as [x e1] eqn:Hcreate.
  simpl in Hrs, He1. subst x.
  destruct rs as [|runner0 rs]; [done|].
  injection Hdev as Hdev _. injection Hidx as Hidx _.
  set (run := fun test => call (fun h => Run env h test)
                            (fun ran => EvRun test (fst ran) (snd ran))).
  assert (He2 : emits no_update (mapM run (runner0 :: rs))).
  { subst run. emits_steps. }
  destruct (returns_mapM run (runner0 :: rs)) with (h := h ++ e1) as (ran & Hran & _).
  { intros test. by apply (returns_call (fun _ => True)). }
  specialize (He2 (h ++ e1)).
  destruct (mapM run (runner0 :: rs) (h ++ e1)) as [y e2] eqn:Hruns.
  simpl in Hran, He2. subst y.
  exists (FromTestResults env (map fst ran)), runner0, (e1 ++ e2).
  split; [|by rewrite forallb_app, He1, He2].
  rewrite <- app_assoc.
  eapply bind_Some; [exact Hcreate|].
  eapply bind_Some; [exact Hruns|].
  cbv zeta. unfold OnTestsCompleted.
  set (merged := FromTestResults env (map fst ran)).
  unfold bind, emit, ret.
  destruct (negb (bool_decide (failed merged = [])) && sharder_rebaseline self);
    reflexivity.
Qed.

Lemma RunTests_recognised_updates o device h :
  truthy (test_suite o) = true -> recognised env h (test_suite o) = true ->
  rebaseline o = true ->
  exists failed_tests,
    updates (snd (RunTests_of env o device h))
    = [(single_runner o device (test_suite o), failed_tests)].
Proof.
  intros Hsuite Hrec Hrb.
  unfold RunTests_of, RunTests. rewrite Hsuite.
  unfold bind at 1. unfold ask at 1.
  assert (Hcheck : true && negb (os_path_exists env h (test_suite o))
                   && negb (splitext_ext (test_suite o) =? ".apk")%string = false).
  { unfold recognised in Hrec. by destruct (os_path_exists _ _ _), (_ =? _)%string. }
  rewrite Hcheck.
  cbn [mapM]. unfold RunTests_suite, single_runner. rewrite Hrb.
  unfold bind, when, call, ask, emit, ret. simpl.
  destruct (annotate o); simpl;
    repeat match goal with
           | |- context [if ?b then _ else _] => destruct b; simpl
           end;
    eexists; reflexivity.
Qed.

(** One run of a named suite on the attached devices: without [rebaseline]
    the disabled list is not written.  With [rebaseline], the sharder
    writes it once when the merged results have failed tests, with those
    tests and through the runner of the first device (index 0), and does
    not write it when they have none; on the single device path a suite
    that exists or is an apk has it written once, through the runner of the
    first device (index 0). *)
Lemma run_on_targets_writes (o : Options) (device0 : Device) (rest : list Device)
    (h : list Event) :
  test_suite o <> "" ->
  let attached_devices := device0 :: rest in
  let run := run_on_targets env o attached_devices h in
  exists test_results,
    fst run = Some test_results
    /\ (rebaseline o = false -> updates (snd run) = [])
    /\ (rebaseline o = true -> shards o attached_devices = true ->
        (failed test_results = [] -> updates (snd run) = [])
        /\ (failed test_results <> [] ->
            exists writer,
              updates (snd run) = [(writer, failed test_results)]
              /\ runner_device writer = device0
              /\ runner_shard_index writer = 0))
    /\ (rebaseline o = true -> shards o attached_devices = false ->
        recognised env h (test_suite o) = true ->
        exists failed_tests,
          updates (snd run) = [(single_runner o device0 (test_suite o), failed_tests)]
          /\ runner_shard_index (single_runner o device0 (test_suite o)) = 0).
Proof.
  intros Hnamed attached_devices run.
  pose proof (truthy_named _ Hnamed) as Hsuite.
  assert (Hoff : rebaseline o = false -> updates (snd run) = []).
  { intros Hrb. apply updates_none.
    eapply forallb_weaken; [|apply (run_on_targets_emits env o attached_devices h)].
    rewrite Hrb. by intros []. }
  assert (Hcond : (1 <? length attached_devices) && truthy (test_suite o)
                  && negb (truthy (gtest_filter o)) && negb (performance_test o)
                  = shards o attached_devices).
  { unfold shards. rewrite Hsuite. by rewrite andb_true_r. }
  destruct (shards o attached_devices) eqn:Hshards.
  - assert (Hne : attached_devices <> []) by done.
    pose proof (TestSharder__init__no_update attached_devices (test_suite o)
                  (gtest_filter o) (test_arguments o) (timeout o) (rebaseline o)
                  (performance_test o) (cleanup_test_files o) (tool o) h) as He0.
    destruct (TestSharder__init__returns env attached_devices (test_suite o)
                (gtest_filter o) (test_arguments o) (timeout o) (rebaseline o)
                (performance_test o) (cleanup_test_files o) (tool o) Hne h)
      as (self & Hself & Hdevs & Hrb).
    destruct (TestSharder__init__ env attached_devices (test_suite o)
                (gtest_filter o) (test_arguments o) (timeout o) (rebaseline o)
                (performance_test o) (cleanup_test_files o) (tool o) h)
      as [x e0] eqn:Hinit.
    simpl in Hself, He0. subst x.
    destruct (RunShardedTests_writes self device0 rest (h ++ e0) Hdevs)
      as (test_results & runner0 & e & Hrun & He & Hdev & Hidx).
    assert (Hrun' : run = (Some test_results,
                           e0 ++ e ++ EvLogFull test_results
                              :: (if negb (bool_decide (failed test_results = []))
                                     && sharder_rebaseline self
                                  then [EvUpdateFilter runner0 (failed test_results)]
                                  else []))).
    { subst run. unfold run_on_targets. rewrite Hcond.
      eapply bind_Some; [exact Hinit|exact Hrun]. }
    exists test_results. rewrite Hrun' in *. cbn [fst snd] in *.
    split; [done|]. split; [done|]. split; [|done].
    intros Hon _. rewrite Hrb, Hon, andb_true_r.
    rewrite !updates_app, (updates_none _ He0), (updates_none _ He).
    split.
    + intros ->. reflexivity.
    + intros Hfailed. rewrite bool_decide_eq_false_2 by done.
      exists runner0. by repeat split.
  - destruct (run_on_targets_returns env o attached_devices ltac:(done) h)
      as (test_results & Hres & _).
    exists test_results. split; [done|]. split; [done|]. split; [done|].
    intros Hon _ Hrec.
    assert (Hrun : run = RunTests_of env o device0 h).
    { subst run. unfold run_on_targets. by rewrite Hcond. }
    rewrite Hrun.
    destruct (RunTests_recognised_updates o device0 h Hsuite Hrec Hon)
      as (failed_tests & Hup).
    exists failed_tests. by split.
Qed.

End Writes.

Lemma attempts_of_app h e1 e2 :
  attempts_of h (e1 ++ e2) = attempts_of h e1 ++ attempts_of (h ++ e1) e2.
Proof.
  revert h. induction e1 as [|e e1 IH]; intros h; simpl.
  - by rewrite app_nil_r.
  - rewrite IH, <- !app_assoc. reflexivity.
Qed.

Lemma attempts_of_none rb h evs :
  forallb (attempt_event rb) evs = true -> attempts_of h evs = [].
Proof.
  revert h. induction evs as [|e evs IH]; intros h; simpl; [done|].
  intros [He Hevs]%andb_prop. rewrite (IH _ Hevs). by destruct e.
Qed.

Lemma attempt_event_no_update_acquire e : acquire_event e = true -> no_update e = true.
Proof. by destruct e. Qed.

Section WritesOfAttempts.

Variable env : Env.

Lemma run_attempt_writes o h : test_suite o <> "" -> attempt_writes env o h.
Proof.
  intros Hnamed.
  destruct (run_attempt_spec env o h)
    as (devs & ems & e_acq & Hacq & Hev_acq & Hcases).
  exists devs, ems, e_acq. split; [exact Hacq|]. cbv zeta.
  assert (Hup_acq : updates e_acq = []).
  { apply updates_none. eapply forallb_weaken; [|exact Hev_acq].
    apply attempt_event_no_update_acquire. }
  destruct Hcases as [[-> Hrun]|[Hne (r & e_run & Hrun_t & _ & Hrun)]].
  - rewrite Hrun. cbn [snd]. by rewrite updates_app, Hup_acq.
  - destruct devs as [|device0 rest]; [done|].
    assert (Hup : updates (snd (run_attempt env o h))
                  = updates (snd (run_on_targets env o (device0 :: rest) (h ++ e_acq)))).
    { rewrite Hrun, Hrun_t. cbn [snd]. rewrite !updates_app, Hup_acq.
      cbn [app]. replace (updates (map EvShutdown ems)) with
        (@nil (SingleTestRunner * list BaseTestResult)); [by rewrite app_nil_r|].
      clear. by induction ems. }
    rewrite Hup.
    destruct (run_on_targets_writes env o device0 rest (h ++ e_acq) Hnamed)
      as (r' & Hres & Hoff & Hsharded & Hsingle).
    rewrite Hrun_t in Hres. cbn [fst] in Hres. injection Hres as <-.
    exists r. split; [by rewrite Hrun|]. split; [exact Hoff|]. split; [exact Hsharded|].
    intros Hon Hshards. split; [by apply Hsingle|].
    intros Hrec.
    assert (Hcond : (1 <? length (device0 :: rest)) && truthy (test_suite o)
                    && negb (truthy (gtest_filter o)) && negb (performance_test o)
                    = false).
    { unfold shards in Hshards. rewrite (truthy_named _ Hnamed), andb_true_r.
      exact Hshards. }
    unfold run_on_targets. rewrite Hcond.
    destruct (RunTests_unrecognised_suite env o device0 (h ++ e_acq) Hnamed Hrec)
      as (evs & Hrun' & _ & Hnone).
    fold (RunTests_of env o device0). by rewrite Hrun'.
Qed.

Lemma attempt_updates_eq o h res e :
  run_attempt env o (h ++ [EvEnter o]) = (res, e) -> attempt_updates env (o, h) = updates e.
Proof. unfold attempt_updates. cbn [fst snd]. by intros ->. Qed.

Lemma RunATestSuite_writes fuel o h :
  writes_by_attempt env o h (fst (_RunATestSuite env fuel o h))
    (snd (_RunATestSuite env fuel o h)).
Proof.
  apply (RunATestSuite_attempts_ind env (writes_by_attempt env)); clear;
    unfold writes_by_attempt.
  - intros o h _. split; [constructor|]. by split.
  - intros o h e Hrun Hev Hnamed.
    assert (Hatt : attempts_of h (EvEnter o :: e ++ [no_device_message]) = [(o, h)]).
    { cbn [attempts_of]. rewrite attempts_of_app, (attempts_of_none _ _ _ Hev). done. }
    rewrite Hatt. split; [|split].
    + repeat constructor. cbn [fst snd]. by apply run_attempt_writes.
    + cbn [map concat]. rewrite (attempt_updates_eq _ _ _ _ Hrun), app_nil_r. done.
    + intros _ _ _. rewrite retry_count_cons_enter, retry_count_app,
        (attempt_retry_count _ _ Hev). reflexivity.
  - intros o h r e Hrun Hev _ Hnamed.
    assert (Hatt : attempts_of h (EvEnter o :: e ++ [EvVerdict r]) = [(o, h)]).
    { cbn [attempts_of]. rewrite attempts_of_app, (attempts_of_none _ _ _ Hev). done. }
    rewrite Hatt. split; [|split].
    + repeat constructor. cbn [fst snd]. by apply run_attempt_writes.
    + cbn [map concat]. rewrite (attempt_updates_eq _ _ _ _ Hrun), app_nil_r.
      change (updates (EvEnter o :: ?l)) with (updates l).
      by rewrite updates_app, app_nil_r.
    + intros _ _ _. rewrite retry_count_cons_enter, retry_count_app,
        (attempt_retry_count _ _ Hev). reflexivity.
  - intros o h r e res e2 Hrun Hev _ IH Hnamed.
    destruct (IH Hnamed) as (IHall & IHup & IHlen).
    assert (Hatt : attempts_of h (EvEnter o :: e ++ retry_messages o ++ e2)
                   = (o, h) :: attempts_of (h ++ EvEnter o :: e ++ retry_messages o) e2).
    { cbn [attempts_of app]. rewrite attempts_of_app, (attempts_of_none _ _ _ Hev).
      cbn [app]. rewrite attempts_of_app. cbn [retry_messages attempts_of app].
      do 2 f_equal. rewrite <- !app_assoc. reflexivity. }
    rewrite Hatt. split; [|split].
    + constructor; [cbn [fst snd]; repeat split; by apply run_attempt_writes|].
      exact IHall.
    + cbn [map concat]. rewrite (attempt_updates_eq _ _ _ _ Hrun), <- IHup.
      change (updates (EvEnter o :: ?l)) with (updates l).
      by rewrite !updates_app.
    + intros n o' Hres. cbn [length]. rewrite (IHlen n o' Hres).
      rewrite retry_count_cons_enter, !retry_count_app, (attempt_retry_count _ _ Hev).
      reflexivity.
Qed.

End WritesOfAttempts.

Lemma attempt_writes_bounds env o rb h :
  rebaseline o = rb -> attempt_writes env o h ->
  length (updates (snd (run_attempt env o h))) <= 1
  /\ Forall (fun write => runner_shard_index (fst write) = 0)
       (updates (snd (run_attempt env o h)))
  /\ (rb = false -> updates (snd (run_attempt env o h)) = []).
Proof.
  intros Hrb (devs & ems & e_acq & _ & Hwrites). cbv zeta in Hwrites.
  assert (Hnil : updates (snd (run_attempt env o h)) = [] ->
                 length (updates (snd (run_attempt env o h))) <= 1
                 /\ Forall (fun write => runner_shard_index (fst write) = 0)
                      (updates (snd (run_attempt env o h)))
                 /\ (rb = false -> updates (snd (run_attempt env o h)) = [])).
  { intros ->. split; [simpl; lia|]. split; [constructor|done]. }
  destruct devs as [|device0 rest]; [by apply Hnil|].
  destruct Hwrites as (r & _ & Hoff & Hsharded & Hsingle).
  destruct rb; [|by apply Hnil, Hoff].
  assert (Hone : forall writer failed_tests,
             updates (snd (run_attempt env o h)) = [(writer, failed_tests)] ->
             runner_shard_index writer = 0 ->
             length (updates (snd (run_attempt env o h))) <= 1
             /\ Forall (fun write => runner_shard_index (fst write) = 0)
                  (updates (snd (run_attempt env o h)))
             /\ (true = false -> updates (snd (run_attempt env o h)) = [])).
  { intros writer failed_tests -> Hidx. split; [simpl; lia|].
    split; [by repeat constructor|done]. }
  destruct (shards o (device0 :: rest)) eqn:Hshards.
  - destruct (Hsharded Hrb eq_refl) as [Hnone Hsome].
    destruct (failed r) as [|t ts] eqn:Hfailed; [by apply Hnil, Hnone|].
    destruct (Hsome ltac:(done)) as (writer & Hup & _ & Hidx).
    by apply (Hone writer (t :: ts)).
  - destruct (Hsingle Hrb eq_refl) as [Hsome Hnone].
    destruct (recognised env (h ++ e_acq) (test_suite o)) eqn:Hrec;
      [|by apply Hnil, Hnone].
    destruct (Hsome eq_refl) as (failed_tests & Hup & Hidx).
    by apply (Hone (single_runner o device0 (test_suite o)) failed_tests).
Qed.

(** C7, as amended.  For a completed run of a named suite, with its
    retries: every attempt is for that suite with the same [rebaseline],
    and the writes of the disabled list are those of the attempts, each of
    which writes as [attempt_writes] tells, through the runner of its first
    target (index 0).  So without [rebaseline] the list is never written;
    with it, it is written once at most in each attempt, that is at most
    once more than there were retries, and by runners of index 0 only. *)
Theorem C7_disabled_list_writes (env : Env) (fuel : nat) (o : Options)
    (h : list Event) (n : Z) (o' : Options) (evs : list Event) :
  test_suite o <> "" ->
  _RunATestSuite env fuel o h = (Some (n, o'), evs) ->
  Forall (fun attempt =>
            rebaseline (fst attempt) = rebaseline o
            /\ test_suite (fst attempt) = test_suite o
            /\ attempt_writes env (fst attempt) (snd attempt ++ [EvEnter (fst attempt)]))
    (attempts_of h evs)
  /\ length (attempts_of h evs) = S (retry_count evs)
  /\ updates evs = concat (map (attempt_updates env) (attempts_of h evs))
  /\ (rebaseline o = false -> updates evs = [])
  /\ length (updates evs) <= S (retry_count evs)
  /\ Forall (fun write => runner_shard_index (fst write) = 0) (updates evs).
Proof.
  intros Hnamed Hrun.
  pose proof (RunATestSuite_writes env fuel o h) as Hwrites.
  rewrite Hrun in Hwrites. cbn [fst snd] in Hwrites.
  destruct (Hwrites Hnamed) as (Hall & Hup & Hlen).
  specialize (Hlen n o' eq_refl).
  split; [exact Hall|]. split; [exact Hlen|]. split; [exact Hup|].
  rewrite Hup, <- Hlen. clear Hup Hlen Hwrites Hrun.
  induction Hall as [|[ok hk] attempts (Hrb & _ & Hatt) _ (IHoff & IHlen & IHidx)];
    [by repeat split|].
  cbn [fst snd] in *.
  destruct (attempt_writes_bounds env ok (rebaseline o) _ Hrb Hatt)
    as (Hle & Hidx & Hoff).
  cbn [map concat length]. unfold attempt_updates at 1 3 5. cbn [fst snd].
  split; [|split].
  - intros Hrb0. by rewrite (Hoff Hrb0), (IHoff Hrb0).
  - rewrite length_app. lia.
  - by apply Forall_app.
Qed.

(** Two devices, every run has one failed test: one attempt, one write. *)
Lemma C7_witness_sharded_rebaseline :
  let o := options_rebaseline "out/Release/net_unittests" in
  let env := bench (fun _ => ["device0"; "device1"]) true results_failed in
  test_suite o <> "" /\
  exists n o' evs writer failed_tests,
    _RunATestSuite env 3 o [] = (Some (n, o'), evs)
    /\ length (attempts_of [] evs) = 1
    /\ updates evs = [(writer, failed_tests)]
    /\ failed_tests <> []
    /\ runner_device writer = "device0"
    /\ runner_shard_index writer = 0.
Proof.
  intros o env.
  assert (Hnamed : test_suite o <> "") by discriminate.
  split; [exact Hnamed|].
  destruct (_RunATestSuite env 3 o []) as [[[n o']|] evs] eqn:Hrun;
    [|vm_compute in Hrun; discriminate].
  destruct (C7_disabled_list_writes env 3 o [] n o' evs Hnamed Hrun)
    as (_ & Hlen & _ & _ & _ & Hidx).
  assert (Hevs : snd (_RunATestSuite env 3 o []) = evs) by (by rewrite Hrun).
  assert (Hretries : retry_count evs = 0).
  { rewrite <- Hevs. vm_compute. reflexivity. }
  assert (Hup : exists writer failed_tests,
             updates evs = [(writer, failed_tests)] /\ failed_tests <> []
             /\ runner_device writer = "device0").
  { rewrite <- Hevs. vm_compute. eexists _, _. split; [reflexivity|].
    split; [discriminate|reflexivity]. }
  destruct Hup as (writer & failed_tests & Hup & Hfailed & Hdev).
  exists n, o', evs, writer, failed_tests.
  split; [reflexivity|]. split; [by rewrite Hlen, Hretries|].
  split; [exact Hup|]. split; [exact Hfailed|]. split; [exact Hdev|].
  rewrite Hup in Hidx. by apply Forall_inv in Hidx.
Defined.

(** The claim as the specification has it: with [rebaseline], a completed
    suite run whose merged results have failed tests writes the disabled
    list exactly once.  With two devices and runs that time out with a
    failed test, the suite is attempted three times and each attempt
    writes; a suite that is not recognised gives results with one failed
    test and no write. *)
Lemma C7_counterexample_retries_write_again :
  let o := options_rebaseline "out/Release/net_unittests" in
  let env := bench (fun _ => ["device0"; "device1"]) true results_timed_out in
  let run := _RunATestSuite env 3 o [] in
  let o2 := options_rebaseline "out/Release/nosuch_unittests" in
  let env2 := bench (fun _ => ["device0"]) false results_passed in
  let run2 := _RunATestSuite env2 3 o2 [] in
  rebaseline o = true
  /\ (exists n o', fst run = Some (n, o'))
  /\ verdicts (snd run) = [merge_results [results_timed_out; results_timed_out]]
  /\ length (attempts_of [] (snd run)) = 3
  /\ map (fun write => (runner_device (fst write), runner_shard_index (fst write)))
       (updates (snd run))
     = [("device0", 0); ("device0", 0); ("device0", 0)]
  /\ rebaseline o2 = true
  /\ verdicts (snd run2)
     = [FromOkAndFailed [] [mkBaseTestResult "out/Release/nosuch_unittests" ""]
          false false]
  /\ updates (snd run2) = []
  /\ ~ (forall env fuel o h n o' evs test_results,
          test_suite o <> "" -> rebaseline o = true ->
          _RunATestSuite env fuel o h = (Some (n, o'), evs) ->
          verdicts evs = [test_results] -> failed test_results <> [] ->
          length (updates evs) = 1).
Proof.
  intros o env run o2 env2 run2.
  split; [reflexivity|]. split; [vm_compute; by eexists _, _|].
  split; [vm_compute; reflexivity|]. split; [vm_compute; reflexivity|].
  split; [vm_compute; reflexivity|]. split; [reflexivity|].
  split; [vm_compute; reflexivity|]. split; [vm_compute; reflexivity|].
  intros Hclaim.
  assert (Hlen : length (updates (snd run2)) = 1).
  { destruct run2 as [[[n o']|] evs] eqn:Hrun; [|vm_compute in Hrun; discriminate].
    apply (Hclaim env2 3 o2 [] n o' evs
             (FromOkAndFailed [] [mkBaseTestResult "out/Release/nosuch_unittests" ""]
                false false));
      [discriminate|reflexivity|exact Hrun| |discriminate].
    vm_compute in Hrun. injection Hrun as _ _ <-. reflexivity. }
  vm_compute in Hlen. discriminate Hlen.
Qed.

(** ** Every attempt of a batch is for a named suite *)

Lemma RunATestSuite_names_suite env fuel o h :
  names_suite o (fst (_RunATestSuite env fuel o h)) (snd (_RunATestSuite env fuel o h)).
Proof.
  apply (RunATestSuite_attempts_ind env (fun o _ res evs => names_suite o res evs));
    clear; unfold names_suite.
  - intros o _ _. split; [constructor|done].
  - intros o h e _ Hev Hnamed.
    rewrite enters_cons_enter, enters_app, (attempt_enters _ _ Hev).
    split; [by repeat constructor|]. by intros n o' [= _ <-].
  - intros o h r e _ Hev _ Hnamed.
    rewrite enters_cons_enter, enters_app, (attempt_enters _ _ Hev).
    split; [by repeat constructor|]. by intros n o' [= _ <-].
  - intros o h r e res e2 _ Hev _ IH Hnamed.
    destruct (IH Hnamed) as [Hall Hres].
    rewrite enters_cons_enter, !enters_app, (attempt_enters _ _ Hev).
    split; [by constructor|]. intros n o' Hsome. by rewrite (Hres n o' Hsome).
Qed.

Lemma Dispatch_loop_names_suites env fuel suites failures o h :
  Forall (fun suite => suite <> "") suites ->
  Forall (fun o' => test_suite o' <> "")
    (enters (snd (Dispatch_loop env fuel suites failures o h))).
Proof.
  revert failures o h. induction suites as [|suite rest IH];
    intros failures o h Hsuites; [constructor|].
  apply Forall_cons in Hsuites as [Hsuite Hrest].
  rewrite Dispatch_loop_cons.
  pose proof (RunATestSuite_names_suite env fuel (set_test_suite suite o) h Hsuite)
    as [H1 _].
  destruct (_RunATestSuite env fuel (set_test_suite suite o) h) as [[[n o1]|] e1];
    [|done].
  specialize (IH (failures + n)%Z o1 (h ++ e1) Hrest).
  destruct (Dispatch_loop env fuel rest (failures + n)%Z o1 (h ++ e1)) as [res e2].
  simpl in *. rewrite enters_app. by apply Forall_app.
Qed.

(** Whatever the options [Dispatch] is given, each call of
    [_RunATestSuite] it makes, and each retry, has a suite named in the
    options. *)
Lemma Dispatch_attempts_named env fuel o h :
  Forall (fun o' => test_suite o' <> "") (enters (snd (Dispatch env fuel o h))).
Proof.
  destruct (test_suite o =? "help")%string eqn:Hhelp.
  - destruct (Dispatch_help env fuel o h Hhelp) as (evs & -> & Hevs). simpl.
    replace (enters evs) with (@nil Options); [constructor|].
    symmetry. eapply omap_nil_forallb; [|exact Hevs]. by intros [].
  - rewrite (Dispatch_run env fuel o h Hhelp).
    pose proof (Dispatch_loop_names_suites env fuel (all_test_suites env o) 0%Z o
                  (h ++ xvfb_start o) (all_test_suites_named env o)) as Hloop.
    assert (Hstart : enters (xvfb_start o) = []).
    { unfold xvfb_start. by destruct (use_xvfb o). }
    destruct (Dispatch_loop env fuel _ 0%Z o _) as [[[n o']|] e]; simpl in *;
      rewrite !enters_app, Hstart; simpl; [|done].
    replace (enters (dispatch_end o')) with (@nil Options).
    + by rewrite app_nil_r.
    + unfold dispatch_end. by destruct (use_xvfb o'), (annotate o').
Qed.

(** ** What a batch leaves alone *)

Lemma same_settings_refl o : same_settings o o.
Proof. by repeat split. Qed.

Lemma same_settings_trans o1 o2 o3 :
  same_settings o1 o2 -> same_settings o2 o3 -> same_settings o1 o3.
Proof.
  unfold same_settings. intros H1 H2.
  destruct H1 as (?&?&?&?&?&?&?&?&?&?&?&?), H2 as (?&?&?&?&?&?&?&?&?&?&?&?).
  repeat split; congruence.
Qed.

Lemma attempt_event_settings rb e :
  attempt_event rb e = true -> respects_rebaseline rb e && negb (is_xvfb e) = true.
Proof. destruct e, rb; try done. Qed.

Lemma RunATestSuite_keeps_settings env fuel o h :
  keeps_settings o (fst (_RunATestSuite env fuel o h))
    (snd (_RunATestSuite env fuel o h)).
Proof.
  apply (RunATestSuite_attempts_ind env (fun o _ res evs => keeps_settings o res evs));
    clear; unfold keeps_settings.
  - intros o _. by split.
  - intros o h e _ Hev. split.
    + simpl. rewrite forallb_app. simpl. rewrite andb_true_r.
      eapply forallb_weaken; [|exact Hev]. apply attempt_event_settings.
    + intros n o' [= _ <-]. apply same_settings_refl.
  - intros o h r e _ Hev _. split.
    + simpl. rewrite forallb_app. simpl. rewrite andb_true_r.
      eapply forallb_weaken; [|exact Hev]. apply attempt_event_settings.
    + intros n o' [= _ <-]. apply same_settings_refl.
  - intros o h r e res e2 _ Hev _ [IHev IHres].
    change (rebaseline (retry_options o)) with (rebaseline o) in IHev. split.
    + simpl. rewrite !forallb_app. simpl. rewrite IHev, andb_true_r.
      eapply forallb_weaken; [|exact Hev]. apply attempt_event_settings.
    + intros n o' Hres. eapply same_settings_trans; [|by apply (IHres n o')].
      by repeat split.
Qed.

Lemma Dispatch_loop_keeps_settings env fuel suites failures o h :
  keeps_settings o (fst (Dispatch_loop env fuel suites failures o h))
    (snd (Dispatch_loop env fuel suites failures o h)).
Proof.
  revert failures o h. induction suites as [|suite rest IH]; intros failures o h.
  - split; [done|]. intros n o' [= _ <-]. apply same_settings_refl.
  - rewrite Dispatch_loop_cons.
    pose proof (RunATestSuite_keeps_settings env fuel (set_test_suite suite o) h)
      as [Hev1 Hres1].
    destruct (_RunATestSuite env fuel (set_test_suite suite o) h) as [[[n o1]|] e1];
      [|by split].
    specialize (Hres1 n o1 eq_refl).
    destruct (IH (failures + n)%Z o1 (h ++ e1)) as [Hev2 Hres2].
    destruct (Dispatch_loop env fuel rest (failures + n)%Z o1 (h ++ e1)) as [res e2].
    simpl in *. split.
    + rewrite forallb_app, Hev1. simpl.
      destruct Hres1 as (Hrb & _). simpl in Hrb. by rewrite <- Hrb.
    + intros n' o' Hres. eapply same_settings_trans; [|by apply (Hres2 n' o')].
      eapply same_settings_trans; [|exact Hres1]. by repeat split.
Qed.

Lemma Dispatch_loop_last_suite env fuel suites failures o h n o' evs :
  Forall (fun suite => suite <> "") suites ->
  Dispatch_loop env fuel suites failures o h = (Some (n, o'), evs) ->
  test_suite o' = default (test_suite o) (last suites).
Proof.
  revert failures o h n o' evs. induction suites as [|suite rest IH];
    intros failures o h n o' evs Hsuites.
  - by intros [= _ <- _].
  - apply Forall_cons in Hsuites as [Hsuite Hrest].
    rewrite Dispatch_loop_cons.
    pose proof (RunATestSuite_names_suite env fuel (set_test_suite suite o) h Hsuite)
      as [_ Hname].
    destruct (_RunATestSuite env fuel (set_test_suite suite o) h) as [[[n1 o1]|] e1];
      [|done].
    specialize (Hname n1 o1 eq_refl). simpl in Hname.
    specialize (IH (failures + n1)%Z o1 (h ++ e1)).
    destruct (Dispatch_loop env fuel rest (failures + n1)%Z o1 (h ++ e1))
      as [res e2] eqn:Hloop.
    intros [= -> <-]. rewrite (IH _ _ _ Hrest eq_refl), Hname.
    destruct rest as [|suite' rest']; [done|].
    change (last (suite :: suite' :: rest')) with (last (suite' :: rest')).
    destruct (last (suite' :: rest')) eqn:Hlast; [done|].
    by apply last_None in Hlast.
Qed.

(** X1.  A batch that returns has changed nothing in the options but
    [test_suite], [fast_and_loose] and [repeat]: every other field is as it
    was given, and [test_suite] is left at the last suite that was run (at
    its first value when the suite was [help]). *)
Theorem X1_dispatch_frame (env : Env) (fuel : nat) (o : Options) (h : list Event)
    (n : Z) (o' : Options) (evs : list Event) :
  Dispatch env fuel o h = (Some (n, o'), evs) ->
  same_settings o o'
  /\ test_suite o' = default (test_suite o) (last (all_test_suites env o)).
Proof.
  intros Hrun. destruct (test_suite o =? "help")%string eqn:Hhelp.
  - destruct (Dispatch_help env fuel o h Hhelp) as (evs' & Hrun' & _).
    rewrite Hrun in Hrun'. injection Hrun' as _ -> _.
    split; [apply same_settings_refl|]. unfold all_test_suites. by rewrite Hhelp.
  - rewrite (Dispatch_run env fuel o h Hhelp) in Hrun.
    pose proof (Dispatch_loop_keeps_settings env fuel (all_test_suites env o) 0%Z o
                  (h ++ xvfb_start o)) as [_ Hset].
    pose proof (Dispatch_loop_last_suite env fuel (all_test_suites env o) 0%Z o
                  (h ++ xvfb_start o)) as Hlast.
    destruct (Dispatch_loop env fuel _ 0%Z o _) as [[[n1 o1]|] e]; [|done].
    injection Hrun as _ <- _. split; [by apply (Hset n1)|].
    by apply (Hlast n1 o1 e (all_test_suites_named env o)).
Qed.

Lemma X1_witness_catalog :
  exists n o' evs,
    Dispatch bench_one_timeout 3 default_options [] = (Some (n, o'), evs)
    /\ same_settings default_options o'
    /\ test_suite o' = "/src/out/Release/ui_unittests"
    /\ fast_and_loose o' = true /\ repeat o' = 1%Z.
Proof.
  destruct (Dispatch bench_one_timeout 3 default_options []) as [[[n o']|] evs] eqn:Hrun;
    [|vm_compute in Hrun; discriminate].
  destruct (X1_dispatch_frame _ _ _ _ _ _ _ Hrun) as [Hsame Hlast].
  exists n, o', evs. split; [done|]. split; [done|]. split; [exact Hlast|].
  vm_compute in Hrun. injection Hrun as _ <- _. by split.
Defined.

(** X2.  In the trace of a batch, whatever the number of suites and of
    retries, the disabled list is written only when [rebaseline] is set, and
    it is read (by the sharder) only when [rebaseline] is not set. *)
Theorem X2_disabled_list_discipline (env : Env) (fuel : nat) (o : Options)
    (h : list Event) :
  forallb (respects_rebaseline (rebaseline o)) (snd (Dispatch env fuel o h)) = true.
Proof.
  destruct (test_suite o =? "help")%string eqn:Hhelp.
  - destruct (Dispatch_help env fuel o h Hhelp) as (evs & -> & Hevs). simpl.
    eapply forallb_weaken; [|exact Hevs]. by intros [].
  - rewrite (Dispatch_run env fuel o h Hhelp).
    pose proof (Dispatch_loop_keeps_settings env fuel (all_test_suites env o) 0%Z o
                  (h ++ xvfb_start o)) as [Hev _].
    assert (Hloop : forallb (respects_rebaseline (rebaseline o))
                      (snd (Dispatch_loop env fuel (all_test_suites env o) 0%Z o
                              (h ++ xvfb_start o))) = true).
    { eapply forallb_weaken; [|exact Hev]. by intros e [? _]%andb_prop. }
    destruct (Dispatch_loop env fuel _ 0%Z o _) as [[[n o']|] e]; simpl in *;
      rewrite !forallb_app, Hloop; unfold xvfb_start, dispatch_end;
      destruct (use_xvfb o); try done;
      by destruct (use_xvfb o'), (annotate o').
Qed.

(** X3.  When a batch returns, Xvfb was started and stopped exactly when
    [use_xvfb] is set and the suite is not [help]: the start is the first
    event, before any suite; the stop comes after the events of all the
    suites, followed only by the final annotation; and nothing in between
    starts or stops it. *)
Theorem X3_xvfb_brackets_the_batch (env : Env) (fuel : nat) (o : Options)
    (h : list Event) (n : Z) (o' : Options) (evs : list Event) :
  Dispatch env fuel o h = (Some (n, o'), evs) ->
  exists suites_events,
    forallb (fun e => negb (is_xvfb e)) suites_events = true
    /\ evs = (if use_xvfb o && negb (test_suite o =? "help")%string
              then [EvXvfbStart] else [])
             ++ suites_events
             ++ (if use_xvfb o && negb (test_suite o =? "help")%string
                 then [EvXvfbStop] else [])
             ++ (if annotate o && negb (test_suite o =? "help")%string
                 then [EvPrint "@@@BUILD_STEP Test Finished@@@" []] else []).
Proof.
  intros Hrun. destruct (test_suite o =? "help")%string eqn:Hhelp.
  - destruct (Dispatch_help env fuel o h Hhelp) as (evs' & Hrun' & Hevs).
    rewrite Hrun in Hrun'. injection Hrun' as _ _ <-.
    exists evs. rewrite !andb_false_r. simpl. rewrite app_nil_r. split; [|done].
    eapply forallb_weaken; [|exact Hevs]. by intros [].
  - rewrite (Dispatch_run env fuel o h Hhelp) in Hrun.
    pose proof (Dispatch_loop_keeps_settings env fuel (all_test_suites env o) 0%Z o
                  (h ++ xvfb_start o)) as [Hev Hset].
    destruct (Dispatch_loop env fuel _ 0%Z o _) as [[[n1 o1]|] e]; [|done].
    injection Hrun as _ <- <-. simpl in Hev.
    destruct (Hset n1 o1 eq_refl) as (_&_&_&_&_&_&Hx&Ha&_).
    exists e. split.
    + eapply forallb_weaken; [|exact Hev]. by intros e' [_ ?]%andb_prop.
    + unfold xvfb_start, dispatch_end. by rewrite Hx, Ha, !andb_true_r.
Qed.

Lemma X3_witness_with_xvfb :
  let o := mkOptions "out/Release/net_unittests" false "" "" false "" 0%Z true
             false 2%Z true false 0%Z false "" in
  exists n o' suites_events,
    Dispatch bench_one_failure 3 o [] = (Some (n, o'), [EvXvfbStart] ++ suites_events
       ++ [EvXvfbStop] ++ [EvPrint "@@@BUILD_STEP Test Finished@@@" []])
    /\ forallb (fun e => negb (is_xvfb e)) suites_events = true
    /\ length (runs suites_events) = 1.
Proof.
  intros o.
  destruct (Dispatch bench_one_failure 3 o []) as [[[n o']|] evs] eqn:Hrun;
    [|vm_compute in Hrun; discriminate].
  destruct (X3_xvfb_brackets_the_batch _ _ _ _ _ _ _ Hrun) as (mid & Hmid & Hevs).
  exists n, o', mid. change (use_xvfb o && _) with true in Hevs.
  change (annotate o && _) with true in Hevs.
  split; [by rewrite Hevs|]. split; [done|].
  vm_compute in Hrun. injection Hrun as _ _ <-.
  apply (f_equal (fun l => length (runs l))) in Hevs.
  unfold runs in Hevs. rewrite !omap_app in Hevs. simpl in Hevs.
  rewrite app_nil_r in Hevs. symmetry. exact Hevs.
Defined.

(** ** The retry budget of a batch *)




(** ** Emulators *)

Lemma call_eq {A} (oracle : list Event -> A) (record : A -> Event) h :
  call oracle record h = (Some (oracle h), [record (oracle h)]).
Proof. reflexivity. Qed.

Lemma mapM_emit {A} (f : A -> Event) (l : list A) h :
  mapM (fun a => emit (f a)) l h = (Some (map (fun _ => tt) l), map f l).
Proof.
  revert h. induction l as [|a l IH]; intros h; [done|].
  change (map f (a :: l)) with ([f a] ++ map f l).
  cbn [mapM]. eapply bind_Some; [reflexivity|].
  rewrite <- (app_nil_r (map f l)). eapply bind_Some; [apply IH|]. reflexivity.
Qed.

Lemma launch_emulators_spec env fast k n h :
  exists devices,
    length devices = n
    /\ launch_emulators env fast (seq k n) h
       = (Some devices, launches_from fast k devices).
Proof.
  revert k h. induction n as [|n IH]; intros k h.
  - by exists [].
  - destruct (IH (S k) (h ++ [EvEmulatorLaunch fast (Nat.eqb k 0) (Emulator_device env h)]))
      as (devices & Hlen & Hrun).
    exists (Emulator_device env h :: devices). split; [simpl; by rewrite Hlen|].
    cbn [seq launch_emulators launches_from].
    change (?e :: launches_from fast (S k) devices)
      with ([e] ++ launches_from fast (S k) devices).
    eapply bind_Some; [apply call_eq|].
    rewrite <- (app_nil_r (launches_from fast (S k) devices)).
    eapply bind_Some; [exact Hrun|]. reflexivity.
Qed.

(** With emulators the devices are never enumerated. *)
Lemma acquire_targets_emulators env o h :
  (use_emulator o =? 0)%Z = false ->
  exists devices,
    length devices = Z.to_nat (use_emulator o)
    /\ acquire_targets env o h
       = (Some (devices, devices),
          launches_from (fast_and_loose o) 0 devices ++ map EvConfirmLaunch devices).
Proof.
  intros Hemu.
  destruct (launch_emulators_spec env (fast_and_loose o) 0 (Z.to_nat (use_emulator o)) h)
    as (devices & Hlen & Hrun).
  exists devices. split; [done|].
  unfold acquire_targets. rewrite Hemu. cbn [negb].
  eapply bind_Some; [exact Hrun|].
  rewrite <- (app_nil_r (map EvConfirmLaunch devices)).
  eapply bind_Some; [apply mapM_emit|]. reflexivity.
Qed.

Lemma acquire_targets_devices env o h :
  (use_emulator o =? 0)%Z = true ->
  acquire_targets env o h
  = (Some (GetAttachedDevices env h, []),
     [EvGetAttachedDevices (GetAttachedDevices env h)]).
Proof. intros Hemu. unfold acquire_targets. by rewrite Hemu. Qed.

Lemma run_event_attempt rb e : run_event rb e = true -> attempt_event rb e = true.
Proof.
  unfold run_event, attempt_event. intros [->| ->]%orb_prop; by rewrite ?orb_true_r.
Qed.

Lemma run_on_targets_run_events env options attached_devices :
  emits (run_event (rebaseline options)) (run_on_targets env options attached_devices).
Proof.
  unfold run_on_targets. destruct (_ && _) eqn:Hcond.
  - assert (Hne : attached_devices <> []).
    { intros ->. done. }
    eapply emits_bind_returns; [by apply TestSharder__init__returns| |].
    + eapply emits_weaken; [|apply TestSharder__init__emits].
      intros e He. unfold run_event. rewrite He. by rewrite !orb_true_r.
    + intros self [_ <-].
      eapply emits_weaken; [|apply RunShardedTests_emits].
      intros e He. unfold run_event. rewrite He. by rewrite !orb_true_r.
  - destruct attached_devices; [emits_steps|].
    eapply emits_weaken; [|apply RunTests_emits].
    intros e He. unfold run_event. by rewrite He.
Qed.

Lemma run_event_no_emulator rb e :
  run_event rb e = true -> acquire_event e = false /\ is_shutdown e = false.
Proof. by destruct e. Qed.

(** An attempt with emulators: they are launched, confirmed, used as the
    targets and shut down. *)
Lemma run_attempt_emulators env o h :
  (0 < use_emulator o)%Z ->
  exists devices test_results e_run,
    length devices = Z.to_nat (use_emulator o)
    /\ run_on_targets env o devices
         (h ++ launches_from (fast_and_loose o) 0 devices
            ++ map EvConfirmLaunch devices)
       = (Some test_results, e_run)
    /\ forallb (run_event (rebaseline o)) e_run = true
    /\ run_attempt env o h
       = (Some (Some test_results),
          launches_from (fast_and_loose o) 0 devices ++ map EvConfirmLaunch devices
            ++ e_run ++ map EvShutdown devices).
Proof.
  intros Hpos.
  assert (Hemu : (use_emulator o =? 0)%Z = false) by lia.
  destruct (acquire_targets_emulators env o h Hemu) as (devices & Hlen & Hacq).
  destruct (run_attempt_spec env o h)
    as (devs & ems & e_acq & Hacq' & _ & Hcases).
  rewrite Hacq in Hacq'. injection Hacq' as <- <- <-.
  destruct Hcases as [[-> _]|[_ (r & e_run & Hrun & _ & Hatt)]].
  { simpl in Hlen. lia. }
  exists devices, r, e_run. split; [done|].
  split; [done|]. split.
  - pose proof (run_on_targets_run_events env o devices
                  (h ++ launches_from (fast_and_loose o) 0 devices
                     ++ map EvConfirmLaunch devices)) as Hev.
    by rewrite Hrun in Hev.
  - by rewrite Hatt, <- app_assoc.
Qed.

Lemma launched_app e1 e2 : launched (e1 ++ e2) = launched e1 ++ launched e2.
Proof. apply omap_app. Qed.

Lemma shut_down_app e1 e2 : shut_down (e1 ++ e2) = shut_down e1 ++ shut_down e2.
Proof. apply omap_app. Qed.

Lemma launches_from_launched fast k devices :
  launched (launches_from fast k devices) = devices
  /\ shut_down (launches_from fast k devices) = []
  /\ forallb (launch_with fast) (launches_from fast k devices) = true.
Proof.
  revert k. induction devices as [|d devices IH]; intros k; [done|].
  destruct (IH (S k)) as (Hl & Hs & Hf). cbn [launches_from].
  split; [|split].
  - change (launched (?e :: ?l)) with (d :: launched l). by rewrite Hl.
  - exact Hs.
  - simpl. by rewrite Hf, eqb_reflx.
Qed.

Lemma confirms_launched fast devices :
  launched (map EvConfirmLaunch devices) = []
  /\ shut_down (map EvConfirmLaunch devices) = []
  /\ forallb (launch_with fast) (map EvConfirmLaunch devices) = true.
Proof. by induction devices. Qed.

Lemma shutdowns_launched fast devices :
  launched (map EvShutdown devices) = []
  /\ shut_down (map EvShutdown devices) = devices
  /\ forallb (launch_with fast) (map EvShutdown devices) = true.
Proof.
  induction devices as [|d devices (Hl & Hs & Hf)]; [done|].
  split; [done|]. split; [|done].
  change (shut_down (map EvShutdown (d :: devices)))
    with (d :: shut_down (map EvShutdown devices)). by rewrite Hs.
Qed.

Lemma run_events_launched rb fast evs :
  forallb (run_event rb) evs = true ->
  launched evs = [] /\ shut_down evs = []
  /\ forallb (launch_with fast) evs = true.
Proof.
  intros Hevs. split; [|split].
  - eapply omap_nil_forallb; [|exact Hevs]. by intros [].
  - eapply omap_nil_forallb; [|exact Hevs]. by intros [].
  - eapply forallb_weaken; [|exact Hevs]. by intros [].
Qed.

(** The emulators of one pass through [run_attempt]: as many as asked for,
    created with the flag of the options, and shut down when the pass gave
    results. *)
Lemma run_attempt_emulator_events env o h :
  shut_down (snd (run_attempt env o h)) = launched (snd (run_attempt env o h))
  /\ length (launched (snd (run_attempt env o h))) = Z.to_nat (use_emulator o)
  /\ forallb (launch_with (fast_and_loose o)) (snd (run_attempt env o h)) = true.
Proof.
  destruct (run_attempt_spec env o h)
    as (devs & ems & e_acq & Hacq & _ & Hcases).
  destruct (use_emulator o =? 0)%Z eqn:Hemu.
  - rewrite (acquire_targets_devices env o h Hemu) in Hacq.
    injection Hacq as <- <- <-.
    assert (Hn : Z.to_nat (use_emulator o) = 0) by lia. rewrite Hn.
    destruct Hcases as [[_ ->]|[_ (r & e_run & Hrun & _ & ->)]]; [done|].
    pose proof (run_on_targets_run_events env o (GetAttachedDevices env h)
                  (h ++ [EvGetAttachedDevices (GetAttachedDevices env h)])) as Hev.
    rewrite Hrun in Hev. cbn [snd] in Hev.
    destruct (run_events_launched _ (fast_and_loose o) _ Hev) as (Hl & Hs & Hf).
    cbn [snd map]. rewrite app_nil_r.
    change ([?e] ++ e_run) with (e :: e_run).
    change (shut_down (?e :: e_run)) with (shut_down e_run).
    change (launched (?e :: e_run)) with (launched e_run).
    rewrite Hl, Hs. simpl. by rewrite Hf.
  - destruct (acquire_targets_emulators env o h Hemu) as (devices & Hlen & Hacq').
    rewrite Hacq' in Hacq. injection Hacq as <- <- <-.
    destruct (launches_from_launched (fast_and_loose o) 0 devices) as (Hl1 & Hs1 & Hf1).
    destruct (confirms_launched (fast_and_loose o) devices) as (Hl2 & Hs2 & Hf2).
    destruct Hcases as [[-> ->]|[_ (r & e_run & Hrun & _ & ->)]].
    + simpl in *. by rewrite <- Hlen.
    + pose proof (run_on_targets_run_events env o devices
                    (h ++ launches_from (fast_and_loose o) 0 devices
                       ++ map EvConfirmLaunch devices)) as Hev.
      rewrite Hrun in Hev. cbn [snd] in Hev.
      destruct (run_events_launched _ (fast_and_loose o) _ Hev) as (Hl3 & Hs3 & Hf3).
      destruct (shutdowns_launched (fast_and_loose o) devices) as (Hl4 & Hs4 & Hf4).
      cbn [snd].
      rewrite !launched_app, !shut_down_app, !forallb_app.
      rewrite Hl1, Hl2, Hl3, Hl4, Hs1, Hs2, Hs3, Hs4, Hf1, Hf2, Hf3, Hf4.
      by rewrite !app_nil_r.
Qed.

Lemma launches_track_app cur e1 e2 :
  launches_track cur e1 -> launches_track (cur || existsb is_retry e1) e2 ->
  launches_track cur (e1 ++ e2).
Proof.
  revert cur. induction e1 as [|e e1 IH]; intros cur; simpl.
  - by rewrite orb_false_r.
  - intros [He H1] H2. split; [done|]. apply IH; [done|]. by rewrite <- orb_assoc.
Qed.

Lemma attempt_event_no_retry rb evs :
  forallb (attempt_event rb) evs = true -> existsb is_retry evs = false.
Proof.
  intros Hevs. destruct (sticky_attempt rb false evs Hevs) as [_ Hex].
  induction evs as [|e evs IH]; [done|]. simpl in *.
  apply andb_prop in Hevs as [He Hevs]. apply orb_false_elim in Hex as [Hflag Hex].
  rewrite (IH Hevs Hex), orb_false_r. by destruct e.
Qed.

Lemma launches_track_quiet cur evs :
  forallb (launch_with cur) evs = true -> existsb is_retry evs = false ->
  launches_track cur evs.
Proof.
  induction evs as [|e evs IH]; simpl; [done|].
  intros [He Hevs]%andb_prop [Hr Hex]%orb_false_elim.
  rewrite Hr, orb_false_r. split; [|by apply IH].
  destruct e; try done. simpl in He. by apply eqb_prop in He.
Qed.

Lemma launches_track_split cur before fast kill_all device after :
  launches_track cur (before ++ EvEmulatorLaunch fast kill_all device :: after) ->
  fast = cur || existsb is_retry before.
Proof.
  revert cur. induction before as [|e before IH]; intros cur; simpl.
  - rewrite orb_false_r. by intros [-> _].
  - intros [_ Hs]. rewrite orb_assoc. by apply IH.
Qed.

Lemma enters_attempt rb o e last_event :
  forallb (attempt_event rb) e = true ->
  match last_event with EvEnter _ => False | _ => True end ->
  enters (EvEnter o :: e ++ [last_event]) = [o].
Proof.
  intros Hev Hlast. rewrite enters_cons_enter, enters_app, (attempt_enters rb e Hev).
  by destruct last_event.
Qed.

Lemma RunATestSuite_keeps_emulators env fuel o h :
  keeps_emulators o (fst (_RunATestSuite env fuel o h))
    (snd (_RunATestSuite env fuel o h)).
Proof.
  apply (RunATestSuite_attempts_ind env (fun o _ res evs => keeps_emulators o res evs));
    clear; unfold keeps_emulators.
  - intros o _. simpl. split; [done|]. split; [lia|]. by split.
  - intros o h e Hrun Hev.
    destruct (run_attempt_emulator_events env o (h ++ [EvEnter o])) as (Hsl & Hlen & Hfl).
    rewrite Hrun in Hsl, Hlen, Hfl. cbn [snd] in *.
    pose proof (attempt_event_no_retry _ _ Hev) as Hno.
    rewrite (enters_attempt _ o e no_device_message Hev I).
    change (shut_down (EvEnter o :: ?l)) with (shut_down l).
    change (launched (EvEnter o :: ?l)) with (launched l).
    split; [done|]. split; [simpl; lia|]. split.
    + simpl. split; [done|]. rewrite orb_false_r.
      apply launches_track_quiet; [done|]. by rewrite existsb_app, Hno.
    + intros n o' [= _ <-]. split; [done|]. simpl.
      by rewrite existsb_app, Hno, orb_false_r.
  - intros o h r e Hrun Hev _.
    destruct (run_attempt_emulator_events env o (h ++ [EvEnter o])) as (Hsl & Hlen & Hfl).
    rewrite Hrun in Hsl, Hlen, Hfl. cbn [snd] in *.
    pose proof (attempt_event_no_retry _ _ Hev) as Hno.
    rewrite (enters_attempt _ o e (EvVerdict r) Hev I).
    change (shut_down (EvEnter o :: ?l)) with (shut_down l).
    change (launched (EvEnter o :: ?l)) with (launched l).
    rewrite launched_app, shut_down_app. simpl. rewrite !app_nil_r.
    split; [done|]. split; [lia|]. split.
    + split; [done|]. rewrite orb_false_r.
      apply launches_track_quiet; [|by rewrite existsb_app, Hno].
      by rewrite forallb_app, Hfl.
    + intros n o' [= _ <-]. split; [done|].
      by rewrite existsb_app, Hno, orb_false_r.
  - intros o h r e res e2 Hrun Hev _ (IHsl & IHlen & IHtr & IHres).
    destruct (run_attempt_emulator_events env o (h ++ [EvEnter o])) as (Hsl & Hlen & Hfl).
    rewrite Hrun in Hsl, Hlen, Hfl. cbn [snd] in *.
    pose proof (attempt_event_no_retry _ _ Hev) as Hno.
    change (use_emulator (retry_options o)) with (use_emulator o) in *.
    change (fast_and_loose (retry_options o)) with true in *.
    rewrite enters_cons_enter, !enters_app, (attempt_enters _ e Hev).
    change (shut_down (EvEnter o :: ?l)) with (shut_down l).
    change (launched (EvEnter o :: ?l)) with (launched l).
    rewrite !launched_app, !shut_down_app.
    change (launched (retry_messages o)) with (@nil Device).
    change (shut_down (retry_messages o)) with (@nil Device).
    change (enters (retry_messages o)) with (@nil Options).
    cbn [app length]. rewrite length_app, Hsl, IHsl, Hlen, IHlen.
    split; [done|]. split; [lia|]. split.
    + split; [done|]. cbn [is_retry]. rewrite orb_false_r.
      apply launches_track_app; [by apply launches_track_quiet|].
      apply launches_track_app; [done|]. simpl. by rewrite !orb_true_r.
    + intros n o' Hres. destruct (IHres n o' Hres) as [Hemu Hfast].
      split; [done|]. rewrite Hfast. simpl.
      rewrite !existsb_app. simpl. by rewrite !orb_true_r.
Qed.

Lemma Dispatch_loop_keeps_emulators env fuel suites failures o h :
  keeps_emulators o (fst (Dispatch_loop env fuel suites failures o h))
    (snd (Dispatch_loop env fuel suites failures o h)).
Proof.
  revert failures o h. induction suites as [|suite rest IH]; intros failures o h.
  - split; [done|]. split; [symmetry; apply Nat.mul_0_r|]. split; [done|].
    intros n o' [= _ <-]. by rewrite orb_false_r.
  - rewrite Dispatch_loop_cons.
    pose proof (RunATestSuite_keeps_emulators env fuel (set_test_suite suite o) h)
      as (Hsl1 & Hlen1 & Htr1 & Hres1).
    change (use_emulator (set_test_suite suite o)) with (use_emulator o) in *.
    change (fast_and_loose (set_test_suite suite o)) with (fast_and_loose o) in *.
    destruct (_RunATestSuite env fuel (set_test_suite suite o) h) as [[[n o1]|] e1];
      [|by repeat split].
    destruct (Hres1 n o1 eq_refl) as [Hemu1 Hfast1].
    destruct (IH (failures + n)%Z o1 (h ++ e1)) as (Hsl2 & Hlen2 & Htr2 & Hres2).
    destruct (Dispatch_loop env fuel rest (failures + n)%Z o1 (h ++ e1)) as [res e2].
    unfold keeps_emulators. cbn beta iota delta [fst snd] in *.
    rewrite Hemu1 in *. rewrite Hfast1 in *.
    rewrite launched_app, shut_down_app, enters_app, !length_app, Hsl1, Hsl2.
    split; [done|]. split; [lia|]. split; [by apply launches_track_app|].
    intros n' o' Hres. destruct (Hres2 n' o' Hres) as [Hemu2 Hfast2].
    split; [done|]. by rewrite Hfast2, existsb_app, orb_assoc.
Qed.

Lemma quiet_keeps_emulators cur evs :
  forallb (fun e => match e with
                    | EvXvfbStart | EvXvfbStop | EvPrint _ _ => true
                    | _ => false
                    end) evs = true ->
  launched evs = [] /\ shut_down evs = [] /\ enters evs = []
  /\ existsb is_retry evs = false /\ launches_track cur evs.
Proof.
  intros Hevs.
  assert (Hno : existsb is_retry evs = false).
  { clear cur. induction evs as [|e evs IH]; [done|]. simpl in *.
    apply andb_prop in Hevs as [He Hevs]. rewrite (IH Hevs). by destruct e. }
  repeat split; try done.
  - eapply omap_nil_forallb; [|exact Hevs]. by intros [].
  - eapply omap_nil_forallb; [|exact Hevs]. by intros [].
  - eapply omap_nil_forallb; [|exact Hevs]. by intros [].
  - apply launches_track_quiet; [|done].
    eapply forallb_weaken; [|exact Hevs]. by intros [].
Qed.

Lemma Dispatch_keeps_emulators env fuel o h :
  keeps_emulators o (fst (Dispatch env fuel o h)) (snd (Dispatch env fuel o h)).
Proof.
  destruct (test_suite o =? "help")%string eqn:Hhelp.
  - destruct (Dispatch_help env fuel o h Hhelp) as (evs & -> & Hevs).
    destruct (quiet_keeps_emulators (fast_and_loose o) evs)
      as (Hl & Hs & He & Hr & Ht).
    { eapply forallb_weaken; [|exact Hevs]. by intros []. }
    unfold keeps_emulators. cbn [fst snd]. rewrite Hl, Hs, He, Hr.
    split; [done|]. split; [symmetry; apply Nat.mul_0_r|].
    split; [done|]. intros n o' [= _ <-]. by rewrite orb_false_r.
  - rewrite (Dispatch_run env fuel o h Hhelp).
    pose proof (Dispatch_loop_keeps_emulators env fuel (all_test_suites env o) 0%Z o
                  (h ++ xvfb_start o)) as (Hsl & Hlen & Htr & Hres).
    destruct (quiet_keeps_emulators (fast_and_loose o) (xvfb_start o))
      as (Hl1 & Hs1 & He1 & Hr1 & Ht1).
    { unfold xvfb_start. by destruct (use_xvfb o). }
    unfold keeps_emulators.
    destruct (Dispatch_loop env fuel _ 0%Z o _) as [[[n o']|] e]; cbn [fst snd] in *.
    + destruct (quiet_keeps_emulators (fast_and_loose o || existsb is_retry e)
                  (dispatch_end o')) as (Hl2 & Hs2 & He2 & Hr2 & Ht2).
      { unfold dispatch_end. by destruct (use_xvfb o'), (annotate o'). }
      rewrite !launched_app, !shut_down_app, !enters_app, !existsb_app.
      rewrite Hl1, Hs1, He1, Hr1, Hl2, Hs2, He2, Hr2, !app_nil_r. cbn [app orb].
      split; [done|]. split; [done|]. split.
      * apply launches_track_app; [done|]. rewrite Hr1, orb_false_r.
        by apply launches_track_app.
      * intros n' o'' [= _ <-]. rewrite orb_false_r. by apply (Hres n).
    + rewrite !launched_app, !shut_down_app, !enters_app, Hl1, Hs1, He1.
      split; [done|]. split; [done|]. split; [|done].
      apply launches_track_app; [done|]. by rewrite Hr1, orb_false_r.
Qed.

(** X5.  One pass of [_RunATestSuite] with [use_emulator = n > 0]: [n]
    emulators are launched one after the other with the flag of the options,
    the first one only with [kill_all_emulators]; all of them are then
    confirmed; the devices are not enumerated and the emulators are the
    targets of the run; after the run each emulator is shut down, in the
    order of the launches.  The pass never ends on a missing device. *)
Theorem X5_emulators_of_an_attempt (env : Env) (o : Options) (h : list Event) :
  (0 < use_emulator o)%Z ->
  exists devices test_results e_run,
    length devices = Z.to_nat (use_emulator o)
    /\ run_attempt env o h
       = (Some (Some test_results),
          launches_from (fast_and_loose o) 0 devices ++ map EvConfirmLaunch devices
            ++ e_run ++ map EvShutdown devices)
    /\ run_on_targets env o devices
         (h ++ launches_from (fast_and_loose o) 0 devices
            ++ map EvConfirmLaunch devices)
       = (Some test_results, e_run)
    /\ forallb (fun e => negb (acquire_event e) && negb (is_shutdown e)) e_run = true.
Proof.
  intros Hpos.
  destruct (run_attempt_emulators env o h Hpos)
    as (devices & r & e_run & Hlen & Hrun & Hev & Hatt).
  exists devices, r, e_run. repeat split; try done.
  eapply forallb_weaken; [|exact Hev].
  intros e [-> ->]%run_event_no_emulator. done.
Qed.

Lemma X5_witness_two_emulators :
  (0 < use_emulator (options_emulators 2))%Z /\
  exists test_results e_run,
    run_attempt bench_emulators (options_emulators 2) []
    = (Some (Some test_results),
       [EvEmulatorLaunch false true "emulator-5554";
        EvEmulatorLaunch false false "emulator-5556";
        EvConfirmLaunch "emulator-5554"; EvConfirmLaunch "emulator-5556"]
         ++ e_run ++ [EvShutdown "emulator-5554"; EvShutdown "emulator-5556"])
    /\ forallb (fun e => negb (acquire_event e) && negb (is_shutdown e)) e_run = true.
Proof.
  split; [done|].
  destruct (X5_emulators_of_an_attempt bench_emulators (options_emulators 2) [])
    as (devices & r & e_run & Hlen & Hatt & _ & Hev); [done|].
  exists r, e_run. split; [|exact Hev].
  rewrite Hatt. f_equal.
  assert (Hdev : devices = ["emulator-5554"; "emulator-5556"]).
  { apply (f_equal (fun run => launched (snd run))) in Hatt.
    cbn [snd] in Hatt. rewrite !launched_app in Hatt.
    destruct (launches_from_launched false 0 devices) as (Hl & _).
    change (fast_and_loose (options_emulators 2)) with false in Hatt.
    rewrite Hl in Hatt.
    destruct (confirms_launched false devices) as (Hc & _). rewrite Hc in Hatt.
    destruct (shutdowns_launched false devices) as (Hs & _). rewrite Hs in Hatt.
    assert (He : launched e_run = []).
    { eapply omap_nil_forallb; [|exact Hev]. by intros []. }
    rewrite He, !app_nil_r in Hatt. rewrite <- Hatt. vm_compute. reflexivity. }
  rewrite Hdev. reflexivity.
Defined.

(** X6.  In the trace of a batch, whether it returns or not, the emulators
    that were shut down are the emulators that were launched, in the same
    order, and every attempt of every suite launched its own: their number
    is [use_emulator] (none when it is negative) times the number of
    attempts. *)
Theorem X6_emulators_of_the_batch (env : Env) (fuel : nat) (o : Options)
    (h : list Event) :
  shut_down (snd (Dispatch env fuel o h)) = launched (snd (Dispatch env fuel o h))
  /\ length (launched (snd (Dispatch env fuel o h)))
     = Z.to_nat (use_emulator o) * length (enters (snd (Dispatch env fuel o h))).
Proof.
  destruct (Dispatch_keeps_emulators env fuel o h) as (Hsl & Hlen & _). by split.
Qed.


(** ** A negative number of emulators *)





(** X8.  An emulator of a batch is created in the fast mode exactly when
    the batch was started with [fast_and_loose] or a retry was logged before
    the launch, in the same suite or in an earlier one. *)
Theorem X8_emulators_after_a_retry (env : Env) (fuel : nat) (o : Options)
    (h : list Event) (before after : list Event) (fast kill_all : bool)
    (device : Device) :
  snd (Dispatch env fuel o h) = before ++ EvEmulatorLaunch fast kill_all device :: after ->
  fast = fast_and_loose o || existsb is_retry before.
Proof.
  intros Hevs. destruct (Dispatch_keeps_emulators env fuel o h) as (_ & _ & Htr & _).
  rewrite Hevs in Htr. by apply launches_track_split in Htr.
Qed.

Lemma X8_witness_second_launch :
  let evs := snd (Dispatch bench_emulators 3 (options_emulators 1) []) in
  evs = take 15 evs ++ EvEmulatorLaunch true true "emulator-5556" :: drop 16 evs
  /\ existsb is_retry (take 15 evs) = true
  /\ launch_flags evs = [false; true].
Proof.
  intros evs.
  assert (Hevs : evs = take 15 evs
                       ++ EvEmulatorLaunch true true "emulator-5556" :: drop 16 evs)
    by (vm_compute; reflexivity).
  split; [exact Hevs|]. split; [|vm_compute; reflexivity].
  symmetry.
  exact (X8_emulators_after_a_retry bench_emulators 3 (options_emulators 1) []
           (take 15 evs) (drop 16 evs) true true "emulator-5556" Hevs).
Defined.

(** ** The tests of a sharder *)

Lemma TestSharder__init__tests env device0 rest test_suite gtest_filter test_arguments
    timeout rebaseline performance_test cleanup_test_files tool h :
  let test := mkSingleTestRunner device0 test_suite gtest_filter test_arguments
                timeout rebaseline performance_test cleanup_test_files tool 0 false in
  let all_tests := GetAllTests env (h ++ [EvSingleTestRunner test]) test in
  let disabled_list :=
    GetDisabledTests env (h ++ [EvSingleTestRunner test; EvGetAllTests test all_tests])
      test in
  exists self evs,
    TestSharder__init__ env (device0 :: rest) test_suite gtest_filter test_arguments
      timeout rebaseline performance_test cleanup_test_files tool h = (Some self, evs)
    /\ sharder_attached_devices self = device0 :: rest
    /\ sharder_tests self
       = if rebaseline then all_tests else enabled_tests env all_tests disabled_list.
Proof.
  intros test all_tests disabled_list.
  unfold TestSharder__init__, bind, call, ask, emit, ret.
  destruct rebaseline; cbn -[enabled_tests]; eexists _, _;
    (split; [reflexivity|]); split; try reflexivity.
  unfold enabled_tests. subst disabled_list all_tests test.
  by rewrite <- !app_assoc.
Qed.

Lemma slice_subseteq {A} (l : list A) lo hi x : x ∈ slice l lo hi -> x ∈ l.
Proof.
  unfold slice. intros Hin. eapply subseteq_drop, subseteq_take, Hin.
Qed.

(** X9.  Without [rebaseline], whatever the devices and the index, the
    filter of a runner of the sharder is made of tests of the suite, as the
    first runner listed them, that match no pattern of the disabled list:
    a disabled test is given to no shard. *)
Theorem X9_shards_leave_out_disabled (env : Env) (device0 : Device)
    (rest : list Device) (test_suite gtest_filter test_arguments : string)
    (timeout : Z) (performance_test cleanup_test_files : bool) (tool : string)
    (h : list Event) (self : TestSharder) (evs : list Event) (device : Device)
    (index : nat) (runner : SingleTestRunner) :
  let test := mkSingleTestRunner device0 test_suite gtest_filter test_arguments
                timeout false performance_test cleanup_test_files tool 0 false in
  let all_tests := GetAllTests env (h ++ [EvSingleTestRunner test]) test in
  let disabled_list :=
    GetDisabledTests env (h ++ [EvSingleTestRunner test; EvGetAllTests test all_tests])
      test in
  TestSharder__init__ env (device0 :: rest) test_suite gtest_filter test_arguments
    timeout false performance_test cleanup_test_files tool h = (Some self, evs) ->
  CreateShardedTestRunner self device index = Some runner ->
  exists shard,
    shard_test_list self index = Some shard
    /\ runner_gtest_filter runner = join ":" shard
    /\ forall t, t ∈ shard ->
         t ∈ all_tests /\ forall p, p ∈ disabled_list -> fnmatch env t p = false.
Proof.
  intros test all_tests disabled_list Hinit Hrunner.
  destruct (TestSharder__init__tests env device0 rest test_suite gtest_filter
              test_arguments timeout false performance_test cleanup_test_files tool h)
    as (self' & evs' & Hinit' & _ & Htests).
  rewrite Hinit in Hinit'. injection Hinit' as <- <-.
  fold test all_tests disabled_list in Htests.
  unfold CreateShardedTestRunner in Hrunner.
  destruct (shard_test_list self index) as [shard|] eqn:Hshard; [|done].
  injection Hrunner as <-. exists shard. split; [done|]. split; [done|].
  intros t Ht. unfold shard_test_list in Hshard.
  destruct (shard_size self) as [size|]; [|done]. injection Hshard as <-.
  apply slice_subseteq in Ht. rewrite Htests in Ht.
  unfold enabled_tests in Ht.
  apply list_elem_of_In, filter_In in Ht as [Hin Hno].
  split; [by apply list_elem_of_In|].
  intros p Hp. apply negb_true_iff in Hno.
  destruct (fnmatch env t p) eqn:Hmatch; [|done].
  assert (existsb (fnmatch env t) disabled_list = true); [|congruence].
  apply existsb_exists. exists p. split; [by apply list_elem_of_In|done].
Qed.

Lemma X9_witness_C_disabled :
  exists self evs runner,
    TestSharder__init__ bench_disabled ["device0"; "device1"] "net_unittests" "" ""
      0%Z false false false "" [] = (Some self, evs)
    /\ CreateShardedTestRunner self "device1" 1 = Some runner
    /\ runner_gtest_filter runner = "D:E"
    /\ forall t, t ∈ ["D"; "E"] ->
         t ∈ ["A"; "B"; "C"; "D"; "E"]
         /\ forall p, p ∈ ["C"] -> String.eqb t p = false.
Proof.
  destruct (TestSharder__init__ bench_disabled ["device0"; "device1"] "net_unittests"
              "" "" 0%Z false false false "" []) as [[self|] evs] eqn:Hinit;
    [|vm_compute in Hinit; discriminate].
  destruct (CreateShardedTestRunner self "device1" 1) as [runner|] eqn:Hrunner.
  2:{ vm_compute in Hinit. injection Hinit as <- _. vm_compute in Hrunner.
      discriminate. }
  destruct (X9_shards_leave_out_disabled bench_disabled "device0" ["device1"]
              "net_unittests" "" "" 0%Z false false "" [] self evs "device1" 1 runner
              Hinit Hrunner) as (shard & Hshard & Hfilter & Hall).
  assert (Hs : shard = ["D"; "E"]).
  { vm_compute in Hinit. injection Hinit as <- _. vm_compute in Hshard.
    by injection Hshard as <-. }
  subst shard. exists self, evs, runner. repeat split; try done; by apply Hall.
Defined.

(** X10.  When the sharder has fewer tests than devices, the shard size is
    0: every device gets a runner whose shard is empty and whose filter is
    the empty string, the filter of a run that was given none. *)
Theorem X10_more_devices_than_tests (self : TestSharder) (device : Device)
    (index : nat) :
  length (sharder_tests self) < length (sharder_attached_devices self) ->
  exists runner,
    CreateShardedTestRunner self device index = Some runner
    /\ shard_test_list self index = Some []
    /\ runner_gtest_filter runner = ""
    /\ truthy (runner_gtest_filter runner) = false.
Proof.
  intros Hlt.
  assert (Hshard : shard_test_list self index = Some []).
  { unfold shard_test_list, shard_size.
    destruct (length (sharder_attached_devices self)) as [|n] eqn:Hn; [lia|].
    rewrite Nat.div_small by lia. unfold slice.
    by rewrite !Nat.mul_0_r, Nat.sub_diag. }
  unfold CreateShardedTestRunner. rewrite Hshard. by eexists.
Qed.

Lemma X10_witness_two_tests_three_devices :
  let self := mkTestSharder ["device0"; "device1"; "device2"] "net_unittests"
                "net_unittests" "" "" 0%Z false false false "" ["A"; "B"] in
  length (sharder_tests self) < length (sharder_attached_devices self)
  /\ map (fun index => runner_gtest_filter
                         <$> CreateShardedTestRunner self "device" index) [0; 1; 2]
     = [Some ""; Some ""; Some ""].
Proof.
  intros self. split; [simpl; lia|].
  assert (Hlt : length (sharder_tests self) < length (sharder_attached_devices self))
    by (simpl; lia).
  destruct (X10_more_devices_than_tests self "device" 0 Hlt) as (r0 & H0 & _ & F0 & _).
  destruct (X10_more_devices_than_tests self "device" 1 Hlt) as (r1 & H1 & _ & F1 & _).
  destruct (X10_more_devices_than_tests self "device" 2 Hlt) as (r2 & H2 & _ & F2 & _).
  cbn [map]. rewrite H0, H1, H2. cbn [fmap option_fmap option_map].
  rewrite F0, F1, F2.
  reflexivity.
Defined.

(** ** The suites of [RunTests] *)

Section RunTestsFacts.

Variables (env : Env) (o : Options) (device : Device).

Lemma RunTests_suite_spec t h :
  exists ran evs,
    RunTests_suite env device (gtest_filter o) (test_arguments o) (rebaseline o)
      (timeout o) (performance_test o) (cleanup_test_files o) (tool o) (log_dump o)
      (annotate o) t h
    = (Some ran, evs)
    /\ runs_of o device [t] [ran] evs.
Proof.
  unfold RunTests_suite, runs_of, single_runner, bind, when, call, ask, emit, ret.
  destruct (annotate o), (rebaseline o); cbn; eexists _, _; (split; [reflexivity|]);
    match goal with
    | |- context [Run env ?h' ?test] => destruct (Run env h' test) as [r [d|]]
    end; by repeat split.
Qed.

Lemma runs_of_app suites1 ran1 evs1 suites2 ran2 evs2 :
  runs_of o device suites1 ran1 evs1 -> runs_of o device suites2 ran2 evs2 ->
  runs_of o device (suites1 ++ suites2) (ran1 ++ ran2) (evs1 ++ evs2).
Proof.
  unfold runs_of, runs, run_results, run_dumps, updates, zips.
  intros (H1 & H2 & H3 & H4 & H5 & H6 & H7) (K1 & K2 & K3 & K4 & K5 & K6 & K7).
  rewrite ?omap_app, ?map_app, ?omap_app, ?map_app, forallb_app.
  rewrite H1, H2, H3, H4, H5, H6, H7, K1, K2, K3, K4, K5, K6, K7.
  by destruct (rebaseline o).
Qed.

Lemma RunTests_suites_spec suites h :
  exists ran evs,
    mapM (RunTests_suite env device (gtest_filter o) (test_arguments o) (rebaseline o)
            (timeout o) (performance_test o) (cleanup_test_files o) (tool o)
            (log_dump o) (annotate o)) suites h
    = (Some ran, evs)
    /\ length ran = length suites
    /\ runs_of o device suites ran evs.
Proof.
  revert h. induction suites as [|t suites IH]; intros h.
  - exists [], []. split; [done|]. split; [done|]. unfold runs_of.
    by destruct (rebaseline o).
  - destruct (RunTests_suite_spec t h) as (ran1 & e1 & Hrun1 & Hof1).
    destruct (IH (h ++ e1)) as (ran2 & e2 & Hrun2 & Hlen & Hof2).
    exists (ran1 :: ran2), (e1 ++ e2). split; [|split].
    + cbn [mapM]. eapply bind_Some; [exact Hrun1|].
      rewrite <- (app_nil_r e2). eapply bind_Some; [exact Hrun2|]. reflexivity.
    + simpl. by rewrite Hlen.
    + by apply (runs_of_app [t] [ran1] e1 suites ran2 e2).
Qed.

Lemma status_line_spec test_results h :
  (if timed_out test_results then emit (EvPrint "@@@STEP_WARNINGS@@@" [])
   else if negb (bool_decide (failed test_results = [])) then
     emit (EvPrint "@@@STEP_FAILURE@@@" [])
   else if overall_fail test_results then emit (EvPrint "@@@STEP_FAILURE@@@" [])
   else emit (EvPrint "Step success!" [])) h
  = (Some tt, [EvPrint (status_line test_results) []]).
Proof.
  unfold status_line.
  by destruct (timed_out test_results), (bool_decide (failed test_results = [])),
    (overall_fail test_results).
Qed.

Lemma suites_to_run_last test_suite apk :
  exists t, last (suites_to_run env test_suite apk) = Some t.
Proof.
  unfold suites_to_run.
  destruct (truthy test_suite); [by eexists|]. destruct apk; by eexists.
Qed.

(** [RunTests] on a suite it does not reject, or on all of them. *)
Lemma RunTests_accepted h :
  (truthy (test_suite o) = true -> recognised env h (test_suite o) = true) ->
  exists ran evs r_last,
    runs_of o device (suites_to_run env (test_suite o) (apk o)) ran evs
    /\ last (map fst ran) = Some r_last
    /\ RunTests_of env o device h
       = (Some (FromTestResults env (map fst ran)),
          [EvPrint "Known suites: " _TEST_SUITES;
           EvPrint "Running these: " (suites_to_run env (test_suite o) (apk o))]
            ++ evs
            ++ [EvZipAndCleanResults (debug_info_dumps env) (log_dump o)
                  (omap id (map snd ran))]
            ++ (if annotate o then [EvPrint (status_line r_last) []] else [])).
Proof.
  intros Hrec.
  set (h1 := h ++ [EvPrint "Known suites: " _TEST_SUITES;
                   EvPrint "Running these: "
                     (suites_to_run env (test_suite o) (apk o))]).
  destruct (RunTests_suites_spec (suites_to_run env (test_suite o) (apk o)) h1)
    as (ran & evs & Hrun & Hlen & Hof).
  assert (Hlast : exists r_last, last (map fst ran) = Some r_last).
  { destruct (last (map fst ran)) as [r|] eqn:Hlast; [by eexists|].
    apply last_None, (f_equal length) in Hlast. rewrite length_map, Hlen in Hlast.
    destruct (suites_to_run_last (test_suite o) (apk o)) as (t & Ht).
    destruct (suites_to_run env (test_suite o) (apk o)); done. }
  destruct Hlast as (r_last & Hlast).
  exists ran, evs, r_last. split; [done|]. split; [done|].
  unfold RunTests_of, RunTests.
  assert (Hask : exists ex,
             (if truthy (test_suite o)
              then ask (fun h => os_path_exists env h (test_suite o))
              else ret true) h = (Some ex, [])
             /\ truthy (test_suite o) && negb ex
                && negb (splitext_ext (test_suite o) =? ".apk")%string = false).
  { destruct (truthy (test_suite o)) eqn:Hsuite.
    - exists (os_path_exists env h (test_suite o)). split; [done|].
      specialize (Hrec eq_refl). unfold recognised in Hrec.
      by destruct (os_path_exists env h (test_suite o)), (_ =? _)%string.
    - by exists true. }
  destruct Hask as (ex & Hask & Hcond).
  change ([?a; ?b] ++ ?rest) with ([] ++ [a] ++ [b] ++ rest).
  eapply bind_Some; [exact Hask|]. rewrite Hcond. cbv zeta.
  fold (suites_to_run env (test_suite o) (apk o)).
  eapply bind_Some; [reflexivity|].
  eapply bind_Some; [reflexivity|].
  rewrite app_nil_r, <- app_assoc.
  eapply bind_Some; [exact Hrun|].
  eapply bind_Some; [reflexivity|].
  rewrite <- (app_nil_r (if annotate o then _ else _)).
  eapply bind_Some; [|reflexivity].
  destruct (annotate o); [|reflexivity].
  rewrite Hlast. apply status_line_spec.
Qed.

End RunTestsFacts.

Lemma run_results_app e1 e2 :
  run_results (e1 ++ e2) = run_results e1 ++ run_results e2.
Proof. apply omap_app. Qed.

(** X11.  [RunTests] on a suite it does not reject, or on the whole catalog
    when no suite is named: each suite is run once, in order, on the one
    device by a runner of its own with shard index 0; with [rebaseline]
    every runner writes the failed tests of its own run to its disabled
    list; one archive of the debug dumps of all the runs is written; the
    value is the merge of the results of the runs. *)
Theorem X11_RunTests_runs_its_suites (env : Env) (o : Options) (device : Device)
    (h : list Event) :
  (truthy (test_suite o) = true -> recognised env h (test_suite o) = true) ->
  exists evs,
    RunTests_of env o device h = (Some (FromTestResults env (run_results evs)), evs)
    /\ runs evs = map (single_runner o device)
                    (suites_to_run env (test_suite o) (apk o))
    /\ map fst (updates evs) = (if rebaseline o then runs evs else [])
    /\ map snd (updates evs)
       = (if rebaseline o then map failed (run_results evs) else [])
    /\ zips evs = [(debug_info_dumps env, log_dump o, run_dumps evs)].
Proof.
  intros Hrec.
  destruct (RunTests_accepted env o device h Hrec)
    as (ran & evs & r_last & (H1 & H2 & H3 & H4 & H5 & H6 & _) & _ & Hrun).
  eexists. split; [|split; [|split; [|split]]].
  - rewrite Hrun. do 2 f_equal. unfold run_results.
    rewrite !omap_app. fold (run_results evs). rewrite H2.
    destruct (annotate o); by rewrite app_nil_r.
  - unfold runs. rewrite !omap_app. fold (runs evs). rewrite H1.
    destruct (annotate o); by rewrite app_nil_r.
  - unfold updates, runs. rewrite !omap_app. fold (updates evs) (runs evs).
    rewrite H1. destruct (annotate o); simpl; by rewrite !app_nil_r, H4.
  - unfold updates, run_results. rewrite !omap_app.
    fold (updates evs) (run_results evs).
    rewrite H2. destruct (annotate o); simpl; by rewrite !app_nil_r, H5.
  - unfold zips, run_dumps. rewrite !omap_app. fold (zips evs) (run_dumps evs).
    rewrite H6, H3. destruct (annotate o); simpl; by rewrite !app_nil_r.
Qed.

Lemma X11_witness_whole_catalog :
  exists evs,
    RunTests_of bench_first_fails (options_rebaseline "") "device0" []
    = (Some (FromTestResults bench_first_fails (run_results evs)), evs)
    /\ map runner_test_suite (runs evs)
       = map (fun t => "/src/out/Release/" ++ t)%string _TEST_SUITES
    /\ map fst (updates evs) = runs evs
    /\ map (fun l => length l) (map snd (updates evs)) = [1; 0; 0; 0; 0; 0; 0; 0]
    /\ length (zips evs) = 1.
Proof.
  destruct (X11_RunTests_runs_its_suites bench_first_fails (options_rebaseline "")
              "device0" []) as (evs & Hrun & Hruns & Hupd & Hfailed & Hzips); [done|].
  exists evs. split; [exact Hrun|]. split; [by rewrite Hruns|].
  split; [exact Hupd|]. split; [|by rewrite Hzips].
  rewrite Hfailed. apply (f_equal snd) in Hrun. cbn [snd] in Hrun.
  rewrite <- Hrun. vm_compute. reflexivity.
Defined.

(** X12.  When [RunTests] annotates, the last thing it prints is one status
    line, and that line is decided by the results of the last suite it ran
    and by nothing else: a suite that failed before the last one leaves no
    mark in it. *)
Theorem X12_status_of_the_last_suite (env : Env) (o : Options) (device : Device)
    (h : list Event) :
  annotate o = true ->
  (truthy (test_suite o) = true -> recognised env h (test_suite o) = true) ->
  exists evs r_last,
    snd (RunTests_of env o device h) = evs ++ [EvPrint (status_line r_last) []]
    /\ last (run_results evs) = Some r_last
    /\ forallb (fun e => negb (is_status e)) evs = true.
Proof.
  intros Hann Hrec.
  destruct (RunTests_accepted env o device h Hrec)
    as (ran & evs & r_last & (_ & H2 & _ & _ & _ & _ & H7) & Hlast & Hrun).
  rewrite Hann in Hrun. eexists _, r_last. split; [|split].
  - rewrite Hrun. cbn [snd]. rewrite !app_assoc. reflexivity.
  - unfold run_results. rewrite !omap_app. fold (run_results evs).
    rewrite H2. simpl. by rewrite app_nil_r.
  - rewrite !forallb_app, H7. reflexivity.
Qed.

Lemma X12_witness_first_suite_failed :
  exists evs r,
    RunTests_of bench_first_fails default_options "device0" []
    = (Some r, evs ++ [EvPrint "Step success!" []])
    /\ length (run_results evs) = 8
    /\ length (failed r) = 1.
Proof.
  destruct (X12_status_of_the_last_suite bench_first_fails default_options "device0" [])
    as (evs & r_last & Hevs & Hlast & _); [done|done|].
  assert (Hr : r_last = results_passed).
  { apply (f_equal (fun l => last (run_results l))) in Hevs.
    rewrite run_results_app in Hevs.
    change (run_results [EvPrint _ _]) with (@nil TestResults) in Hevs.
    rewrite app_nil_r, Hlast in Hevs. vm_compute in Hevs. by injection Hevs as <-. }
  subst r_last.
  destruct (RunTests_of bench_first_fails default_options "device0" [])
    as [[r|] evs'] eqn:Hrun; [|vm_compute in Hrun; discriminate].
  cbn [snd] in Hevs. subst evs'. exists evs, r. split; [reflexivity|].
  vm_compute in Hrun. injection Hrun as <- Hevs.
  split; [|reflexivity].
  apply (f_equal (fun l => length (run_results l))) in Hevs.
  rewrite run_results_app in Hevs.
  change (run_results [EvPrint _ _]) with (@nil TestResults) in Hevs.
  rewrite app_nil_r in Hevs. rewrite <- Hevs. vm_compute. reflexivity.
Defined.

(** ** The names of the catalog *)

Lemma has_slash_app a b : has_slash (a ++ b)%string = has_slash a || has_slash b.
Proof.
  unfold has_slash. induction a as [|c a IH]; [done|].
  cbn [append list_ascii_of_string existsb]. by rewrite IH, orb_assoc.
Qed.

Lemma endswith_slash_has_slash a : endswith_slash a = true -> has_slash a = true.
Proof.
  unfold has_slash. induction a as [|c a IH]; [done|].
  cbn [list_ascii_of_string existsb]. destruct a as [|c' a'].
  - cbn [endswith_slash]. intros Hc. rewrite Ascii.eqb_sym in Hc. by rewrite Hc.
  - intros Hend. rewrite IH; [by rewrite orb_true_r|exact Hend].
Qed.

Lemma endswith_slash_app a : endswith_slash (a ++ "/")%string = true.
Proof.
  induction a as [|c a IH]; [done|].
  cbn [append]. destruct a; [done|]. exact IH.
Qed.

Lemma basename_no_slash t : has_slash t = false -> basename t = t.
Proof.
  unfold has_slash. destruct t as [|c t]; [done|].
  cbn [list_ascii_of_string existsb basename].
  intros [Hc Ht]%orb_false_elim. rewrite Ht.
  rewrite Ascii.eqb_sym in Hc. by rewrite Hc.
Qed.

(** The name of a file in a directory. *)
Lemma basename_in_directory d t :
  d = "" \/ endswith_slash d = true -> has_slash t = false ->
  basename (d ++ t)%string = t.
Proof.
  intros Hd Ht. induction d as [|c d IH].
  - by apply basename_no_slash.
  - destruct Hd as [Hd|Hd]; [done|]. cbn [append basename].
    fold (has_slash (d ++ t)%string). rewrite has_slash_app, Ht, orb_false_r.
    destruct d as [|c' d'].
    + cbn [endswith_slash] in Hd. cbn [append]. change (has_slash "") with false.
      cbv iota. by rewrite Hd.
    + rewrite (endswith_slash_has_slash (String c' d')) by exact Hd.
      apply IH. by right.
Qed.

Lemma basename_path_join a t :
  has_slash t = false -> basename (path_join a t) = t.
Proof.
  intros Ht. unfold path_join.
  assert (Hstart : startswith_slash t = false).
  { destruct t as [|c t]; [done|]. unfold has_slash in Ht.
    cbn [list_ascii_of_string existsb] in Ht. cbn [startswith_slash].
    apply orb_false_elim in Ht as [Hc _]. by rewrite Ascii.eqb_sym. }
  rewrite Hstart. destruct (_ || _) eqn:Ha.
  - apply basename_in_directory; [|done].
    apply orb_prop in Ha as [Ha|Ha]; [left; by apply String.eqb_eq|by right].
  - change (a ++ "/" ++ t)%string with (a ++ String "/" t)%string.
    replace (a ++ String "/" t)%string with ((a ++ "/") ++ t)%string.
    + apply basename_in_directory; [right; apply endswith_slash_app|done].
    + clear. induction a as [|c a IH]; [done|]. cbn [append]. by rewrite IH.
Qed.

Lemma catalog_plain_names t :
  In t _TEST_SUITES -> has_slash t = false /\ ext_of_name false t = "".
Proof.
  unfold _TEST_SUITES. cbn [In]. intros Ht.
  repeat (destruct Ht as [<-|Ht]; [by split|]). destruct Ht.
Qed.

(** X13.  Wherever the checkout is, the base names of the fully qualified
    suites are the names of the catalog, in order; with [apk] every suite
    has the same base name, that of the package. *)
Theorem X13_basenames_of_the_suites (env : Env) :
  map basename (FullyQualifiedTestSuites env false) = _TEST_SUITES
  /\ map basename (FullyQualifiedTestSuites env true)
     = map (fun _ => "ChromeNativeTests-debug.apk") _TEST_SUITES.
Proof.
  unfold FullyQualifiedTestSuites. rewrite !map_map. split.
  - rewrite <- (map_id _TEST_SUITES) at 2. apply map_ext_in.
    intros t Ht. apply basename_path_join. by apply catalog_plain_names.
  - apply map_ext. intros t. by apply basename_path_join.
Qed.

(** X14.  With [apk], every suite of the catalog passes the test of
    [RunTests] on the suite it is given, whether its file exists or not:
    the name ends in [.apk].  Without [apk], no name of the catalog has an
    extension, and a suite passes exactly when its file exists. *)
Theorem X14_catalog_suites_recognised (env : Env) (h : list Event) (suite : string) :
  (suite ∈ FullyQualifiedTestSuites env true -> recognised env h suite = true)
  /\ (suite ∈ FullyQualifiedTestSuites env false ->
      recognised env h suite = os_path_exists env h suite).
Proof.
  unfold recognised, splitext_ext, FullyQualifiedTestSuites. split.
  - intros (t & -> & _)%list_elem_of_fmap.
    rewrite basename_path_join by done. by rewrite orb_true_r.
  - intros (t & -> & Ht)%list_elem_of_fmap.
    apply list_elem_of_In, catalog_plain_names in Ht as [Hslash Hext].
    rewrite basename_path_join by done. by rewrite Hext, orb_false_r.
Qed.

Lemma X14_witness_missing_package :
  let env := bench (fun _ => ["device0"]) false results_passed in
  let suite := "/src/out/Release/net_unittests_apk/ChromeNativeTests-debug.apk" in
  os_path_exists env [] suite = false
  /\ suite ∈ FullyQualifiedTestSuites env true
  /\ recognised env [] suite = true.
Proof.
  intros env suite.
  assert (Hin : suite ∈ FullyQualifiedTestSuites env true).
  { vm_compute. do 4 right. by left. }
  split; [reflexivity|]. split; [exact Hin|].
  exact (proj1 (X14_catalog_suites_recognised env [] suite) Hin).
Defined.

(** ** The suite of every runner *)

Lemma emits_mapM_Forall {A B} P (f : A -> W B) (l : list A) :
  Forall (fun a => emits P (f a)) l -> emits P (mapM f l).
Proof.
  induction 1 as [|a l Ha Hl IH]; simpl.
  - apply emits_ret.
  - apply emits_bind; [exact Ha|]. intros b.
    apply emits_bind; [exact IH|]. intros bs. by intros h.
Qed.

Lemma for_suite_no_runner suite e : runner_of e = None -> for_suite suite e = true.
Proof. unfold for_suite. by intros ->. Qed.

Section SuiteOfRunners.

Variable env : Env.

Lemma RunTests_for_suite device test_suite gtest_filter test_arguments rebaseline
    timeout performance_test cleanup_test_files tool log_dump_name apk annotate :
  truthy test_suite = true ->
  emits (for_suite test_suite)
    (RunTests env device test_suite gtest_filter test_arguments rebaseline timeout
       performance_test cleanup_test_files tool log_dump_name apk annotate).
Proof.
  intros Hsuite. unfold RunTests. rewrite Hsuite. apply emits_bind; [emits_steps|].
  intros exists_. destruct (_ && _); [emits_steps|]. cbv zeta.
  apply emits_bind; [emits_steps|]. intros _.
  apply emits_bind; [emits_steps|]. intros _.
  apply emits_bind.
  - cbn [mapM]. unfold RunTests_suite.
    assert (Hrunner : forall e, runner_of e
                                = Some (mkSingleTestRunner device test_suite gtest_filter
                                          test_arguments timeout rebaseline
                                          performance_test cleanup_test_files tool 0
                                          (truthy log_dump_name)) ->
                                for_suite test_suite e = true).
    { intros e He. unfold for_suite. rewrite He. apply String.eqb_refl. }
    apply emits_bind; [|intros ?; emits_steps].
    apply emits_bind; [emits_steps|]. intros _. cbv zeta.
    apply emits_bind; [apply emits_emit; by apply Hrunner|]. intros _.
    apply emits_bind; [apply emits_call; intros; by apply Hrunner|]. intros ran.
    apply emits_bind; [|intros _; emits_steps].
    apply emits_when, emits_emit. by apply Hrunner.
  - intros ran. cbv zeta. emits_steps.
    destruct annotate; emits_steps.
    destruct (last _) as [r|]; emits_steps.
    destruct (timed_out r); emits_steps.
    destruct (negb _); emits_steps.
    destruct (overall_fail r); emits_steps.
Qed.

Lemma TestSharder__init__for_suite attached_devices test_suite gtest_filter
    test_arguments timeout rebaseline performance_test cleanup_test_files tool :
  emits (for_suite test_suite)
    (TestSharder__init__ env attached_devices test_suite gtest_filter test_arguments
       timeout rebaseline performance_test cleanup_test_files tool).
Proof.
  unfold TestSharder__init__.
  destruct attached_devices as [|device0 rest]; [emits_steps|]. cbv zeta.
  assert (Hrunner : forall e, runner_of e
                              = Some (mkSingleTestRunner device0 test_suite gtest_filter
                                        test_arguments timeout rebaseline
                                        performance_test cleanup_test_files tool 0
                                        false) ->
                              for_suite test_suite e = true).
  { intros e He. unfold for_suite. rewrite He. apply String.eqb_refl. }
  apply emits_bind; [apply emits_emit; by apply Hrunner|]. intros _.
  apply emits_bind; [apply emits_call; intros; by apply Hrunner|]. intros all_tests.
  apply emits_bind; [|intros ?; emits_steps].
  destruct (negb rebaseline); [|emits_steps].
  apply emits_bind; [apply emits_call; intros; by apply Hrunner|]. intros ?.
  emits_steps.
Qed.

Lemma TestSharder__init__suite attached_devices test_suite gtest_filter
    test_arguments timeout rebaseline performance_test cleanup_test_files tool :
  attached_devices <> [] ->
  returns (fun self => sharder_attached_devices self = attached_devices
                       /\ sharder_test_suite self = test_suite)
    (TestSharder__init__ env attached_devices test_suite gtest_filter test_arguments
       timeout rebaseline performance_test cleanup_test_files tool).
Proof.
  intros Hne. unfold TestSharder__init__.
  destruct attached_devices as [|device0 rest]; [done|].
  eapply returns_bind; [apply returns_emit|]. intros _ _.
  eapply returns_bind; [by apply (returns_call (fun _ => True))|]. intros all_tests _.
  eapply (returns_bind (fun _ => True)).
  { destruct (negb rebaseline); [|by apply returns_ret].
    eapply returns_bind; [by apply (returns_call (fun _ => True))|]. intros dl _.
    by apply returns_ret. }
  intros tests _. by apply returns_ret.
Qed.

Lemma CreateShardedTestRunner_suite self device index test_runner :
  CreateShardedTestRunner self device index = Some test_runner ->
  runner_test_suite test_runner = sharder_test_suite self.
Proof.
  unfold CreateShardedTestRunner. destruct (shard_test_list self index); [|done].
  by intros [= <-].
Qed.

Lemma create_runners_for_suite self devices index :
  emits (for_suite (sharder_test_suite self)) (create_runners self devices index).
Proof.
  revert index. induction devices as [|device devices IH]; intros index; simpl.
  - emits_steps.
  - destruct (CreateShardedTestRunner self device index) as [r|] eqn:Hr; [|emits_steps].
    apply CreateShardedTestRunner_suite in Hr.
    apply emits_bind.
    { apply emits_emit. unfold for_suite. simpl. rewrite Hr. apply String.eqb_refl. }
    intros _. apply emits_bind; [apply IH|]. intros ?. emits_steps.
Qed.

Lemma create_runners_suite self devices index :
  sharder_attached_devices self <> [] ->
  returns (Forall (fun r => runner_test_suite r = sharder_test_suite self))
    (create_runners self devices index).
Proof.
  intros Hne. revert index.
  induction devices as [|device devices IH]; intros index; simpl.
  - by apply returns_ret.
  - destruct (CreateShardedTestRunner_Some self device index Hne) as (r & Hr & _).
    pose proof (CreateShardedTestRunner_suite _ _ _ _ Hr) as Hsuite. rewrite Hr.
    eapply returns_bind; [apply returns_emit|]. intros _ _.
    eapply returns_bind; [apply IH|]. intros rs Hrs.
    apply returns_ret. by constructor.
Qed.

Lemma RunShardedTests_for_suite self :
  sharder_attached_devices self <> [] ->
  emits (for_suite (sharder_test_suite self)) (RunShardedTests env self).
Proof.
  intros Hne. unfold RunShardedTests.
  eapply emits_bind_returns;
    [by apply create_runners_suite|apply create_runners_for_suite|].
  intros test_runners Hrunners.
  apply emits_bind.
  { apply emits_mapM_Forall. eapply Forall_impl; [exact Hrunners|].
    intros r Hr. apply emits_call. intros ran. unfold for_suite. simpl.
    rewrite Hr. apply String.eqb_refl. }
  intros ran. cbv zeta. apply emits_bind; [|intros ?; emits_steps].
  unfold OnTestsCompleted. apply emits_bind; [emits_steps|]. intros _.
  destruct (_ && _); [|emits_steps].
  destruct Hrunners as [|r rs Hr _]; [emits_steps|].
  apply emits_emit. unfold for_suite. simpl. rewrite Hr. apply String.eqb_refl.
Qed.

Lemma run_on_targets_for_suite options attached_devices :
  test_suite options <> "" ->
  emits (for_suite (test_suite options)) (run_on_targets env options attached_devices).
Proof.
  intros Hnamed. unfold run_on_targets. destruct (_ && _) eqn:Hcond.
  - assert (Hne : attached_devices <> []).
    { intros ->. done. }
    eapply emits_bind_returns;
      [by apply TestSharder__init__suite|apply TestSharder__init__for_suite|].
    intros self [Hdevs <-]. apply RunShardedTests_for_suite. by rewrite Hdevs.
  - destruct attached_devices; [emits_steps|].
    apply RunTests_for_suite. by apply truthy_named.
Qed.

Lemma run_attempt_for_suite options :
  test_suite options <> "" ->
  emits (for_suite (test_suite options)) (run_attempt env options).
Proof.
  intros Hnamed. unfold run_attempt. apply emits_bind.
  { eapply emits_weaken; [|apply acquire_targets_emits]. by intros []. }
  intros targets. cbv zeta. destruct (bool_decide _); [emits_steps|].
  apply emits_bind; [by apply run_on_targets_for_suite|]. intros r.
  emits_steps.
Qed.

Lemma RunATestSuite_for_suite fuel o h :
  test_suite o <> "" ->
  forallb (for_suite (test_suite o)) (snd (_RunATestSuite env fuel o h)) = true.
Proof.
  apply (RunATestSuite_attempts_ind env
           (fun o _ _ evs => test_suite o <> "" ->
                             forallb (for_suite (test_suite o)) evs = true)); clear h o.
  - done.
  - intros o h e Hrun _ Hnamed.
    pose proof (run_attempt_for_suite o Hnamed (h ++ [EvEnter o])) as Hev.
    by rewrite Hrun in Hev.
  - intros o h r e Hrun _ _ Hnamed.
    pose proof (run_attempt_for_suite o Hnamed (h ++ [EvEnter o])) as Hev.
    rewrite Hrun in Hev. cbn [snd] in Hev. simpl. by rewrite forallb_app, Hev.
  - intros o h r e res e2 Hrun _ _ IH Hnamed.
    pose proof (run_attempt_for_suite o Hnamed (h ++ [EvEnter o])) as Hev.
    rewrite Hrun in Hev. cbn [snd] in Hev. simpl.
    rewrite forallb_app, Hev. simpl. by apply IH.
Qed.

Lemma RunATestSuite_enters_first fuel o h n o' evs :
  _RunATestSuite env fuel o h = (Some (n, o'), evs) ->
  exists rest, evs = EvEnter o :: rest.
Proof.
  destruct fuel as [|fuel]; [done|]. cbn [_RunATestSuite]. unfold bind at 1.
  cbn [emit app]. destruct (bind _ _ _) as [res rest]. intros [= _ <-]. by eexists.
Qed.

Lemma Dispatch_loop_parts fuel suites failures o h n o' evs :
  Forall (fun suite => suite <> "") suites ->
  Dispatch_loop env fuel suites failures o h = (Some (n, o'), evs) ->
  exists parts, evs = concat parts /\ Forall2 part_of_suite suites parts.
Proof.
  revert failures o h n o' evs. induction suites as [|suite rest IH];
    intros failures o h n o' evs Hsuites.
  - intros [= _ _ <-]. by exists [].
  - apply Forall_cons in Hsuites as [Hsuite Hrest].
    rewrite Dispatch_loop_cons.
    pose proof (RunATestSuite_for_suite fuel (set_test_suite suite o) h Hsuite) as Hfor.
    pose proof (RunATestSuite_enters_first fuel (set_test_suite suite o) h) as Hfirst.
    destruct (_RunATestSuite env fuel (set_test_suite suite o) h) as [[[n1 o1]|] e1];
      [|done].
    destruct (Hfirst n1 o1 e1 eq_refl) as (rest1 & ->).
    specialize (IH (failures + n1)%Z o1 (h ++ EvEnter (set_test_suite suite o) :: rest1)).
    destruct (Dispatch_loop env fuel rest (failures + n1)%Z o1 _) as [res e2].
    intros [= -> <-].
    destruct (IH n o' e2 Hrest eq_refl) as (parts & -> & Hparts).
    exists ((EvEnter (set_test_suite suite o) :: rest1) :: parts).
    split; [done|]. constructor; [|done]. split; [by eexists _, _|done].
Qed.

End SuiteOfRunners.

(** X15.  What a batch that returns adds to the trace is, between the start
    and the end of [Dispatch], one part for each of its suites, in order;
    the part of a suite begins with the entry of [_RunATestSuite] for that
    suite, and every runner that is created, asked, run or writes a disabled
    list in it, in the first attempt or in a retry, by the sharder (run as
    the specification tells) or by [RunTests], is a runner of that suite:
    under [Dispatch], [RunTests] never runs the whole catalog. *)
Theorem X15_one_part_for_each_suite (env : Env) (fuel : nat) (o : Options)
    (h : list Event) (n : Z) (o' : Options) (evs : list Event) :
  Dispatch env fuel o h = (Some (n, o'), evs) ->
  (test_suite o =? "help")%string = false ->
  exists parts,
    evs = xvfb_start o ++ concat parts ++ dispatch_end o'
    /\ Forall2 part_of_suite (all_test_suites env o) parts.
Proof.
  intros Hrun Hhelp. rewrite (Dispatch_run env fuel o h Hhelp) in Hrun.
  pose proof (Dispatch_loop_parts env fuel (all_test_suites env o) 0%Z o
                (h ++ xvfb_start o)) as Hparts.
  destruct (Dispatch_loop env fuel _ 0%Z o _) as [[[n1 o1]|] e]; [|done].
  injection Hrun as _ <- <-.
  destruct (Hparts n1 o1 e (all_test_suites_named env o) eq_refl) as (parts & -> & HF).
  by exists parts.
Qed.

Lemma X15_witness_catalog :
  exists n o' parts,
    Dispatch bench_one_timeout 3 default_options []
    = (Some (n, o'),
       concat parts ++ [EvPrint "@@@BUILD_STEP Test Finished@@@" []])
    /\ Forall2 part_of_suite
         (map (fun t => "/src/out/Release/" ++ t)%string _TEST_SUITES) parts
    /\ length parts = 8.
Proof.
  destruct (Dispatch bench_one_timeout 3 default_options []) as [[[n o']|] evs] eqn:Hrun;
    [|vm_compute in Hrun; discriminate].
  destruct (X15_one_part_for_each_suite _ _ _ _ _ _ _ Hrun eq_refl)
    as (parts & Hevs & Hparts).
  exists n, o', parts.
  assert (Ho' : dispatch_end o' = [EvPrint "@@@BUILD_STEP Test Finished@@@" []]).
  { vm_compute in Hrun. by injection Hrun as _ <- _. }
  rewrite Ho' in Hevs. split; [by rewrite Hevs|]. split; [exact Hparts|].
  apply Forall2_length in Hparts. by rewrite <- Hparts.
Defined.

(** ** Xvfb *)

Lemma environ_get_remove name name' environ :
  environ_get name (environ_remove name' environ)
  = if (name' =? name)%string then None else environ_get name environ.
Proof.
  induction environ as [|[n v] environ IH]; simpl.
  - by destruct (name' =? name)%string.
  - destruct (String.eqb_spec n name') as [->|Hn]; simpl.
    + rewrite IH. by destruct (name' =? name)%string.
    + rewrite IH. destruct (String.eqb_spec n name) as [->|Hname]; [|done].
      destruct (String.eqb_spec name' name) as [->|_]; done.
Qed.

Lemma environ_remove_idem name environ :
  environ_remove name (environ_remove name environ) = environ_remove name environ.
Proof.
  unfold environ_remove. induction environ as [|[n v] environ IH]; simpl; [done|].
  destruct (n =? name)%string eqn:Hn; simpl; [done|]. by rewrite Hn, IH.
Qed.

Lemma environ_del_set name value environ :
  environ_del name (environ_set name value environ)
  = Some (environ_remove name environ).
Proof.
  unfold environ_del, environ_set. simpl. rewrite String.eqb_refl. simpl.
  by rewrite environ_remove_idem.
Qed.

Lemma confirm_spec host k n start retcode :
  (forall j, j < k -> Xvfb.xdpyinfo_retcode host (start + j) <> 0%Z) ->
  k <= n -> (k < n -> Xvfb.xdpyinfo_retcode host (start + k) = 0%Z) ->
  Xvfb.confirm host (seq start n) retcode
  = (if k <? n then Some 0%Z
     else match k with
          | 0 => retcode
          | S k' => Some (Xvfb.xdpyinfo_retcode host (start + k'))
          end,
     concat (replicate k failed_probe)
       ++ (if k <? n then [Xvfb.Popen_shell "xdpyinfo >/dev/null"; Xvfb.waitpid]
           else [])).
Proof.
  revert n start retcode. induction k as [|k IH]; intros n start retcode Hfail Hle Hok.
  - destruct n as [|n]; [done|]. cbn [seq Xvfb.confirm].
    specialize (Hok ltac:(lia)). rewrite Nat.add_0_r in Hok. by rewrite Hok.
  - destruct n as [|n]; [lia|]. cbn [seq Xvfb.confirm].
    pose proof (Hfail 0 ltac:(lia)) as H0. rewrite Nat.add_0_r in H0.
    apply Z.eqb_neq in H0. rewrite H0.
    rewrite (IH n (S start) (Some (Xvfb.xdpyinfo_retcode host start))).
    + change (S k <? S n) with (k <? n).
      destruct (k <? n) eqn:Hkn; [done|]. f_equal.
      destruct k as [|k']; [by rewrite Nat.add_0_r|]. do 2 f_equal. lia.
    + intros j Hj. replace (S start + j) with (start + S j) by lia.
      apply Hfail. lia.
    + lia.
    + intros Hkn. replace (S start + k) with (start + S k) by lia.
      apply Hok. lia.
Qed.

(** X16.  [Xvfb.Start] on Linux, when the Xvfb process got a pid: it sets
    [DISPLAY] to [:9] and probes the display with [xdpyinfo] until a probe
    succeeds, ten times at most, pausing a quarter of a second after every
    probe that failed, the tenth as well.  It returns when the probe of
    number [k < 10] is the first to succeed, after [k] pauses, and raises
    when none of the ten succeeds; either way the pid is kept and [DISPLAY]
    stays set: a start that fails leaves the Xvfb process and the variable
    behind. *)
Theorem X16_start_confirms_the_display (host : Xvfb.Host) (self : Xvfb.State)
    (k : nat) :
  Xvfb._IsLinux host = true -> Xvfb.Xvfb_pid host <> 0%Z ->
  (forall j, j < k -> Xvfb.xdpyinfo_retcode host j <> 0%Z) ->
  k <= 10 -> (k < 10 -> Xvfb.xdpyinfo_retcode host k = 0%Z) ->
  Xvfb.Start host self
  = (if k <? 10 then None else Some "Could not confirm Xvfb happiness",
     started (Xvfb.Xvfb_pid host) self, start_actions k).
Proof.
  intros Hlinux Hpid Hfail Hle Hok. unfold Xvfb.Start. rewrite Hlinux.
  cbn [negb Xvfb._pid Xvfb.environ]. apply Z.eqb_neq in Hpid. rewrite Hpid.
  rewrite (confirm_spec host k 10 0 None Hfail Hle Hok).
  unfold start_actions, started. destruct (k <? 10) eqn:Hk; [done|].
  destruct k as [|k']; [done|].
  pose proof (Hfail k' ltac:(lia)) as Hlast. apply Z.eqb_neq in Hlast.
  cbn [Nat.add]. by rewrite Hlast.
Qed.

Lemma X16_witness_fourth_probe :
  let host := Xvfb.mkHost "linux2" 4242 (fun test => if test <? 3 then 256%Z else 0%Z) in
  Xvfb.Start host (Xvfb.__init__ [("DISPLAY", ":0")])
  = (None, Xvfb.mkState 4242 [("DISPLAY", ":9")],
     Xvfb.Popen ["Xvfb"; ":9"; "-screen"; "0"; "1024x768x24"; "-ac"]
     :: failed_probe ++ failed_probe ++ failed_probe
     ++ [Xvfb.Popen_shell "xdpyinfo >/dev/null"; Xvfb.waitpid]).
Proof.
  intros host.
  apply (X16_start_confirms_the_display host (Xvfb.__init__ [("DISPLAY", ":0")]) 3).
  - reflexivity.
  - done.
  - intros j Hj. destruct j as [|[|[|j]]]; [done|done|done|lia].
  - lia.
  - reflexivity.
Defined.

Lemma Start_state host self :
  snd (fst (Xvfb.Start host self))
  = if Xvfb._IsLinux host
    then if (Xvfb.Xvfb_pid host =? 0)%Z then Xvfb.mkState 0 (Xvfb.environ self)
         else started (Xvfb.Xvfb_pid host) self
    else self.
Proof.
  unfold Xvfb.Start. destruct (Xvfb._IsLinux host); [|done].
  cbn [negb Xvfb._pid Xvfb.environ].
  destruct (Z.eqb_spec (Xvfb.Xvfb_pid host) 0) as [->|Hpid]; [done|].
  destruct (Xvfb.confirm host (seq 0 10) None) as [[retcode|] actions]; [|done].
  by destruct (negb _).
Qed.

Lemma confirm_sends_no_signal host tests retcode pid sig :
  ~ In (Xvfb.kill pid sig) (snd (Xvfb.confirm host tests retcode)).
Proof.
  revert retcode. induction tests as [|test tests IH]; intros retcode; simpl; [tauto|].
  destruct (_ =? 0)%Z; simpl; [intuition discriminate|].
  specialize (IH (Some (Xvfb.xdpyinfo_retcode host test))).
  destruct (Xvfb.confirm host tests _) as [r actions]. simpl in *.
  intuition discriminate.
Qed.

Lemma Start_sends_no_signal host self pid sig :
  ~ In (Xvfb.kill pid sig) (snd (Xvfb.Start host self)).
Proof.
  unfold Xvfb.Start. destruct (negb _); [simpl; tauto|].
  cbn [Xvfb._pid Xvfb.environ]. destruct (_ =? 0)%Z; [simpl; intuition discriminate|].
  pose proof (confirm_sends_no_signal host (seq 0 10) None pid sig) as Hconfirm.
  destruct (Xvfb.confirm host (seq 0 10) None) as [[retcode|] actions];
    [destruct (negb _)|]; simpl in *; intuition discriminate.
Qed.

(** X17.  [Stop] after [Start] on a new object, whatever the machine and
    whether [Start] returned or raised: [Stop] raises nothing, does nothing
    to the machine, leaves the pid at 0 and every variable but [DISPLAY] as
    it was; neither call sends a signal: the Xvfb process that was started
    is never killed ([signal] is not imported, and the bare [except] hides
    the [NameError]).  When an Xvfb process was started, [DISPLAY] is unset
    afterwards, also when it was set before [Start]: its value is not
    restored.  Off Linux [Start] does nothing either. *)
Theorem X17_stop_after_start (host : Xvfb.Host) (environ : Environ) :
  (exists self',
     Xvfb.Stop (snd (fst (Xvfb.Start host (Xvfb.__init__ environ)))) = (None, self', [])
     /\ Xvfb._pid self' = 0%Z
     /\ (forall name, name <> "DISPLAY" ->
         environ_get name (Xvfb.environ self') = environ_get name environ)
     /\ environ_get "DISPLAY" (Xvfb.environ self')
        = if Xvfb._IsLinux host && negb (Xvfb.Xvfb_pid host =? 0)%Z then None
          else environ_get "DISPLAY" environ)
  /\ (forall pid sig,
        ~ In (Xvfb.kill pid sig) (snd (Xvfb.Start host (Xvfb.__init__ environ))))
  /\ (Xvfb._IsLinux host = false ->
      Xvfb.Start host (Xvfb.__init__ environ) = (None, Xvfb.__init__ environ, [])).
Proof.
  split; [|split; [intros pid sig; apply Start_sends_no_signal|]].
  2:{ intros Hlinux. unfold Xvfb.Start. by rewrite Hlinux. }
  rewrite Start_state. cbn [Xvfb.__init__ Xvfb.environ].
  destruct (Xvfb._IsLinux host); [|by eexists].
  destruct (Z.eqb_spec (Xvfb.Xvfb_pid host) 0) as [Hpid|Hpid]; [by eexists|].
  unfold Xvfb.Stop, started. cbn [Xvfb._pid Xvfb.environ].
  apply Z.eqb_neq in Hpid. rewrite Hpid, environ_del_set. cbn [negb andb].
  eexists. split; [reflexivity|]. split; [done|]. cbn [Xvfb.environ]. split.
  - intros name Hname. rewrite environ_get_remove.
    destruct (String.eqb_spec "DISPLAY" name) as [<-|_]; done.
  - by rewrite environ_get_remove.
Qed.

(** ** protoc_java *)

Section ProtocJava.

Import protoc_java.

Variables (host : Host) (o : Options) (args : list string).

Lemma main_cases :
  (validated o = false
   /\ exists line, main host o args = (Return (Some 1%Z), [print line]))
  \/ (validated o = true /\ custom_env host o = None
      /\ main host o args = (Raise "KeyError", []))
  \/ (validated o = true
      /\ exists env,
          custom_env host o = Some env
          /\ ((CheckOutput_raises host (protoc_command host o args) env = true
               /\ main host o args
                  = (Raise "CalledProcessError",
                     [CheckOutput (protoc_command host o args) env]))
              \/ (CheckOutput_raises host (protoc_command host o args) env = false
                  /\ main host o args
                     = (fst (finish o args),
                        CheckOutput (protoc_command host o args) env
                        :: (if truthy (java_out_dir o)
                            then [DeleteDirectory (java_out_dir o);
                                  copytree (temp_dir host) (java_out_dir o)]
                            else [ZipDir (srcjar o) (temp_dir host)])
                        ++ snd (finish o args))))).
Proof.
  unfold main, validated. fold (protoc_command host o args).
  destruct (truthy (java_out_dir o)) eqn:Hjava, (truthy (srcjar o)) eqn:Hsrcjar,
    (nano o) eqn:Hnano, (truthy (protoc_javalite_plugin_dir o)) eqn:Hplugin;
    cbn [negb andb orb]; try (left; split; [done|by eexists]);
    (destruct (custom_env host o) as [env|];
     [|right; left; by repeat split]);
    right; right; (split; [done|]); exists env; (split; [done|]);
    (destruct (CheckOutput_raises host (protoc_command host o args) env);
     [left; by split|right; split; [done|]]);
    by destruct (finish o args).
Qed.

End ProtocJava.

Ltac protoc_cases host o args :=
  let Hval := fresh "Hval" in
  let Henv := fresh "Henv" in
  let Hraises := fresh "Hraises" in
  let Hmain := fresh "Hmain" in
  let env := fresh "env" in
  let line := fresh "line" in
  destruct (main_cases host o args)
    as [(Hval & line & Hmain)
       |[(Hval & Henv & Hmain)
        |(Hval & env & Henv & [(Hraises & Hmain)|(Hraises & Hmain)])]];
  rewrite Hmain; unfold succeeds; try rewrite Hval; try rewrite Henv;
  try rewrite Hraises;
  cbn [fst snd negb andb orb].

(** X18.  [protoc_java.main] returns [None], so that the process exits with
    0, exactly when its two checks pass, [PATH] is set if the plugin
    directory is given, protoc succeeds, and a depfile, if asked for, comes
    with a srcjar.  The stamp is touched exactly then (when one is given),
    once, as the last thing [main] does: a stamp is never left by a run that
    failed. *)
Theorem X18_stamp_means_success (host : protoc_java.Host) (o : protoc_java.Options)
    (args : list string) :
  (fst (protoc_java.main host o args) = protoc_java.Return None
   <-> succeeds host o args = true)
  /\ (protoc_java.exit_status (fst (protoc_java.main host o args)) = 0%Z
      <-> succeeds host o args = true)
  /\ forall path,
       (In (protoc_java.Touch path) (snd (protoc_java.main host o args))
        <-> succeeds host o args = true
            /\ truthy (protoc_java.stamp o) = true /\ path = protoc_java.stamp o)
       /\ (In (protoc_java.Touch path) (snd (protoc_java.main host o args)) ->
           last (snd (protoc_java.main host o args)) = Some (protoc_java.Touch path)).
Proof.
  protoc_cases host o args.
  4: unfold protoc_java.finish;
     destruct (truthy (protoc_java.depfile o)) eqn:Hdep,
       (truthy (protoc_java.srcjar o)) eqn:Hsrcjar,
       (truthy (protoc_java.java_out_dir o)) eqn:Hjava,
       (truthy (protoc_java.stamp o)) eqn:Hstamp.
  all: cbn [fst snd negb andb orb app protoc_java.exit_status].
  all: repeat split; intros; simpl in *;
    intuition (try discriminate; try congruence).
Qed.

(** X19.  [main] writes one output at most.  The srcjar is zipped only when
    no [--java-out-dir] is given; with [--java-out-dir] the directory is
    deleted and copied from the temporary directory, and the srcjar is not
    written even when it was asked for as well.  A depfile is written only
    with a srcjar, after the output, and always names the srcjar as its
    target and the arguments followed by protoc as its inputs, also when
    the srcjar was not written. *)
Theorem X19_one_output (host : protoc_java.Host) (o : protoc_java.Options)
    (args : list string) :
  (forall output base_dir,
     In (protoc_java.ZipDir output base_dir) (snd (protoc_java.main host o args)) ->
     truthy (protoc_java.java_out_dir o) = false
     /\ output = protoc_java.srcjar o /\ base_dir = protoc_java.temp_dir host)
  /\ (forall src dst,
        In (protoc_java.copytree src dst) (snd (protoc_java.main host o args)) ->
        truthy (protoc_java.java_out_dir o) = true
        /\ src = protoc_java.temp_dir host /\ dst = protoc_java.java_out_dir o
        /\ In (protoc_java.DeleteDirectory dst) (snd (protoc_java.main host o args)))
  /\ (forall depfile_path target inputs,
        In (protoc_java.WriteDepfile depfile_path target inputs)
          (snd (protoc_java.main host o args)) ->
        depfile_path = protoc_java.depfile o
        /\ target = protoc_java.srcjar o /\ truthy (protoc_java.srcjar o) = true
        /\ inputs = args ++ [protoc_java.protoc o]).
Proof.
  protoc_cases host o args.
  4: unfold protoc_java.finish;
     destruct (truthy (protoc_java.depfile o)) eqn:Hdep,
       (truthy (protoc_java.srcjar o)) eqn:Hsrcjar,
       (truthy (protoc_java.java_out_dir o)) eqn:Hjava,
       (truthy (protoc_java.stamp o)) eqn:Hstamp.
  all: cbn [fst snd negb andb orb app].
  all: repeat split; intros; simpl in *;
    intuition (try discriminate; try congruence).
Qed.

Lemma X19_witness_both_outputs :
  snd (protoc_java.main build_host options_both_outputs ["a.proto"])
  = [protoc_java.CheckOutput
       ["out/protoc"; "--proto_path"; "proto";
        "--javanano_out=optional_field_style=reftypes,store_unknown_fields=true:/tmp/tmpXYZ";
        "a.proto"]
       [("HOME", "/root"); ("PATH", "/usr/bin")];
     protoc_java.DeleteDirectory "gen/java";
     protoc_java.copytree "/tmp/tmpXYZ" "gen/java";
     protoc_java.WriteDepfile "gen/a.d" "gen/a.srcjar" ["a.proto"; "out/protoc"];
     protoc_java.Touch "gen/a.stamp"]
  /\ (forall output base_dir,
        ~ In (protoc_java.ZipDir output base_dir)
            (snd (protoc_java.main build_host options_both_outputs ["a.proto"]))).
Proof.
  split; [reflexivity|]. intros output base_dir Hin.
  by destruct (proj1 (X19_one_output build_host options_both_outputs ["a.proto"])
                 output base_dir Hin) as [? _].
Defined.

(** X20.  [main] runs protoc once at most, before anything else it does,
    and exactly when its two checks pass and [PATH] is set if the plugin
    directory is given; when a check fails it prints one line and returns
    1.  The command is protoc, [--proto_path] and its value, the output
    argument and the arguments of [main], where [--nano] decides the output
    argument even if the plugin directory is given.  The environment of
    protoc is that of the process, but for [PATH] when the plugin directory
    is given, with or without [--nano]: the absolute plugin directory is put
    before it. *)
Theorem X20_protoc_is_run_once (host : protoc_java.Host) (o : protoc_java.Options)
    (args : list string) :
  (validated o = false ->
   exists line, protoc_java.main host o args
                = (protoc_java.Return (Some 1%Z), [protoc_java.print line]))
  /\ (forall command env rest,
        snd (protoc_java.main host o args)
        = protoc_java.CheckOutput command env :: rest ->
        command = protoc_command host o args
        /\ (forall command' env', ~ In (protoc_java.CheckOutput command' env') rest)
        /\ (forall name, name <> "PATH" ->
            environ_get name env = environ_get name (protoc_java.os_environ host))
        /\ environ_get "PATH" env
           = if truthy (protoc_java.protoc_javalite_plugin_dir o)
             then (fun PATH =>
                     protoc_java.abspath host (protoc_java.protoc_javalite_plugin_dir o)
                     ++ ":" ++ PATH)%string
                  <$> environ_get "PATH" (protoc_java.os_environ host)
             else environ_get "PATH" (protoc_java.os_environ host))
  /\ (validated o = true ->
      (truthy (protoc_java.protoc_javalite_plugin_dir o) = true ->
       environ_get "PATH" (protoc_java.os_environ host) <> None) ->
      exists env rest,
        snd (protoc_java.main host o args)
        = protoc_java.CheckOutput (protoc_command host o args) env :: rest)
  /\ (forall command env,
        In (protoc_java.CheckOutput command env) (snd (protoc_java.main host o args)) ->
        validated o = true
        /\ exists rest, snd (protoc_java.main host o args)
                        = protoc_java.CheckOutput command env :: rest).
Proof.
  assert (Henvs : forall env,
             protoc_java.custom_env host o = Some env ->
             (forall name, name <> "PATH" ->
              environ_get name env = environ_get name (protoc_java.os_environ host))
             /\ environ_get "PATH" env
                = if truthy (protoc_java.protoc_javalite_plugin_dir o)
                  then (fun PATH =>
                          protoc_java.abspath host
                            (protoc_java.protoc_javalite_plugin_dir o)
                          ++ ":" ++ PATH)%string
                       <$> environ_get "PATH" (protoc_java.os_environ host)
                  else environ_get "PATH" (protoc_java.os_environ host)).
  { intros env. unfold protoc_java.custom_env.
    destruct (truthy (protoc_java.protoc_javalite_plugin_dir o));
      [|by intros [= <-]].
    destruct (environ_get "PATH" (protoc_java.os_environ host)) as [PATH|] eqn:HPATH;
      [|done].
    intros [= <-]. split.
    - intros name Hname. unfold environ_set. cbn [environ_get].
      destruct (String.eqb_spec "PATH" name) as [<-|_]; [done|].
      rewrite environ_get_remove.
      by destruct (String.eqb_spec "PATH" name) as [<-|_].
    - unfold environ_set. cbn [environ_get]. by rewrite String.eqb_refl. }
  assert (Hnone : protoc_java.custom_env host o = None ->
                  truthy (protoc_java.protoc_javalite_plugin_dir o) = true
                  /\ environ_get "PATH" (protoc_java.os_environ host) = None).
  { unfold protoc_java.custom_env.
    destruct (truthy (protoc_java.protoc_javalite_plugin_dir o)); [|done].
    by destruct (environ_get "PATH" (protoc_java.os_environ host)). }
  destruct (main_cases host o args)
    as [(Hval & line & Hmain)
       |[(Hval & Henv & Hmain)
        |(Hval & env & Henv & [(Hraises & Hmain)|(Hraises & Hmain)])]];
    rewrite Hmain, Hval; cbn [fst snd].
  - split; [by eexists|]. split; [done|]. split; [done|].
    intros command env [[=]|[]].
  - split; [done|]. split; [done|]. split; [|by intros command env []].
    intros _ HPATH. destruct (Hnone Henv) as [Hplugin Hno]. by destruct (HPATH Hplugin).
  - split; [done|]. split; [|split].
    + intros command env' rest [= <- <- <-]. split; [done|]. split; [by intros ? ? []|].
      by apply Henvs.
    + intros _ _. by eexists _, _.
    + intros command env' [[= <- <-]|[]]. split; [done|]. by eexists.
  - split; [done|]. split; [|split].
    + intros command env' rest [= <- <- <-]. split; [done|]. split; [|by apply Henvs].
      intros command' env'' Hin. unfold protoc_java.finish in Hin.
      destruct (truthy (protoc_java.java_out_dir o)),
        (truthy (protoc_java.depfile o) && negb (truthy (protoc_java.srcjar o))),
        (truthy (protoc_java.depfile o)), (truthy (protoc_java.stamp o));
        simpl in Hin; intuition discriminate.
    + intros _ _. by eexists _, _.
    + intros command env' Hin. split; [done|].
      assert (Hhead : protoc_java.CheckOutput command env'
                      = protoc_java.CheckOutput (protoc_command host o args) env);
        [|rewrite Hhead; by eexists].
      unfold protoc_java.finish in Hin.
      destruct (truthy (protoc_java.java_out_dir o)),
        (truthy (protoc_java.depfile o) && negb (truthy (protoc_java.srcjar o))),
        (truthy (protoc_java.depfile o)), (truthy (protoc_java.stamp o));
        simpl in Hin; intuition (try discriminate; try congruence).
Qed.

Lemma X20_witness_lite_plugin :
  validated options_srcjar = true /\
  exists rest,
    snd (protoc_java.main build_host options_srcjar ["a.proto"])
    = protoc_java.CheckOutput
        ["out/protoc"; "--proto_path"; "proto"; "--javalite_out=/tmp/tmpXYZ"; "a.proto"]
        [("PATH", "/b/out/plugin:/usr/bin"); ("HOME", "/root")]
      :: rest
    /\ forall command' env', ~ In (protoc_java.CheckOutput command' env') rest.
Proof.
  split; [reflexivity|].
  destruct (X20_protoc_is_run_once build_host options_srcjar ["a.proto"])
    as (_ & Hhead & Hrun & _).
  destruct Hrun as (env & rest & Hmain); [reflexivity|done|].
  destruct (Hhead _ _ _ Hmain) as (_ & Honce & _).
  exists rest. split; [|exact Honce].
  rewrite Hmain. f_equal.
  assert (Henv : Some env = Some [("PATH", "/b/out/plugin:/usr/bin"); ("HOME", "/root")]).
  { apply (f_equal (fun actions => match actions with
                                   | protoc_java.CheckOutput _ env :: _ => Some env
                                   | _ => None
                                   end)) in Hmain.
    rewrite <- Hmain. vm_compute. reflexivity. }
  by injection Henv as ->.
Defined.

(** ** A suite that [RunTests] rejects *)

Lemma RunTests_rejected env o device h :
  test_suite o <> "" -> recognised env h (test_suite o) = false ->
  RunTests_of env o device h
  = (Some (rejected_results (test_suite o)), rejected_messages (test_suite o)).
Proof.
  intros Hnamed [Hex Hapk]%orb_false_elim.
  unfold RunTests_of, RunTests. rewrite (truthy_named _ Hnamed).
  unfold bind at 1. unfold ask at 1. rewrite Hex, Hapk. cbn [negb andb app].
  unfold rejected_messages, rejected_results, bind, when, emit, ret.
  by destruct (existsb _ _).
Qed.

(** X21.  A named suite that [RunTests] rejects, on the path of the single
    device: [_RunATestSuite] logs the one or two messages of [RunTests]
    (the second one when the name is a bare name of the catalog), creates
    no runner, and returns 1 at the first attempt, whatever the retry
    budget: the suite is never retried. *)
Theorem X21_rejected_suite_is_not_retried (env : Env) (fuel : nat) (o : Options)
    (h : list Event) (device0 : Device) (rest : list Device) :
  test_suite o <> "" -> use_emulator o = 0%Z ->
  GetAttachedDevices env (h ++ [EvEnter o]) = device0 :: rest ->
  shards o (device0 :: rest) = false ->
  recognised env (h ++ [EvEnter o; EvGetAttachedDevices (device0 :: rest)])
    (test_suite o) = false ->
  _RunATestSuite env (S fuel) o h
  = (Some (1%Z, o),
     [EvEnter o; EvGetAttachedDevices (device0 :: rest)]
       ++ rejected_messages (test_suite o)
       ++ [EvVerdict (rejected_results (test_suite o))]).
Proof.
  intros Hnamed Hemu Hdevices Hshards Hrec.
  assert (Hattempt : run_attempt env o (h ++ [EvEnter o])
                     = (Some (Some (rejected_results (test_suite o))),
                        EvGetAttachedDevices (device0 :: rest)
                        :: rejected_messages (test_suite o))).
  { unfold run_attempt.
    change (?e :: rejected_messages ?s) with ([e] ++ rejected_messages s).
    eapply bind_Some.
    { rewrite acquire_targets_devices by (by rewrite Hemu). by rewrite Hdevices. }
    cbn [fst snd]. rewrite bool_decide_eq_false_2 by done.
    rewrite <- (app_nil_r (rejected_messages _)).
    eapply bind_Some; [|reflexivity].
    unfold run_on_targets.
    replace ((1 <? length (device0 :: rest)) && truthy (test_suite o)
             && negb (truthy (gtest_filter o)) && negb (performance_test o))
      with false.
    2:{ unfold shards in Hshards. rewrite (truthy_named _ Hnamed), andb_true_r.
        by rewrite Hshards. }
    rewrite <- app_assoc. apply (RunTests_rejected env o device0 _ Hnamed Hrec). }
  by rewrite (RunATestSuite_final env fuel o h _ _ Hattempt).
Qed.

Lemma X21_witness_bare_name :
  let o := set_test_suite "net_unittests" default_options in
  let env := bench (fun _ => ["device0"]) false results_passed in
  repeat o = 2%Z /\
  _RunATestSuite env 1 o []
  = (Some (1%Z, o),
     [EvEnter o; EvGetAttachedDevices ["device0"];
      EvCritical "Unrecognized test suite %s, supported: %s"
        ("net_unittests" :: _TEST_SUITES);
      EvCritical "(Remember to include the path: out/Release/%s)" ["net_unittests"];
      EvVerdict (rejected_results "net_unittests")]).
Proof.
  intros o env. split; [reflexivity|].
  by apply (X21_rejected_suite_is_not_retried env 0 o [] "device0" []).
Defined.
